(** * openai-gateway: routing, metrics and forwarding core

    A shallow embedding of the gateway's store (pkg/database), channel
    manager (internal/channel), model handler (internal/model), routing
    engine (internal/router), health checker (pkg/health), chat handler
    (internal/api) and auth middleware (internal/auth), with the
    properties the specification states about them and further
    properties of the code.

    Conventions of the embedding.
    - The SQLite store is a record of tables; a table is the list of its
      rows in rowid order.  Statements are functions on the store; a
      statement that SQLite rejects (a UNIQUE or FOREIGN KEY violation)
      returns [Failed].  I/O failures of the store are not modelled.
    - CURRENT_TIMESTAMP is a parameter [now], in whole seconds (SQLite's
      CURRENT_TIMESTAMP has a resolution of one second).
    - Go [int] and [int64] are [Z]; overflow is out of reach of the
      properties below and is not modelled.
    - Go [float64] and SQLite REAL are an abstract number type with the
      operations the code uses ([RealOps]); it is instantiated with the
      exact rationals [Qc] and with IEEE binary64 ([float]).  No
      property below divides by zero.
    - rand.Float64() is a parameter [u] of the functions that draw. *)

From Stdlib Require Import ZArith QArith Qcanon List String Ascii Bool Lia Lqa.
From Stdlib Require Import Floats.PrimFloat Floats.FloatAxioms Numbers.Cyclic.Int63.Uint63.
Import ListNotations.

Set Implicit Arguments.
Local Open Scope string_scope.
Local Open Scope list_scope.
Local Open Scope Z_scope.

(** ** Results of fallible calls: Go's [(value, error)] pairs *)

Inductive result (A : Type) : Type :=
| Ok (a : A)
| Failed (msg : string).
Arguments Ok {A} a.
Arguments Failed {A} msg.

Definition bind {A B} (r : result A) (k : A -> result B) : result B :=
  match r with
  | Ok a => k a
  | Failed msg => Failed msg
  end.

Notation "'do' x <- c ; k" := (bind c (fun x => k))
  (at level 10, x pattern, c at level 100, k at level 200).

(** ** Numbers: float64 / REAL *)

Class RealOps (R : Type) : Type := {
  ofZ : Z -> R;            (* float64(n), INTEGER -> REAL *)
  radd : R -> R -> R;
  rsub : R -> R -> R;
  rmul : R -> R -> R;
  rdiv : R -> R -> R;
  rltb : R -> R -> bool;   (* x < y *)
  rleb : R -> R -> bool;   (* x <= y *)
  tenth : R                (* the literal 0.1 *)
}.

Definition Qc_ltb (x y : Qc) : bool :=
  match (x ?= y)%Qc with Lt => true | _ => false end.

Definition Qc_leb (x y : Qc) : bool :=
  match (x ?= y)%Qc with Gt => false | _ => true end.

(** Exact arithmetic. *)
#[export] Instance exact : RealOps Qc := {|
  ofZ := fun z => Q2Qc (inject_Z z);
  radd := Qcplus;
  rsub := Qcminus;
  rmul := Qcmult;
  rdiv := Qcdiv;
  rltb := Qc_ltb;
  rleb := Qc_leb;
  tenth := Q2Qc (1 # 10)
|}.

(** [float64(n)] for [|n| < 2^63]. *)
Definition float_of_Z (z : Z) : float :=
  if z <? 0 then PrimFloat.opp (PrimFloat.of_uint63 (Uint63.of_Z (- z)))
  else PrimFloat.of_uint63 (Uint63.of_Z z).

(** IEEE 754 binary64, round to nearest even: what Go and SQLite compute. *)
Definition binary64 : RealOps float := {|
  ofZ := float_of_Z;
  radd := PrimFloat.add;
  rsub := PrimFloat.sub;
  rmul := PrimFloat.mul;
  rdiv := PrimFloat.div;
  rltb := PrimFloat.ltb;
  rleb := PrimFloat.leb;
  tenth := 0x1.999999999999ap-4%float
|}.

Definition boolToInt (b : bool) : Z := if b then 1 else 0.

(** * pkg/database *)

Module database.

(** ** Rows (the Go structs of the same names) *)

Module Channel.
Record t : Type := mk {
  ID : Z;
  Name : string;
  BaseURL : string;
  APIKey : string;
  Weight : Z;
  Enabled : bool;
  CreatedAt : Z;
  UpdatedAt : Z
}.
End Channel.

Module User.
Record t : Type := mk {
  ID : Z;
  APIKey : string;
  Name : string
}.
End User.

Module Model.
Record t : Type := mk {
  ID : Z;
  Name : string;
  CreatedAt : Z;
  UpdatedAt : Z
}.
End Model.

Module ModelChannel.
Record t : Type := mk {
  ID : Z;
  ModelID : Z;
  ChannelID : Z;
  BackendModelName : string;
  Weight : Z;
  CreatedAt : Z
}.
End ModelChannel.

Module Session.
Record t : Type := mk {
  ID : Z;
  UserID : Z;
  ChannelID : Z;
  LastUsedAt : Z;
  CreatedAt : Z
}.
End Session.

Module ChannelMetrics.
Record t (R : Type) : Type := mk {
  ChannelID : Z;
  LatencyAvg : R;
  ErrorRate : R;
  RequestCount : Z;
  SuccessCount : Z;
  LastUpdatedAt : Z
}.
End ChannelMetrics.

(** ** The store: one connection and the tables of the two migrations.

    [foreign_keys] is the connection's [PRAGMA foreign_keys]: SQLite
    checks FOREIGN KEY clauses and runs their ON DELETE CASCADE actions
    only while it is on.  The [*_seq] fields are the AUTOINCREMENT
    counters of sqlite_sequence. *)

Record DB (R : Type) : Type := mkDB {
  foreign_keys : bool;
  channels : list Channel.t;
  channels_seq : Z;
  users : list User.t;
  users_seq : Z;
  models : list Model.t;
  models_seq : Z;
  model_channels : list ModelChannel.t;
  model_channels_seq : Z;
  sessions : list Session.t;
  sessions_seq : Z;
  channel_metrics : list (ChannelMetrics.t R)
}.

Section Store.
Context {R : Type} {ops : RealOps R}.

(** [New]: [sql.Open("sqlite3", dbPath)] with the bare path, then the two
    migrations on an empty file.  Neither the data source name nor a
    statement turns [PRAGMA foreign_keys] on, so it keeps SQLite's
    default, off. *)
Definition New : DB R :=
  {| foreign_keys := false;
     channels := []; channels_seq := 0;
     users := []; users_seq := 0;
     models := []; models_seq := 0;
     model_channels := []; model_channels_seq := 0;
     sessions := []; sessions_seq := 0;
     channel_metrics := [] |}.

Definition set_channels (db : DB R) (rows : list Channel.t) (seq : Z) : DB R :=
  {| foreign_keys := foreign_keys db;
     channels := rows; channels_seq := seq;
     users := users db; users_seq := users_seq db;
     models := models db; models_seq := models_seq db;
     model_channels := model_channels db;
     model_channels_seq := model_channels_seq db;
     sessions := sessions db; sessions_seq := sessions_seq db;
     channel_metrics := channel_metrics db |}.

Definition set_models (db : DB R) (rows : list Model.t) (seq : Z) : DB R :=
  {| foreign_keys := foreign_keys db;
     channels := channels db; channels_seq := channels_seq db;
     users := users db; users_seq := users_seq db;
     models := rows; models_seq := seq;
     model_channels := model_channels db;
     model_channels_seq := model_channels_seq db;
     sessions := sessions db; sessions_seq := sessions_seq db;
     channel_metrics := channel_metrics db |}.

Definition set_model_channels (db : DB R) (rows : list ModelChannel.t) (seq : Z) : DB R :=
  {| foreign_keys := foreign_keys db;
     channels := channels db; channels_seq := channels_seq db;
     users := users db; users_seq := users_seq db;
     models := models db; models_seq := models_seq db;
     model_channels := rows;
     model_channels_seq := seq;
     sessions := sessions db; sessions_seq := sessions_seq db;
     channel_metrics := channel_metrics db |}.

Definition set_sessions (db : DB R) (rows : list Session.t) (seq : Z) : DB R :=
  {| foreign_keys := foreign_keys db;
     channels := channels db; channels_seq := channels_seq db;
     users := users db; users_seq := users_seq db;
     models := models db; models_seq := models_seq db;
     model_channels := model_channels db;
     model_channels_seq := model_channels_seq db;
     sessions := rows; sessions_seq := seq;
     channel_metrics := channel_metrics db |}.

Definition set_channel_metrics (db : DB R) (rows : list (ChannelMetrics.t R)) : DB R :=
  {| foreign_keys := foreign_keys db;
     channels := channels db; channels_seq := channels_seq db;
     users := users db; users_seq := users_seq db;
     models := models db; models_seq := models_seq db;
     model_channels := model_channels db;
     model_channels_seq := model_channels_seq db;
     sessions := sessions db; sessions_seq := sessions_seq db;
     channel_metrics := rows |}.

(** ** users *)

(** [INSERT INTO users (api_key, name)]; [api_key] is UNIQUE. *)
Definition CreateUser (user : User.t) (db : DB R) : result (User.t * DB R) :=
  if existsb (fun x => String.eqb (User.APIKey x) (User.APIKey user)) (users db)
  then Failed "failed to create user: UNIQUE constraint failed: users.api_key"
  else
    let id := users_seq db + 1 in
    let row := User.mk id (User.APIKey user) (User.Name user) in
    Ok (row,
        {| foreign_keys := foreign_keys db;
           channels := channels db; channels_seq := channels_seq db;
           users := users db ++ [row]; users_seq := id;
           models := models db; models_seq := models_seq db;
           model_channels := model_channels db;
           model_channels_seq := model_channels_seq db;
           sessions := sessions db; sessions_seq := sessions_seq db;
           channel_metrics := channel_metrics db |}).

(** ** channels *)

Definition has_channel (db : DB R) (id : Z) : bool :=
  existsb (fun c => Channel.ID c =? id) (channels db).

Definition has_user (db : DB R) (id : Z) : bool :=
  existsb (fun u => User.ID u =? id) (users db).

Definition has_model (db : DB R) (id : Z) : bool :=
  existsb (fun m => Model.ID m =? id) (models db).

(** [INSERT INTO channels (name, base_url, api_key, weight, enabled)];
    [name] is UNIQUE.  The struct handed back carries the new id and the
    caller's fields, as in Go. *)
Definition CreateChannel (now : Z) (channel : Channel.t) (db : DB R)
  : result (Channel.t * DB R) :=
  if existsb (fun c => String.eqb (Channel.Name c) (Channel.Name channel)) (channels db)
  then Failed "failed to create channel: UNIQUE constraint failed: channels.name"
  else
    let id := channels_seq db + 1 in
    let row := Channel.mk id (Channel.Name channel) (Channel.BaseURL channel)
                 (Channel.APIKey channel) (Channel.Weight channel)
                 (Channel.Enabled channel) now now in
    let out := Channel.mk id (Channel.Name channel) (Channel.BaseURL channel)
                 (Channel.APIKey channel) (Channel.Weight channel)
                 (Channel.Enabled channel) (Channel.CreatedAt channel)
                 (Channel.UpdatedAt channel) in
    Ok (out, set_channels db (channels db ++ [row]) id).

(** [SELECT ... FROM channels WHERE id = ?] *)
Definition GetChannel (db : DB R) (id : Z) : option Channel.t :=
  find (fun c => Channel.ID c =? id) (channels db).

(** [DELETE FROM channels WHERE id = ?].  The rows of model_channels,
    sessions and channel_metrics that reference the channel go with it
    (ON DELETE CASCADE) when the connection enforces foreign keys. *)
Definition DeleteChannel (id : Z) (db : DB R) : DB R :=
  let rows := filter (fun c => negb (Channel.ID c =? id)) (channels db) in
  if foreign_keys db then
    {| foreign_keys := foreign_keys db;
       channels := rows; channels_seq := channels_seq db;
       users := users db; users_seq := users_seq db;
       models := models db; models_seq := models_seq db;
       model_channels :=
         filter (fun mc => negb (ModelChannel.ChannelID mc =? id)) (model_channels db);
       model_channels_seq := model_channels_seq db;
       sessions := filter (fun s => negb (Session.ChannelID s =? id)) (sessions db);
       sessions_seq := sessions_seq db;
       channel_metrics :=
         filter (fun m => negb (ChannelMetrics.ChannelID m =? id)) (channel_metrics db) |}
  else set_channels db rows (channels_seq db).

(** ** models *)

(** [SELECT ... FROM models WHERE name = ?] *)
Definition GetModelByName (db : DB R) (name : string) : option Model.t :=
  find (fun m => String.eqb (Model.Name m) name) (models db).

(** [INSERT INTO models (name)]; [name] is UNIQUE. *)
Definition CreateModel (now : Z) (model : Model.t) (db : DB R)
  : result (Model.t * DB R) :=
  if existsb (fun m => String.eqb (Model.Name m) (Model.Name model)) (models db)
  then Failed "failed to create model: UNIQUE constraint failed: models.name"
  else
    let id := models_seq db + 1 in
    Ok (Model.mk id (Model.Name model) (Model.CreatedAt model) (Model.UpdatedAt model),
        set_models db (models db ++ [Model.mk id (Model.Name model) now now]) id).

(** [DELETE FROM models WHERE id = ?] *)
Definition DeleteModel (id : Z) (db : DB R) : DB R :=
  let rows := filter (fun m => negb (Model.ID m =? id)) (models db) in
  let db' := set_models db rows (models_seq db) in
  if foreign_keys db then
    set_model_channels db'
      (filter (fun mc => negb (ModelChannel.ModelID mc =? id)) (model_channels db))
      (model_channels_seq db)
  else db'.

(** ** model_channels *)

(** [AddModelChannel]: the weight defaults to 10, then
    [INSERT INTO model_channels (model_id, channel_id, backend_model_name, weight)];
    [(model_id, channel_id)] is UNIQUE. *)
Definition AddModelChannel (now : Z) (mc : ModelChannel.t) (db : DB R)
  : result (ModelChannel.t * DB R) :=
  let weight := if ModelChannel.Weight mc <=? 0 then 10 else ModelChannel.Weight mc in
  if existsb (fun r => (ModelChannel.ModelID r =? ModelChannel.ModelID mc)
                       && (ModelChannel.ChannelID r =? ModelChannel.ChannelID mc))
       (model_channels db)
  then Failed "failed to add model channel: UNIQUE constraint failed: model_channels.model_id, model_channels.channel_id"
  else if foreign_keys db
          && negb (has_model db (ModelChannel.ModelID mc)
                   && has_channel db (ModelChannel.ChannelID mc))
  then Failed "failed to add model channel: FOREIGN KEY constraint failed"
  else
    let id := model_channels_seq db + 1 in
    let row := ModelChannel.mk id (ModelChannel.ModelID mc) (ModelChannel.ChannelID mc)
                 (ModelChannel.BackendModelName mc) weight now in
    let out := ModelChannel.mk id (ModelChannel.ModelID mc) (ModelChannel.ChannelID mc)
                 (ModelChannel.BackendModelName mc) weight (ModelChannel.CreatedAt mc) in
    Ok (out, set_model_channels db (model_channels db ++ [row]) id).

(** [SELECT ... FROM model_channels WHERE model_id = ?] *)
Definition GetModelChannelsByModel (db : DB R) (modelID : Z) : list ModelChannel.t :=
  filter (fun mc => ModelChannel.ModelID mc =? modelID) (model_channels db).

(** [SELECT ... FROM model_channels WHERE channel_id = ?] *)
Definition GetModelChannelsByChannel (db : DB R) (channelID : Z) : list ModelChannel.t :=
  filter (fun mc => ModelChannel.ChannelID mc =? channelID) (model_channels db).

(** [DELETE FROM model_channels WHERE model_id = ?] *)
Definition RemoveAllModelChannelsForModel (modelID : Z) (db : DB R) : DB R :=
  set_model_channels db
    (filter (fun mc => negb (ModelChannel.ModelID mc =? modelID)) (model_channels db))
    (model_channels_seq db).

(** [DELETE FROM model_channels WHERE channel_id = ?] *)
Definition RemoveAllModelChannelsForChannel (channelID : Z) (db : DB R) : DB R :=
  set_model_channels db
    (filter (fun mc => negb (ModelChannel.ChannelID mc =? channelID)) (model_channels db))
    (model_channels_seq db).

(** ** sessions *)

(** [INSERT INTO sessions (user_id, channel_id)]; [(user_id, channel_id)]
    is UNIQUE; [last_used_at] and [created_at] default to
    CURRENT_TIMESTAMP. *)
Definition CreateSession (now : Z) (session : Session.t) (db : DB R)
  : result (Session.t * DB R) :=
  if existsb (fun s => (Session.UserID s =? Session.UserID session)
                       && (Session.ChannelID s =? Session.ChannelID session))
       (sessions db)
  then Failed "failed to create session: UNIQUE constraint failed: sessions.user_id, sessions.channel_id"
  else if foreign_keys db
          && negb (has_user db (Session.UserID session)
                   && has_channel db (Session.ChannelID session))
  then Failed "failed to create session: FOREIGN KEY constraint failed"
  else
    let id := sessions_seq db + 1 in
    let row := Session.mk id (Session.UserID session) (Session.ChannelID session) now now in
    let out := Session.mk id (Session.UserID session) (Session.ChannelID session)
                 (Session.LastUsedAt session) (Session.CreatedAt session) in
    Ok (out, set_sessions db (sessions db ++ [row]) id).

(** The row [ORDER BY last_used_at DESC LIMIT 1] keeps: a row with the
    greatest [last_used_at]; among equal ones the embedding keeps the
    first in rowid order (SQL leaves that choice open). *)
Definition newer (best : option Session.t) (s : Session.t) : option Session.t :=
  match best with
  | None => Some s
  | Some b => if Session.LastUsedAt b <? Session.LastUsedAt s then Some s else Some b
  end.

(** [SELECT ... FROM sessions WHERE user_id = ? ORDER BY last_used_at DESC LIMIT 1] *)
Definition GetSessionByUser (db : DB R) (userID : Z) : option Session.t :=
  fold_left newer (filter (fun s => Session.UserID s =? userID) (sessions db)) None.

(** [UPDATE sessions SET last_used_at = CURRENT_TIMESTAMP WHERE id = ?] *)
Definition UpdateSessionLastUsed (now : Z) (id : Z) (db : DB R) : DB R :=
  set_sessions db
    (map (fun s => if Session.ID s =? id
                   then Session.mk (Session.ID s) (Session.UserID s) (Session.ChannelID s)
                          now (Session.CreatedAt s)
                   else s) (sessions db))
    (sessions_seq db).

(** [SELECT ... FROM sessions WHERE id = ?] *)
Definition GetSession (db : DB R) (id : Z) : option Session.t :=
  find (fun s => Session.ID s =? id) (sessions db).

(** ** channel_metrics *)

(** [SELECT ... FROM channel_metrics WHERE channel_id = ?] *)
Definition GetChannelMetrics (db : DB R) (channelID : Z) : option (ChannelMetrics.t R) :=
  find (fun m => ChannelMetrics.ChannelID m =? channelID) (channel_metrics db).

(** The DO UPDATE clause of [UpdateChannelMetrics] on an existing row. *)
Definition update_row (now : Z) (latency : R) (success : bool)
  (m : ChannelMetrics.t R) : ChannelMetrics.t R :=
  let n := ChannelMetrics.RequestCount m in
  ChannelMetrics.mk (ChannelMetrics.ChannelID m)
    (rdiv (radd (rmul (ChannelMetrics.LatencyAvg m) (ofZ n)) latency) (ofZ (n + 1)))
    (rdiv (radd (rmul (ChannelMetrics.ErrorRate m) (ofZ n)) (ofZ (boolToInt (negb success))))
          (ofZ (n + 1)))
    (n + 1)
    (ChannelMetrics.SuccessCount m + boolToInt success)
    now.

(** [INSERT INTO channel_metrics ... VALUES (?, ?, ?, 1, ?, CURRENT_TIMESTAMP)
     ON CONFLICT(channel_id) DO UPDATE SET ...] *)
Definition UpdateChannelMetrics (now : Z) (channelID : Z) (latency : R) (success : bool)
  (db : DB R) : result (DB R) :=
  match GetChannelMetrics db channelID with
  | Some _ =>
      Ok (set_channel_metrics db
            (map (fun m => if ChannelMetrics.ChannelID m =? channelID
                           then update_row now latency success m else m)
               (channel_metrics db)))
  | None =>
      if foreign_keys db && negb (has_channel db channelID)
      then Failed "failed to update channel metrics: FOREIGN KEY constraint failed"
      else
        Ok (set_channel_metrics db
              (channel_metrics db ++
               [ChannelMetrics.mk channelID latency (ofZ (boolToInt (negb success))) 1
                  (boolToInt success) now]))
  end.

(** [DELETE FROM channel_metrics WHERE channel_id = ?] *)
Definition ResetChannelMetrics (channelID : Z) (db : DB R) : DB R :=
  set_channel_metrics db
    (filter (fun m => negb (ChannelMetrics.ChannelID m =? channelID)) (channel_metrics db)).

(** ** Further statements on users, channels, mappings and sessions *)

(** [SELECT ... FROM users WHERE api_key = ?] *)
Definition GetUserByAPIKey (db : DB R) (apiKey : string) : option User.t :=
  find (fun x => String.eqb (User.APIKey x) apiKey) (users db).

(** [DELETE FROM users WHERE id = ?]; the user's sessions go with the
    row when the connection enforces foreign keys. *)
Definition DeleteUser (id : Z) (db : DB R) : DB R :=
  {| foreign_keys := foreign_keys db;
     channels := channels db; channels_seq := channels_seq db;
     users := filter (fun x => negb (User.ID x =? id)) (users db);
     users_seq := users_seq db;
     models := models db; models_seq := models_seq db;
     model_channels := model_channels db;
     model_channels_seq := model_channels_seq db;
     sessions := if foreign_keys db
                 then filter (fun s => negb (Session.UserID s =? id)) (sessions db)
                 else sessions db;
     sessions_seq := sessions_seq db;
     channel_metrics := channel_metrics db |}.

(** [SELECT ... FROM channels WHERE enabled = 1] *)
Definition ListEnabledChannels (db : DB R) : list Channel.t :=
  filter Channel.Enabled (channels db).

(** [UPDATE channels SET name = ?, base_url = ?, api_key = ?, weight = ?,
     enabled = ?, updated_at = CURRENT_TIMESTAMP WHERE id = ?]; rejected
    when the row exists and another row has the new name. *)
Definition UpdateChannel (now : Z) (channel : Channel.t) (db : DB R) : result (DB R) :=
  if existsb (fun c => Channel.ID c =? Channel.ID channel) (channels db)
     && existsb (fun c => negb (Channel.ID c =? Channel.ID channel)
                          && String.eqb (Channel.Name c) (Channel.Name channel))
          (channels db)
  then Failed "failed to update channel: UNIQUE constraint failed: channels.name"
  else
    Ok (set_channels db
          (map (fun c => if Channel.ID c =? Channel.ID channel
                         then Channel.mk (Channel.ID c) (Channel.Name channel)
                                (Channel.BaseURL channel) (Channel.APIKey channel)
                                (Channel.Weight channel) (Channel.Enabled channel)
                                (Channel.CreatedAt c) now
                         else c) (channels db))
          (channels_seq db)).

(** [DELETE FROM model_channels WHERE model_id = ? AND channel_id = ?] *)
Definition RemoveModelChannel (modelID channelID : Z) (db : DB R) : DB R :=
  set_model_channels db
    (filter (fun mc => negb ((ModelChannel.ModelID mc =? modelID)
                             && (ModelChannel.ChannelID mc =? channelID)))
       (model_channels db))
    (model_channels_seq db).

(** [SELECT ... FROM sessions WHERE user_id = ? AND channel_id = ?] *)
Definition GetSessionByUserAndChannel (db : DB R) (userID channelID : Z)
  : option Session.t :=
  find (fun s => (Session.UserID s =? userID) && (Session.ChannelID s =? channelID))
    (sessions db).

(** [DELETE FROM sessions WHERE id = ?] *)
Definition DeleteSession (id : Z) (db : DB R) : DB R :=
  set_sessions db (filter (fun s => negb (Session.ID s =? id)) (sessions db))
    (sessions_seq db).

(** [DELETE FROM sessions WHERE last_used_at < datetime('now', '-N minutes')].
    For a negative [N] the modifier reads [--N minutes], which SQLite does
    not accept: [datetime] is NULL, the comparison is never true and no
    row is deleted. *)
Definition DeleteExpiredSessions (now : Z) (idleTimeoutMinutes : Z) (db : DB R) : DB R :=
  if idleTimeoutMinutes <? 0 then db
  else
    set_sessions db
      (filter (fun s => negb (Session.LastUsedAt s <? now - 60 * idleTimeoutMinutes))
         (sessions db))
      (sessions_seq db).

End Store.
End database.

(** * internal/channel *)

Module channel.
Import database.

Record CreateRequest : Type := mkCreateRequest {
  Name : string;
  BaseURL : string;
  APIKey : string;
  Weight : Z;
  Enabled : bool
}.

Section Manager.
Context {R : Type} {ops : RealOps R}.

(** [Manager.Create] *)
Definition Create (now : Z) (req : CreateRequest) (db : DB R)
  : result (Channel.t * DB R) :=
  let weight := if Weight req <=? 0 then 10 else Weight req in
  let channel := Channel.mk 0 (Name req) (BaseURL req) (APIKey req) weight (Enabled req) 0 0 in
  CreateChannel now channel db.

(** [Manager.Delete] *)
Definition Delete (id : Z) (db : DB R) : DB R :=
  DeleteChannel id db.

End Manager.

Module UpdateRequest.
Record t : Type := mk {
  Name : string;
  BaseURL : string;
  APIKey : string;
  Weight : Z;
  Enabled : option bool       (* *bool: [None] is nil *)
}.
End UpdateRequest.

Section ManagerUpdate.
Context {R : Type} {ops : RealOps R}.

(** [Manager.Update] *)
Definition Update (now : Z) (id : Z) (req : UpdateRequest.t) (db : DB R)
  : result (Channel.t * DB R) :=
  match GetChannel db id with
  | None => Failed "channel not found"
  | Some channel =>
      let channel :=
        Channel.mk (Channel.ID channel)
          (if String.eqb (UpdateRequest.Name req) "" then Channel.Name channel
           else UpdateRequest.Name req)
          (if String.eqb (UpdateRequest.BaseURL req) "" then Channel.BaseURL channel
           else UpdateRequest.BaseURL req)
          (if String.eqb (UpdateRequest.APIKey req) "" then Channel.APIKey channel
           else UpdateRequest.APIKey req)
          (if 0 <? UpdateRequest.Weight req then UpdateRequest.Weight req
           else Channel.Weight channel)
          (match UpdateRequest.Enabled req with
           | Some b => b
           | None => Channel.Enabled channel
           end)
          (Channel.CreatedAt channel) (Channel.UpdatedAt channel) in
      do db' <- UpdateChannel now channel db;
      Ok (channel, db')
  end.

End ManagerUpdate.
End channel.

(** * internal/model *)

Module model.
Import database.

Section Handler.
Context {R : Type} {ops : RealOps R}.

(** [Handler.DeleteModel] for a well-formed [:id]: first the model's
    mappings, then the model; the reply is 204. *)
Definition DeleteModel (id : Z) (db : DB R) : Z * DB R :=
  let db := RemoveAllModelChannelsForModel id db in
  let db := database.DeleteModel id db in
  (204, db).

(** [Handler.AddModelChannel] for a well-formed [:id] and a bound request
    body: 201 with the mapping, or 500. *)
Definition AddModelChannel (now : Z) (modelID channelID : Z) (backendModelName : string)
  (weight : Z) (db : DB R) : result (ModelChannel.t * DB R) :=
  database.AddModelChannel now
    (ModelChannel.mk 0 modelID channelID backendModelName weight 0) db.

End Handler.
End model.

(** * pkg/health *)

Module health.

Inductive Status : Type := StatusHealthy | StatusUnhealthy | StatusUnknown.

Record ChannelHealth : Type := mkChannelHealth {
  ChannelID : Z;
  status : Status;
  LastChecked : Z;
  LastError : string;
  ConsecutiveFailures : Z
}.

(** [Checker.statuses]: the map from channel id to health entry. *)
Definition Checker : Type := list (Z * ChannelHealth).

Definition NewChecker : Checker := [].

Fixpoint GetStatus (c : Checker) (channelID : Z) : option ChannelHealth :=
  match c with
  | [] => None
  | (k, h) :: rest => if k =? channelID then Some h else GetStatus rest channelID
  end.

Fixpoint store (c : Checker) (channelID : Z) (h : ChannelHealth) : Checker :=
  match c with
  | [] => [(channelID, h)]
  | (k, h0) :: rest =>
      if k =? channelID then (k, h) :: rest else (k, h0) :: store rest channelID h
  end.

(** [Checker.RegisterChannel] *)
Definition RegisterChannel (now : Z) (channelID : Z) (c : Checker) : Checker :=
  store c channelID (mkChannelHealth channelID StatusUnknown now "" 0).

(** [Checker.UpdateStatus] (passive detection); [err] is [None] for a
    nil error. *)
Definition UpdateStatus (now : Z) (channelID : Z) (healthy : bool) (err : option string)
  (c : Checker) : Checker :=
  match GetStatus c channelID with
  | None => c
  | Some st =>
      if healthy then
        store c channelID (mkChannelHealth (ChannelID st) StatusHealthy now "" 0)
      else
        let failures := ConsecutiveFailures st + 1 in
        store c channelID
          (mkChannelHealth (ChannelID st)
             (if 3 <=? failures then StatusUnhealthy else status st)
             now
             (match err with Some e => e | None => LastError st end)
             failures)
  end.

(** [Checker.UnregisterChannel] *)
Definition UnregisterChannel (channelID : Z) (c : Checker) : Checker :=
  filter (fun kh => negb (fst kh =? channelID)) c.

(** [Checker.checkChannel]: the active check only stamps the entry. *)
Definition checkChannel (now : Z) (channelID : Z) (c : Checker) : Checker :=
  match GetStatus c channelID with
  | Some st =>
      store c channelID
        (mkChannelHealth (ChannelID st) (status st) now (LastError st)
           (ConsecutiveFailures st))
  | None => c
  end.

(** [Checker.checkAll]: [checkChannel] on every registered id. *)
Definition checkAll (now : Z) (c : Checker) : Checker :=
  fold_left (fun acc id => checkChannel now id acc) (map fst c) c.

(** [k] passive failures in a row. *)
Fixpoint fail_times (k : nat) (now : Z) (channelID : Z) (err : option string) (c : Checker)
  : Checker :=
  match k with
  | O => c
  | S k' => fail_times k' now channelID err (UpdateStatus now channelID false err c)
  end.

End health.

(** * internal/router *)

Module router.
Import database.

Record RouteResult : Type := mkRouteResult {
  Channel : Channel.t;
  BackendModelName : string;
  SessionID : Z;
  IsNew : bool
}.

Record channelMapping : Type := mkMapping {
  channel : Channel.t;
  backendModelName : string;
  weight : Z
}.

Section Engine.
Context {R : Type} {ops : RealOps R}.

(** [Engine.calculateScore] *)
Definition calculateScore (db : DB R) (channel : Channel.t) : R :=
  let score := ofZ (Channel.Weight channel) in
  match GetChannelMetrics db (Channel.ID channel) with
  | None => score
  | Some metrics =>
      let score :=
        if rltb (ofZ 0) (ChannelMetrics.LatencyAvg metrics)
        then rmul score (rdiv (ofZ 1) (radd (ofZ 1) (ChannelMetrics.LatencyAvg metrics)))
        else score in
      let errorFactor := rsub (ofZ 1) (ChannelMetrics.ErrorRate metrics) in
      let errorFactor := if rltb errorFactor tenth then tenth else errorFactor in
      rmul score errorFactor
  end.

(** The selection loop of [selectBestMapping]: the first mapping at which
    the running sum reaches [r]. *)
Fixpoint pick (scored : list (channelMapping * R)) (r cumulative : R)
  : option channelMapping :=
  match scored with
  | [] => None
  | sc :: rest =>
      let cumulative := radd cumulative (snd sc) in
      if rleb r cumulative then Some (fst sc) else pick rest r cumulative
  end.

Definition score_of (db : DB R) (m : channelMapping) : R :=
  rmul (calculateScore db (channel m)) (ofZ (weight m)).

(** [Engine.selectBestMapping]; [u] is the value of [rand.Float64()].
    [None] stands for the index panic of Go on an empty slice. *)
Definition selectBestMapping (db : DB R) (mappings : list channelMapping) (u : R)
  : option channelMapping :=
  match mappings with
  | [m] => Some m
  | _ =>
      let scored := map (fun m => (m, score_of db m)) mappings in
      let totalScore := fold_left (fun t sc => radd t (snd sc)) scored (ofZ 0) in
      let r := rmul u totalScore in
      match pick scored r (ofZ 0) with
      | Some m => Some m
      | None => option_map fst (last (map Some scored) None)
      end
  end.

(** The candidates of the selection phase: the mappings of the model
    whose channel exists and is enabled, in the order of the query. *)
Definition candidates (db : DB R) (modelChannels : list ModelChannel.t)
  : list channelMapping :=
  flat_map (fun mc =>
    match GetChannel db (ModelChannel.ChannelID mc) with
    | Some ch =>
        if Channel.Enabled ch
        then [mkMapping ch (ModelChannel.BackendModelName mc) (ModelChannel.Weight mc)]
        else []
    | None => []
    end) modelChannels.

(** The second half of [Route], from "No valid session, find model by
    name" on. *)
Definition selection (now : Z) (u : R) (userID : Z) (model : string) (db : DB R)
  : result (RouteResult * DB R) :=
  match GetModelByName db model with
  | None => Failed ("model not found: " ++ model)
  | Some modelObj =>
      let modelChannels := GetModelChannelsByModel db (Model.ID modelObj) in
      match modelChannels with
      | [] => Failed ("no channels configured for model: " ++ model)
      | _ =>
          let mappings := candidates db modelChannels in
          match mappings with
          | [] => Failed ("no suitable channel found for model: " ++ model)
          | _ =>
              match selectBestMapping db mappings u with
              | None => Failed "index out of range"
              | Some bestMapping =>
                  do created <-
                    CreateSession now
                      (Session.mk 0 userID (Channel.ID (channel bestMapping)) 0 0) db;
                  Ok (mkRouteResult (channel bestMapping) (backendModelName bestMapping)
                        (Session.ID (fst created)) true,
                      snd created)
              end
          end
      end
  end.

(** [Engine.Route] *)
Definition Route (now : Z) (u : R) (userID : Z) (model : string) (db : DB R)
  : result (RouteResult * DB R) :=
  match GetSessionByUser db userID with
  | Some session =>
      match GetChannel db (Session.ChannelID session) with
      | Some channel =>
          if Channel.Enabled channel then
            match GetModelByName db model with
            | Some modelObj =>
                match find (fun mc => ModelChannel.ModelID mc =? Model.ID modelObj)
                        (GetModelChannelsByChannel db (Channel.ID channel)) with
                | Some mc =>
                    Ok (mkRouteResult channel (ModelChannel.BackendModelName mc)
                          (Session.ID session) false,
                        UpdateSessionLastUsed now (Session.ID session) db)
                | None => selection now u userID model db
                end
            | None => selection now u userID model db
            end
          else selection now u userID model db
      | None => selection now u userID model db
      end
  | None => selection now u userID model db
  end.

End Engine.
End router.

(** * internal/api *)

Module api.
Import database.

(** ** JSON values, as encoding/json reads and writes them *)

#[local] Unset Elimination Schemes.
Inductive json : Type :=
| JNull
| JBool (b : bool)
| JNum (literal : string)
| JStr (s : string)
| JArr (items : list json)
| JObj (members : list (string * json)).
#[local] Set Elimination Schemes.

Definition lower (c : ascii) : ascii :=
  let n := nat_of_ascii c in
  if (Nat.leb 65 n && Nat.leb n 90)%bool then ascii_of_nat (n + 32) else c.

(** Case folding of an object key: ASCII letters, and the two characters
    outside ASCII that fold to ASCII letters, U+017F (bytes C5 BF, folds
    to s) and U+212A (bytes E2 84 AA, folds to k). *)
Fixpoint fold_key (s : string) : string :=
  match s with
  | EmptyString => EmptyString
  | String "197"%char (String "191"%char rest) => String "s"%char (fold_key rest)
  | String "226"%char (String "132"%char (String "170"%char rest)) =>
      String "k"%char (fold_key rest)
  | String c rest => String (lower c) (fold_key rest)
  end.

(** encoding/json matches an object key to a struct field by its name,
    ignoring case. *)
Definition key_matches (field key : string) : bool :=
  String.eqb (fold_key field) (fold_key key).

Record ChatCompletionMessage : Type := mkMessage {
  Role : string;
  Content : string
}.

(** [Messages] is [None] for Go's nil slice. *)
Record ChatCompletionRequest : Type := mkRequest {
  Model : string;
  Messages : option (list ChatCompletionMessage);
  Stream : bool
}.

(** ** Decoding (json.Unmarshal) *)

(** The JSON kind a type error names. *)
Definition kind_name (v : json) : string :=
  match v with
  | JNull => "null"
  | JBool _ => "bool"
  | JNum _ => "number"
  | JStr _ => "string"
  | JArr _ => "array"
  | JObj _ => "object"
  end.

(** [UnmarshalTypeError.Error()] for a value met at the field path
    [field] while the struct [owner] is being decoded. *)
Definition type_error (v : json) (owner field type : string) : string :=
  "json: cannot unmarshal " ++ kind_name v ++ " into Go struct field "
    ++ owner ++ "." ++ field ++ " of type " ++ type.

Definition decode_string (owner field : string) (old : string) (v : json) : result string :=
  match v with
  | JStr s => Ok s
  | JNull => Ok old
  | _ => Failed (type_error v owner field "string")
  end.

Definition decode_bool (owner field : string) (old : bool) (v : json) : result bool :=
  match v with
  | JBool b => Ok b
  | JNull => Ok old
  | _ => Failed (type_error v owner field "bool")
  end.

Fixpoint decode_message_fields (members : list (string * json)) (m : ChatCompletionMessage)
  : result ChatCompletionMessage :=
  match members with
  | [] => Ok m
  | (k, v) :: rest =>
      if key_matches "role" k then
        do r <- decode_string "ChatCompletionMessage" "messages.role" (Role m) v;
        decode_message_fields rest (mkMessage r (Content m))
      else if key_matches "content" k then
        do c <- decode_string "ChatCompletionMessage" "messages.content" (Content m) v;
        decode_message_fields rest (mkMessage (Role m) c)
      else decode_message_fields rest m
  end.

(** One element of the array, decoded into the struct [base] that the
    slice holds at that index: members the object does not name keep the
    value [base] has, and [null] leaves [base] as it is. *)
Definition decode_message (base : ChatCompletionMessage) (v : json)
  : result ChatCompletionMessage :=
  match v with
  | JObj members => decode_message_fields members base
  | JNull => Ok base
  | _ => Failed (type_error v "ChatCompletionRequest" "messages" "api.ChatCompletionMessage")
  end.

(** The elements of an array, in order.  [held] is what the backing
    array of the slice holds from index 0 on: element [i] is decoded into
    [held[i]], and into the zero struct where [held] has ended. *)
Fixpoint decode_messages (items : list json) (held : list ChatCompletionMessage)
  : result (list ChatCompletionMessage) :=
  match items with
  | [] => Ok []
  | v :: rest =>
      do m <- decode_message (hd (mkMessage "" "") held) v;
      do ms <- decode_messages rest (tl held);
      Ok (m :: ms)
  end.

(** A value for the [messages] slice.  [old] is the slice so far and
    [spare] what its backing array holds behind its length.  An array is
    decoded into the elements already there and the length is set to the
    number of items, which leaves the rest of the old elements behind the
    length; an empty array gives a fresh empty slice, [null] the nil
    slice. *)
Definition decode_slice (old : option (list ChatCompletionMessage))
  (spare : list ChatCompletionMessage) (v : json)
  : result (option (list ChatCompletionMessage) * list ChatCompletionMessage) :=
  match v with
  | JArr [] => Ok (Some [], [])
  | JArr items =>
      let held := match old with Some l => l | None => [] end ++ spare in
      do ms <- decode_messages items held;
      Ok (Some ms, skipn (List.length items) held)
  | JNull => Ok (None, [])
  | _ => Failed (type_error v "ChatCompletionRequest" "messages" "[]api.ChatCompletionMessage")
  end.

(** The members of the request object, in order; a key that matches no
    field is skipped, a later member is decoded into what an earlier one
    left. *)
Fixpoint decode_request_fields (members : list (string * json)) (req : ChatCompletionRequest)
  (spare : list ChatCompletionMessage) : result ChatCompletionRequest :=
  match members with
  | [] => Ok req
  | (k, v) :: rest =>
      if key_matches "model" k then
        do m <- decode_string "ChatCompletionRequest" "model" (Model req) v;
        decode_request_fields rest (mkRequest m (Messages req) (Stream req)) spare
      else if key_matches "messages" k then
        do ms <- decode_slice (Messages req) spare v;
        decode_request_fields rest (mkRequest (Model req) (fst ms) (Stream req)) (snd ms)
      else if key_matches "stream" k then
        do s <- decode_bool "ChatCompletionRequest" "stream" (Stream req) v;
        decode_request_fields rest (mkRequest (Model req) (Messages req) s) spare
      else decode_request_fields rest req spare
  end.

Definition Unmarshal (body : json) : result ChatCompletionRequest :=
  match body with
  | JObj members => decode_request_fields members (mkRequest "" None false) []
  | JNull => Ok (mkRequest "" None false)
  | _ =>
      Failed ("json: cannot unmarshal " ++ kind_name body
              ++ " into Go value of type api.ChatCompletionRequest")
  end.

Definition newline : string := String (ascii_of_nat 10) EmptyString.

(** The [binding:"required"] tags: a string must not be empty, a slice
    must not be nil.  The error lists every field that fails, one per
    line. *)
Definition validate (req : ChatCompletionRequest) : result ChatCompletionRequest :=
  let model :=
    "Key: 'ChatCompletionRequest.Model' Error:Field validation for 'Model' failed on the 'required' tag" in
  let messages :=
    "Key: 'ChatCompletionRequest.Messages' Error:Field validation for 'Messages' failed on the 'required' tag" in
  match String.eqb (Model req) "", Messages req with
  | true, None => Failed (model ++ newline ++ messages)
  | true, Some _ => Failed model
  | false, None => Failed messages
  | false, Some _ => Ok req
  end.

(** [c.ShouldBindJSON(&req)] on a body that is well-formed JSON. *)
Definition ShouldBindJSON (body : json) : result ChatCompletionRequest :=
  do req <- Unmarshal body;
  validate req.

(** ** Encoding (json.Marshal) *)

Definition marshal_message (m : ChatCompletionMessage) : json :=
  JObj [("role", JStr (Role m)); ("content", JStr (Content m))].

Definition Marshal (req : ChatCompletionRequest) : json :=
  JObj ([("model", JStr (Model req));
         ("messages", match Messages req with
                      | None => JNull
                      | Some ms => JArr (map marshal_message ms)
                      end)]
        ++ (if Stream req then [("stream", JBool true)] else [])).

(** ** The outbound call *)

Record HttpRequest : Type := mkHttpRequest {
  method : string;
  url : string;
  content_type : string;
  authorization : string;
  body : json
}.

(** What the backend sends back: the status; the body, as its complete
    lines in order (each with its line feed) and the text after the last
    line feed; a read error that ends the body early, after these; and
    the body decoded as a chat-completion response ([None]: it does not
    decode). *)
Record Reply : Type := mkReply {
  status : Z;
  lines : list string;
  rest : string;
  read_error : option string;
  decoded : option json
}.

(** The body as [io.ReadAll] returns it. *)
Definition whole_body (resp : Reply) : string :=
  String.concat "" (lines resp) ++ rest resp.

(** The calls the handler makes, in order. *)
Inductive Event (R : Type) : Type :=
| EvRoute (userID : Z) (model : string)
| EvSend (req : HttpRequest)
| EvRecordChannelLatency (channel model : string) (duration : R)
| EvRecordChannelError (channel : string)
| EvUpdateChannelMetrics (channelID : Z) (latency : R) (success : bool)
| EvUpdateStatus (channelID : Z) (healthy : bool) (err : option string).
Arguments EvRoute {R}.
Arguments EvSend {R}.
Arguments EvRecordChannelLatency {R}.
Arguments EvRecordChannelError {R}.
Arguments EvUpdateChannelMetrics {R}.
Arguments EvUpdateStatus {R}.

(** The surroundings of one request: the store's clock when routing and
    when the metrics are written, the draw of rand.Float64(), whether
    http.NewRequest accepts a URL, the backend, and the measured
    duration in seconds. *)
Record Env (R : Type) : Type := mkEnv {
  now : Z;
  finished : Z;
  draw : R;
  url_ok : string -> bool;
  backend : HttpRequest -> result Reply;
  seconds : R
}.

(** What the caller receives as body: the object [{"error": msg}], a
    JSON value, the lines of a stream, or the lines of a stream followed
    by [{"error": msg}]. *)
Inductive Payload : Type :=
| PError (msg : string)
| PJson (j : json)
| PStream (written : list string)
| PStreamError (written : list string) (msg : string).

Record Outcome (R : Type) : Type := mkOutcome {
  code : Z;
  payload : Payload;
  store : DB R;
  trace : list (Event R)
}.

Section Handler.
Context {R : Type} {ops : RealOps R}.

Definition outbound (channel : Channel.t) (body : json) : HttpRequest :=
  mkHttpRequest "POST" (Channel.BaseURL channel ++ "/chat/completions")
    "application/json" ("Bearer " ++ Channel.APIKey channel) body.

(** [Handler.forwardRequest]: the request handed to the client (if it
    got that far) and the result. *)
Definition forwardRequest (env : Env R) (channel : Channel.t) (backendModelName : string)
  (req : ChatCompletionRequest) : option HttpRequest * result json :=
  let forwardReq := mkRequest backendModelName (Messages req) (Stream req) in
  let httpReq := outbound channel (Marshal forwardReq) in
  if url_ok env (url httpReq) then
    (Some httpReq,
     match backend env httpReq with
     | Failed e => Failed e
     | Ok resp =>
         if status resp =? 200 then
           match decoded resp with
           | Some j => Ok j
           | None => Failed "invalid character in response"
           end
         else Failed ("backend error: " ++ whole_body resp)
     end)
  else (None, Failed "net/url: invalid URL").

(** [Handler.forwardStreamRequest]: the request sent, the lines written
    to the caller, and the result.  Every complete line is written as it
    is read; the text after the last line feed is read together with the
    end of the body and is not written. *)
Definition forwardStreamRequest (env : Env R) (channel : Channel.t)
  (backendModelName : string) (req : ChatCompletionRequest)
  : option HttpRequest * list string * result unit :=
  let forwardReq := mkRequest backendModelName (Messages req) true in
  let httpReq := outbound channel (Marshal forwardReq) in
  if url_ok env (url httpReq) then
    match backend env httpReq with
    | Failed e => (Some httpReq, [], Failed e)
    | Ok resp =>
        if status resp =? 200 then
          match read_error resp with
          | Some e => (Some httpReq, lines resp, Failed e)
          | None => (Some httpReq, lines resp, Ok tt)
          end
        else (Some httpReq, [], Failed ("backend error: " ++ whole_body resp))
    end
  else (None, [], Failed "net/url: invalid URL").

Definition sent (r : option HttpRequest) : list (Event R) :=
  match r with Some q => [EvSend q] | None => [] end.

(** [h.db.UpdateChannelMetrics(...)], its error dropped. *)
Definition record (env : Env R) (channelID : Z) (success : bool) (db : DB R) : DB R :=
  match UpdateChannelMetrics (finished env) channelID (seconds env) success db with
  | Ok db' => db'
  | Failed _ => db
  end.

(** [Handler.ChatCompletions]; [userID] is the [user_id] of the gin
    context, [None] when the auth middleware has not set it.  [code] is
    the status the caller receives: the first line written to a stream
    sends the header with status 200, and the status of a later
    [c.JSON(502, ...)] is dropped while its body is appended. *)
Definition ChatCompletions (env : Env R) (userID : option Z) (body : json) (db : DB R)
  : Outcome R :=
  match userID with
  | None => mkOutcome 401 (PError "unauthorized") db []
  | Some userID =>
      match ShouldBindJSON body with
      | Failed e => mkOutcome 400 (PError e) db []
      | Ok req =>
          match router.Route (now env) (draw env) userID (Model req) db with
          | Failed e => mkOutcome 503 (PError e) db [EvRoute userID (Model req)]
          | Ok (routeResult, db) =>
              let ch := router.Channel routeResult in
              let calls := [EvRoute userID (Model req)] in
              if Stream req then
                let '(httpReq, written, res) :=
                  forwardStreamRequest env ch (router.BackendModelName routeResult) req in
                let calls := calls ++ sent httpReq
                  ++ [EvRecordChannelLatency (Channel.Name ch) (Model req) (seconds env)] in
                match res with
                | Failed e =>
                    let db := record env (Channel.ID ch) false db in
                    let calls :=
                      calls ++ [EvRecordChannelError (Channel.Name ch);
                                EvUpdateChannelMetrics (Channel.ID ch) (seconds env) false] in
                    match written with
                    | [] => mkOutcome 502 (PError e) db calls
                    | _ => mkOutcome 200 (PStreamError written e) db calls
                    end
                | Ok _ =>
                    mkOutcome 200 (PStream written) (record env (Channel.ID ch) true db)
                      (calls ++ [EvUpdateChannelMetrics (Channel.ID ch) (seconds env) true])
                end
              else
                let '(httpReq, res) :=
                  forwardRequest env ch (router.BackendModelName routeResult) req in
                let calls := calls ++ sent httpReq
                  ++ [EvRecordChannelLatency (Channel.Name ch) (Model req) (seconds env)] in
                match res with
                | Failed e =>
                    mkOutcome 502 (PError e) (record env (Channel.ID ch) false db)
                      (calls ++ [EvRecordChannelError (Channel.Name ch);
                                 EvUpdateChannelMetrics (Channel.ID ch) (seconds env) false])
                | Ok resp =>
                    mkOutcome 200 (PJson resp) (record env (Channel.ID ch) true db)
                      (calls ++ [EvUpdateChannelMetrics (Channel.ID ch) (seconds env) true])
                end
          end
      end
  end.

End Handler.
End api.

(** * internal/auth *)

Module auth.
Import database.

Definition byte (c : ascii) : Z := Z.of_N (N_of_ascii c).

(** The white space of [unicode.IsSpace], in UTF-8: the six ASCII
    characters, U+0085 and U+00A0, U+1680, U+2000 to U+200A, U+2028,
    U+2029, U+202F, U+205F and U+3000. *)
Definition space1 (c : ascii) : bool :=
  ((9 <=? byte c) && (byte c <=? 13)) || (byte c =? 32).

Definition space2 (b1 b2 : ascii) : bool :=
  (byte b1 =? 194) && ((byte b2 =? 133) || (byte b2 =? 160)).

Definition space3 (b1 b2 b3 : ascii) : bool :=
  ((byte b1 =? 225) && (byte b2 =? 154) && (byte b3 =? 128))
  || ((byte b1 =? 226) && (byte b2 =? 128)
      && (((128 <=? byte b3) && (byte b3 <=? 138))
          || (byte b3 =? 168) || (byte b3 =? 169) || (byte b3 =? 175)))
  || ((byte b1 =? 226) && (byte b2 =? 129) && (byte b3 =? 159))
  || ((byte b1 =? 227) && (byte b2 =? 128) && (byte b3 =? 128)).

(** The bytes after a leading white-space character, if there is one. *)
Definition skip_first (l : list ascii) : option (list ascii) :=
  match l with
  | [] => None
  | c :: r =>
      if space1 c then Some r
      else match r with
           | [] => None
           | d :: r2 =>
               if space2 c d then Some r2
               else match r2 with
                    | [] => None
                    | e :: r3 => if space3 c d e then Some r3 else None
                    end
           end
  end.

(** The same for a trailing white-space character, on the bytes in
    reverse order. *)
Definition skip_last (l : list ascii) : option (list ascii) :=
  match l with
  | [] => None
  | c :: r =>
      if space1 c then Some r
      else match r with
           | [] => None
           | d :: r2 =>
               if space2 d c then Some r2
               else match r2 with
                    | [] => None
                    | e :: r3 => if space3 e d c then Some r3 else None
                    end
           end
  end.

Fixpoint skip_all (skip : list ascii -> option (list ascii)) (fuel : nat) (l : list ascii)
  : list ascii :=
  match fuel with
  | O => l
  | S fuel' =>
      match skip l with
      | Some r => skip_all skip fuel' r
      | None => l
      end
  end.

(** [strings.TrimSpace] *)
Definition TrimSpace (s : string) : string :=
  let l := list_ascii_of_string s in
  let l := skip_all skip_first (List.length l) l in
  let l := skip_all skip_last (List.length l) (rev l) in
  string_of_list_ascii (rev l).

(** [strings.ToLower] on the ASCII letters.  Compared with a word of
    ASCII letters without [i] and [k] this is the comparison Go makes: the
    only characters outside ASCII whose lower case is an ASCII letter are
    U+0130 and U+212A. *)
Fixpoint ToLower (s : string) : string :=
  match s with
  | EmptyString => EmptyString
  | String c r => String (api.lower c) (ToLower r)
  end.

(** [strings.SplitN(s, " ", 2)]: the text before the first space and,
    when there is a space, the text after it. *)
Fixpoint SplitN2 (s : string) : string * option string :=
  match s with
  | EmptyString => (EmptyString, None)
  | String c r =>
      if Ascii.eqb c " "%char then (EmptyString, Some r)
      else (String c (fst (SplitN2 r)), snd (SplitN2 r))
  end.

(** [extractAPIKey]; [authorization] is the value of the Authorization
    header, empty when the header is absent. *)
Definition extractAPIKey (authorization : string) : string :=
  if String.eqb authorization "" then ""
  else
    match SplitN2 authorization with
    | (scheme, Some rest) =>
        if String.eqb (ToLower scheme) "bearer" then TrimSpace rest else ""
    | (_, None) => ""
    end.

Inductive Verdict : Type :=
| Rejected (code : Z) (error : string)     (* c.JSON(code, ...); c.Abort() *)
| Authenticated (user : User.t).           (* c.Set("user_id", user.ID); c.Next() *)

Section Middleware.
Context {R : Type} {ops : RealOps R}.

(** [Middleware.RequireAuth] *)
Definition RequireAuth (db : DB R) (authorization : string) : Verdict :=
  let apiKey := extractAPIKey authorization in
  if String.eqb apiKey "" then Rejected 401 "missing API key"
  else
    match GetUserByAPIKey db apiKey with
    | None => Rejected 401 "invalid API key"
    | Some user => Authenticated user
    end.

(** [Middleware.OptionalAuth]: the user set in the context, if any. *)
Definition OptionalAuth (db : DB R) (authorization : string) : option User.t :=
  let apiKey := extractAPIKey authorization in
  if String.eqb apiKey "" then None else GetUserByAPIKey db apiKey.

End Middleware.
End auth.

(** * The server: what [Run] wires together *)

Module server.
Import database.

(** The store and the health checker [Run] creates.  The API handler is
    built from the routing engine, the channel manager and the store; the
    health checker is handed to no handler. *)
Record App (R : Type) : Type := mkApp {
  db : DB R;
  healthChecker : health.Checker
}.

Section Run.
Context {R : Type} {ops : RealOps R}.

Definition Run : App R := mkApp New health.NewChecker.

(** POST /v1/chat/completions, after the auth filter. *)
Definition chat_completions (env : api.Env R) (userID : option Z) (body : api.json)
  (app : App R) : api.Outcome R * App R :=
  let out := api.ChatCompletions env userID body (db app) in
  (out, mkApp (api.store out) (healthChecker app)).

(** POST /v1/chat/completions as registered: [RequireAuth], then the
    handler. *)
Definition post_chat_completions (env : api.Env R) (authorization : string)
  (body : api.json) (app : App R) : api.Outcome R * App R :=
  match auth.RequireAuth (db app) authorization with
  | auth.Rejected code error => (api.mkOutcome code (api.PError error) (db app) [], app)
  | auth.Authenticated user => chat_completions env (Some (User.ID user)) body app
  end.

End Run.
End server.

(** * The metrics aggregator's [record], repeated *)

Module aggregator.
Import database.

Section Record.
Context {R : Type} {ops : RealOps R}.

(** [k] calls of [UpdateChannelMetrics] with the same arguments. *)
Fixpoint record_times (k : nat) (now : Z) (channelID : Z) (latency : R) (success : bool)
  (db : DB R) : result (DB R) :=
  match k with
  | O => Ok db
  | S k' =>
      do db' <- UpdateChannelMetrics now channelID latency success db;
      record_times k' now channelID latency success db'
  end.




Definition failures (calls : list (R * bool)) : Z :=
  Z.of_nat (List.length (filter (fun call => negb (snd call)) calls)).

End Record.
End aggregator.

(** * Invariants of the store *)

Module invariant.
Import database.

Section Invariants.
Context {R : Type}.

(** Every stored weight is positive. *)
Definition weights_positive (db : DB R) : Prop :=
  Forall (fun c => 0 < Channel.Weight c) (channels db)
  /\ Forall (fun mc => 0 < ModelChannel.Weight mc) (model_channels db).

(** UNIQUE(model_id, channel_id) on model_channels. *)
Definition unique_bindings (db : DB R) : Prop :=
  NoDup (map (fun mc => (ModelChannel.ModelID mc, ModelChannel.ChannelID mc))
           (model_channels db)).

(** PRIMARY KEY on sessions.id. *)
Definition unique_session_ids (db : DB R) : Prop :=
  NoDup (map Session.ID (sessions db)).

(** AUTOINCREMENT on sessions.id: no row is above the counter. *)
Definition session_ids_bounded (db : DB R) : Prop :=
  Forall (fun s => Session.ID s <= sessions_seq db) (sessions db).

(** UNIQUE(user_id, channel_id) on sessions. *)
Definition unique_user_channel (db : DB R) : Prop :=
  NoDup (map (fun s => (Session.UserID s, Session.ChannelID s)) (sessions db)).

(** UNIQUE on users.api_key. *)
Definition unique_api_keys (db : DB R) : Prop :=
  NoDup (map User.APIKey (users db)).

(** UNIQUE on models.name. *)
Definition unique_model_names (db : DB R) : Prop :=
  NoDup (map Model.Name (models db)).

(** AUTOINCREMENT on channels.id: no row is above the counter. *)
Definition channel_ids_bounded (db : DB R) : Prop :=
  Forall (fun c => Channel.ID c <= channels_seq db) (channels db).

End Invariants.
End invariant.

(** * The specification's statements, in its own words *)

Module spec.
Import database.

Section Scoring.
Context {R : Type} {ops : RealOps R}.

(** [max(x, y)]: [y], unless [y < x]. *)
Definition rmax (x y : R) : R := if rltb y x then x else y.

(** "Metrics exist for c": the row of the metrics table whose channel
    id is that of [c] (the id is the table's primary key). *)
Definition metrics_row (table : list (ChannelMetrics.t R)) (channelID : Z)
  : option (ChannelMetrics.t R) :=
  find (fun row => ChannelMetrics.ChannelID row =? channelID) table.

(** 4.1 step 3: the channel weight, times [1 / (1 + latencyAvg)] and
    [max(0.1, 1 - errorRate)] when the channel has a metrics row, times
    the binding weight. *)
Definition score (table : list (ChannelMetrics.t R)) (m : router.channelMapping) : R :=
  let c := router.channel m in
  let s := ofZ (Channel.Weight c) in
  let s :=
    match metrics_row table (Channel.ID c) with
    | Some row =>
        rmul (rmul s (rdiv (ofZ 1) (radd (ofZ 1) (ChannelMetrics.LatencyAvg row))))
             (rmax tenth (rsub (ofZ 1) (ChannelMetrics.ErrorRate row)))
    | None => s
    end in
  rmul s (ofZ (router.weight m)).


(** The sum of the first [i + 1] scores. *)
Definition running_sum (scores : list R) (i : nat) : R :=
  fold_left radd (firstn (S i) scores) (ofZ 0).

Definition total (scores : list R) : R := fold_left radd scores (ofZ 0).

(** 4.1 step 4: the first candidate, in order, whose running sum is at
    least [r]; the last candidate when there is none. *)
Definition sample (cands : list router.channelMapping) (scores : list R) (r : R)
  : option router.channelMapping :=
  match find (fun i => rleb r (running_sum scores i)) (seq 0 (List.length cands)) with
  | Some i => nth_error cands i
  | None => nth_error cands (List.length cands - 1)
  end.



(** 4.5 Rewriting, read on the request as the caller sent it: every
    member other than [model] is in the forwarded object, unchanged. *)
Definition passes_through (incoming forwarded : api.json) : Prop :=
  match incoming, forwarded with
  | api.JObj ins, api.JObj outs =>
      forall k v, In (k, v) ins -> api.key_matches "model" k = false -> In (k, v) outs
  | _, _ => False
  end.

Definition forwards_all_fields (env : api.Env R) (userID : Z) (body : api.json) (db : DB R)
  : Prop :=
  forall q, In (api.EvSend q) (api.trace (api.ChatCompletions env (Some userID) body db)) ->
            passes_through body (api.body q).

(** The requests handed to the HTTP client, in order. *)
Definition sent_requests (calls : list (api.Event R)) : list api.HttpRequest :=
  flat_map (fun e => match e with api.EvSend q => [q] | _ => [] end) calls.

(** The metrics writes, in order. *)
Definition metrics_writes (calls : list (api.Event R)) : list (Z * R * bool) :=
  flat_map (fun e => match e with
                     | api.EvUpdateChannelMetrics c l ok => [(c, l, ok)]
                     | _ => []
                     end) calls.

(** The body has no member that binds to the field. *)
Definition omits (field : string) (body : api.json) : bool :=
  match body with
  | api.JObj members => forallb (fun kv => negb (api.key_matches field (fst kv))) members
  | _ => true
  end.

Definition is_UpdateStatus (channelID : Z) (e : api.Event R) : bool :=
  match e with
  | api.EvUpdateStatus c _ _ => c =? channelID
  | _ => false
  end.

(** 4.3 Passive: the handler's calls include [UpdateStatus] for the
    channel. *)
Definition health_notified (out : api.Outcome R) (channelID : Z) : bool :=
  existsb (is_UpdateStatus channelID) (api.trace out).

(** The forward returned an error: the reply carries its text. *)
Definition forward_failed (out : api.Outcome R) : bool :=
  match api.payload out with
  | api.PError _ | api.PStreamError _ _ => true
  | api.PJson _ | api.PStream _ => false
  end.

(** 4.3 Passive, for one request: once the request is routed, the
    handler notifies the health monitor about the chosen channel. *)
Definition notifies_health (env : api.Env R) (userID : Z) (body : api.json) (db : DB R)
  : Prop :=
  forall req routed db1,
    api.ShouldBindJSON body = Ok req ->
    router.Route (api.now env) (api.draw env) userID (api.Model req) db = Ok (routed, db1) ->
    health_notified (api.ChatCompletions env (Some userID) body db)
      (Channel.ID (router.Channel routed)) = true.





(** 8: [lastUsedAt] of the session [id] is strictly greater in [db']
    than in [db]. *)
Definition lastUsedAt_increases (id : Z) (db db' : DB R) : Prop :=
  match GetSession db id, GetSession db' id with
  | Some s, Some s' => Session.LastUsedAt s < Session.LastUsedAt s'
  | _, _ => False
  end.

End Scoring.



End spec.

(** * Concrete stores and requests *)

Module example.
Import database.

Definition after {A R : Type} (r : result (A * DB R)) (otherwise : DB R) : DB R :=
  match r with
  | Ok (_, db) => db
  | Failed _ => otherwise
  end.

(** One user, channels [c1] and [c2], model [gpt-4] served by [c1] and
    model [claude] served by [c2]; every row written through the admin
    operations on a fresh store. *)
Definition two_models : DB Qc :=
  let db := New in
  let db := after (CreateUser (User.mk 0 "k" "U") db) db in
  let db := after (channel.Create 1 (channel.mkCreateRequest "c1" "https://one" "sk-1" 10 true) db) db in
  let db := after (channel.Create 2 (channel.mkCreateRequest "c2" "https://two" "sk-2" 1 true) db) db in
  let db := after (CreateModel 3 (Model.mk 0 "gpt-4" 0 0) db) db in
  let db := after (CreateModel 4 (Model.mk 0 "claude" 0 0) db) db in
  let db := after (model.AddModelChannel 5 1 1 "x" 1 db) db in
  let db := after (model.AddModelChannel 6 2 2 "y" 1 db) db in
  db.

(** The user asks for [gpt-4] at second 100: a first session, on [c1]. *)
Definition pinned : DB Qc :=
  after (router.Route 100 (Q2Qc 0) 1 "gpt-4" two_models) two_models.

(** ... then for [claude] at second 200: a second session, on [c2]. *)
Definition pinned_twice : DB Qc :=
  after (router.Route 200 (Q2Qc 0) 1 "claude" pinned) pinned.

(** [pinned] with one failed and one successful request recorded on
    [c1]. *)
Definition with_metrics : DB Qc :=
  let db := pinned in
  let db := after (do d <- UpdateChannelMetrics 101 1 (Q2Qc (1 # 2)) false db; Ok (tt, d)) db in
  let db := after (do d <- UpdateChannelMetrics 102 1 (Q2Qc (3 # 2)) true db; Ok (tt, d)) db in
  db.

(** One model served by both channels, metrics on [c1]. *)
Definition shared_model : DB Qc :=
  let db := two_models in
  let db := after (model.AddModelChannel 7 1 2 "z" 3 db) db in
  let db := after (do d <- UpdateChannelMetrics 8 1 (Q2Qc 1) false db; Ok (tt, d)) db in
  db.



Definition hello : list api.json :=
  [api.JObj [("role", api.JStr "user"); ("content", api.JStr "Hello!")]].

Definition plain_request : api.json :=
  api.JObj [("model", api.JStr "gpt-4"); ("messages", api.JArr hello)].

Definition request_with_temperature : api.json :=
  api.JObj [("model", api.JStr "gpt-4"); ("messages", api.JArr hello);
            ("temperature", api.JNum "0.7")].

Definition request_without_model : api.json :=
  api.JObj [("messages", api.JArr hello); ("stream", api.JBool true)].

Definition completion : api.json :=
  api.JObj [("id", api.JStr "test-id"); ("object", api.JStr "chat.completion")].

(** A backend that answers 200 with a completion. *)
Definition answering : api.Env Qc :=
  api.mkEnv 300 301 (Q2Qc 0) (fun _ => true)
    (fun _ => Ok (api.mkReply 200 [] "{}" None (Some completion)))
    (Q2Qc (1 # 4)).

(** A backend that answers 500. *)
Definition failing : api.Env Qc :=
  api.mkEnv 300 301 (Q2Qc 0) (fun _ => true)
    (fun _ => Ok (api.mkReply 500 [] "overloaded" None None))
    (Q2Qc (1 # 4)).


(** Three failed requests of 0.1 s on a fresh binary64 store. *)
Definition three_failures : result (DB float) :=
  @aggregator.record_times float binary64 3 1 1 0x1.999999999999ap-4%float false New.


(** [pinned_twice] after the admin has disabled [c2] at second 250. *)
Definition c2_disabled : DB Qc :=
  after (channel.Update 250 2 (channel.UpdateRequest.mk "" "" "" 0 (Some false)) pinned_twice)
    pinned_twice.

Definition request_for_unknown_model : api.json :=
  api.JObj [("model", api.JStr "nonesuch"); ("messages", api.JArr hello)].

(** A checker on which channel 1 was registered at second 10. *)
Definition one_registered : health.Checker :=
  health.RegisterChannel 10 1 (health.RegisterChannel 10 2 health.NewChecker).

(** [shared_model] after the admin has disabled [c2] at second 250. *)
Definition shared_c2_disabled : DB Qc :=
  after (channel.Update 250 2 (channel.UpdateRequest.mk "" "" "" 0 (Some false)) shared_model)
    shared_model.

End example.

(** * Properties *)

Import database.

(** ** Weights of the rows written by the admin operations *)

Section Weights.
Context {R : Type} {ops : RealOps R}.

Lemma default_weight_positive (w : Z) : 0 < (if w <=? 0 then 10 else w).
Proof. destruct (Z.leb_spec w 0); lia. Qed.

Lemma Create_row now req (db : DB R) ch db' :
  channel.Create now req db = Ok (ch, db') ->
  let w := if channel.Weight req <=? 0 then 10 else channel.Weight req in
  channels db' =
    channels db ++ [Channel.mk (channels_seq db + 1) (channel.Name req) (channel.BaseURL req)
                      (channel.APIKey req) w (channel.Enabled req) now now]
  /\ Channel.Weight ch = w.
Proof.
  unfold channel.Create, CreateChannel; cbn.
  destruct (existsb _ (channels db)); [discriminate|].
  intros H; inversion H; subst; clear H. cbn. split; reflexivity.
Qed.

Lemma AddModelChannel_row now mc (db : DB R) out db' :
  AddModelChannel now mc db = Ok (out, db') ->
  let w := if ModelChannel.Weight mc <=? 0 then 10 else ModelChannel.Weight mc in
  model_channels db' =
    model_channels db ++ [ModelChannel.mk (model_channels_seq db + 1) (ModelChannel.ModelID mc)
                            (ModelChannel.ChannelID mc) (ModelChannel.BackendModelName mc) w now]
  /\ ModelChannel.Weight out = w.
Proof.
  unfold AddModelChannel.
  destruct (existsb _ (model_channels db)); [discriminate|].
  destruct (foreign_keys db && _); [discriminate|].
  intros H; inversion H; subst; clear H. cbn. split; reflexivity.
Qed.

(** C9.  A channel created through [Manager.Create] and a mapping
    created through [AddModelChannel] are stored with a strictly positive
    weight: 10 when the request gives a weight <= 0 (the zero default
    included), the requested weight otherwise. *)
Theorem written_weights_positive :
  (forall now req (db : DB R) ch db',
      channel.Create now req db = Ok (ch, db') ->
      exists row,
        channels db' = channels db ++ [row]
        /\ Channel.Weight ch = Channel.Weight row
        /\ 0 < Channel.Weight row
        /\ (channel.Weight req <= 0 -> Channel.Weight row = 10)
        /\ (0 < channel.Weight req -> Channel.Weight row = channel.Weight req))
  /\ (forall now mc (db : DB R) out db',
      AddModelChannel now mc db = Ok (out, db') ->
      exists row,
        model_channels db' = model_channels db ++ [row]
        /\ ModelChannel.Weight out = ModelChannel.Weight row
        /\ 0 < ModelChannel.Weight row
        /\ (ModelChannel.Weight mc <= 0 -> ModelChannel.Weight row = 10)
        /\ (0 < ModelChannel.Weight mc -> ModelChannel.Weight row = ModelChannel.Weight mc)).
Proof.
  split.
  - intros now req db ch db' H.
    destruct (Create_row _ _ _ H) as [Hrows Hw].
    eexists; split; [exact Hrows|]. cbn.
    split; [exact Hw|]. split; [apply default_weight_positive|].
    destruct (Z.leb_spec (channel.Weight req) 0); split; intros; lia.
  - intros now mc db out db' H.
    destruct (AddModelChannel_row _ _ _ H) as [Hrows Hw].
    eexists; split; [exact Hrows|]. cbn.
    split; [exact Hw|]. split; [apply default_weight_positive|].
    destruct (Z.leb_spec (ModelChannel.Weight mc) 0); split; intros; lia.
Qed.

Lemma Create_keeps_weights now req (db : DB R) ch db' :
  invariant.weights_positive db -> channel.Create now req db = Ok (ch, db') -> invariant.weights_positive db'.
Proof.
  intros [Hc Hm] H. pose proof (Create_row _ _ _ H) as [Hrows _].
  unfold channel.Create, CreateChannel in H; cbn in H.
  destruct (existsb _ (channels db)); [discriminate|].
  inversion H; subst; clear H. split; cbn.
  - apply Forall_app; split; [exact Hc|].
    constructor; [cbn; apply default_weight_positive|constructor].
  - exact Hm.
Qed.

Lemma AddModelChannel_keeps_weights now mc (db : DB R) out db' :
  invariant.weights_positive db -> AddModelChannel now mc db = Ok (out, db') -> invariant.weights_positive db'.
Proof.
  intros [Hc Hm] H.
  unfold AddModelChannel in H.
  destruct (existsb _ (model_channels db)); [discriminate|].
  destruct (foreign_keys db && _); [discriminate|].
  inversion H; subst; clear H. split; cbn.
  - exact Hc.
  - apply Forall_app; split; [exact Hm|].
    constructor; [cbn; apply default_weight_positive|constructor].
Qed.

End Weights.

Lemma written_weights_positive_witness :
  (exists row,
      channels (example.after (channel.Create 1 (channel.mkCreateRequest "c1" "https://one" "sk-1" 0 true) (@New Qc)) (@New Qc))
      = channels (@New Qc) ++ [row]
      /\ Channel.Weight row = 10)
  /\ (exists row,
      model_channels (example.after (AddModelChannel 5 (ModelChannel.mk 0 1 1 "x" (-3) 0) (@New Qc)) (@New Qc))
      = model_channels (@New Qc) ++ [row]
      /\ ModelChannel.Weight row = 10).
Proof.
  split.
  - destruct (proj1 (@written_weights_positive Qc) 1
                (channel.mkCreateRequest "c1" "https://one" "sk-1" 0 true) (@New Qc)
                (Channel.mk 1 "c1" "https://one" "sk-1" 10 true 0 0)
                (example.after (channel.Create 1 (channel.mkCreateRequest "c1" "https://one" "sk-1" 0 true) (@New Qc)) (@New Qc))
                eq_refl) as [row [Hrows [_ [_ [Hten _]]]]].
    exists row. split; [exact Hrows|]. apply Hten. cbn. lia.
  - destruct (proj2 (@written_weights_positive Qc) 5
                (ModelChannel.mk 0 1 1 "x" (-3) 0) (@New Qc)
                (ModelChannel.mk 1 1 1 "x" 10 0)
                (example.after (AddModelChannel 5 (ModelChannel.mk 0 1 1 "x" (-3) 0) (@New Qc)) (@New Qc))
                eq_refl) as [row [Hrows [_ [_ [Hten _]]]]].
    exists row. split; [exact Hrows|]. apply Hten. cbn. lia.
Defined.

(** ** The metrics row of a channel *)

Section Metrics.
Context {R : Type} {ops : RealOps R}.

Lemma find_app_none {A} (p : A -> bool) l x :
  find p l = None -> find p (l ++ [x]) = if p x then Some x else None.
Proof.
  induction l as [|a l IH]; cbn; [reflexivity|].
  destruct (p a); [discriminate|exact IH].
Qed.

Lemma find_filter_negb {A} (p : A -> bool) l :
  find p (filter (fun x => negb (p x)) l) = None.
Proof.
  induction l as [|a l IH]; cbn; [reflexivity|].
  destruct (p a) eqn:E; cbn; [exact IH|]. rewrite E. exact IH.
Qed.

Lemma find_map_update {A} (p : A -> bool) (f : A -> A) l :
  (forall x, p (f x) = p x) ->
  find p (map (fun x => if p x then f x else x) l) = option_map f (find p l).
Proof.
  intros Hp. induction l as [|a l IH]; cbn; [reflexivity|].
  destruct (p a) eqn:E.
  - rewrite Hp, E. reflexivity.
  - rewrite E. exact IH.
Qed.

(** A first record inserts the row. *)
Lemma first_record now c (L : R) success (db : DB R) :
  GetChannelMetrics db c = None ->
  foreign_keys db = false \/ has_channel db c = true ->
  exists db',
    UpdateChannelMetrics now c L success db = Ok db'
    /\ foreign_keys db' = foreign_keys db
    /\ channels db' = channels db
    /\ GetChannelMetrics db' c =
       Some (ChannelMetrics.mk c L (ofZ (boolToInt (negb success))) 1 (boolToInt success) now).
Proof.
  intros Hnone Hfk. unfold UpdateChannelMetrics. rewrite Hnone.
  assert (foreign_keys db && negb (has_channel db c) = false) as ->.
  { destruct Hfk as [-> | ->]; [reflexivity|apply andb_false_r]. }
  eexists; split; [reflexivity|]. repeat split.
  unfold GetChannelMetrics in *; cbn.
  rewrite (find_app_none _ _ _ Hnone); cbn. rewrite Z.eqb_refl. reflexivity.
Qed.

(** A later record updates it in place. *)
Lemma next_record now c (L : R) success (db : DB R) row :
  GetChannelMetrics db c = Some row ->
  exists db',
    UpdateChannelMetrics now c L success db = Ok db'
    /\ foreign_keys db' = foreign_keys db
    /\ channels db' = channels db
    /\ GetChannelMetrics db' c = Some (update_row now L success row).
Proof.
  intros Hsome. unfold UpdateChannelMetrics. rewrite Hsome.
  eexists; split; [reflexivity|]. repeat split.
  unfold GetChannelMetrics in *; cbn.
  rewrite (find_map_update (fun m => ChannelMetrics.ChannelID m =? c)
             (update_row now L success)); [|reflexivity].
  rewrite Hsome. reflexivity.
Qed.

Lemma reset_clears c (db : DB R) :
  GetChannelMetrics (ResetChannelMetrics c db) c = None.
Proof.
  unfold GetChannelMetrics, ResetChannelMetrics; cbn.
  apply (find_filter_negb (fun m => ChannelMetrics.ChannelID m =? c)).
Qed.

(** C8.  [record(c, L1, true); reset(c); record(c, L2, true)] leaves the
    row of [c] with [latencyAvg = L2], [errorRate = 0] and
    [requestCount = 1], whatever the row was before: after a reset the
    next record is a first record. *)
Theorem record_reset_record now1 now2 c (L1 L2 : R) (db : DB R) :
  foreign_keys db = false \/ has_channel db c = true ->
  exists db1 db2,
    UpdateChannelMetrics now1 c L1 true db = Ok db1
    /\ UpdateChannelMetrics now2 c L2 true (ResetChannelMetrics c db1) = Ok db2
    /\ GetChannelMetrics db2 c = Some (ChannelMetrics.mk c L2 (ofZ 0) 1 1 now2).
Proof.
  intros Hfk.
  assert (exists db1, UpdateChannelMetrics now1 c L1 true db = Ok db1
                      /\ foreign_keys db1 = foreign_keys db
                      /\ channels db1 = channels db) as [db1 [H1 [Hf Hc]]].
  { destruct (GetChannelMetrics db c) as [row|] eqn:E.
    - destruct (@next_record now1 c L1 true db row E) as [d [? [? [? _]]]]. eauto.
    - destruct (@first_record now1 c L1 true db E Hfk) as [d [? [? [? _]]]]. eauto. }
  destruct (@first_record now2 c L2 true (ResetChannelMetrics c db1) (reset_clears c db1))
    as [db2 [H2 [_ [_ Hrow]]]].
  { cbn. unfold has_channel in *. cbn. rewrite Hf, Hc. exact Hfk. }
  exists db1, db2. repeat split; assumption.
Qed.

End Metrics.

Lemma record_reset_record_witness :
  exists db1 db2,
    UpdateChannelMetrics 101 1 (Q2Qc (1 # 2)) true example.with_metrics = Ok db1
    /\ UpdateChannelMetrics 102 1 (Q2Qc (3 # 4)) true (ResetChannelMetrics 1 db1) = Ok db2
    /\ GetChannelMetrics db2 1 = Some (ChannelMetrics.mk 1 (Q2Qc (3 # 4)) (Q2Qc 0) 1 1 102).
Proof.
  apply (@record_reset_record Qc exact 101 102 1 (Q2Qc (1 # 2)) (Q2Qc (3 # 4))
           example.with_metrics).
  left. reflexivity.
Defined.

(** ** Repeated failures *)











(** Three failed requests of 0.1 s in binary64: the counts and the error
    rate are as in exact arithmetic, the mean is one unit in the last
    place above 0.1. *)
Lemma binary64_three_failures :
  exists db',
    example.three_failures = Ok db'
    /\ GetChannelMetrics db' 1
       = Some (ChannelMetrics.mk 1 0x1.999999999999bp-4%float 1%float 3 0 1).
Proof.
  eexists. split; vm_compute; reflexivity.
Qed.


(** ** Binding the request body *)

#[local] Arguments api.key_matches : simpl never.

Lemma decode_keeps_model members :
  forallb (fun kv => negb (api.key_matches "model" (fst kv))) members = true ->
  forall req spare,
    match api.decode_request_fields members req spare with
    | Ok r => api.Model r = api.Model req
    | Failed _ => True
    end.
Proof.
  induction members as [|[k v] members IH]; intros Hall req spare;
    cbn [api.decode_request_fields forallb fst] in *.
  - reflexivity.
  - apply andb_true_iff in Hall as [Hk Hall]. apply negb_true_iff in Hk. rewrite Hk.
    destruct (api.key_matches "messages" k).
    { destruct (api.decode_slice (api.Messages req) spare v) as [ms|e]; cbn [bind]; [|exact I].
      apply (IH Hall (api.mkRequest (api.Model req) (fst ms) (api.Stream req))). }
    destruct (api.key_matches "stream" k).
    { destruct (api.decode_bool _ _ (api.Stream req) v) as [b|e]; cbn [bind]; [|exact I].
      apply (IH Hall (api.mkRequest (api.Model req) (api.Messages req) b)). }
    apply (IH Hall req).
Qed.

Lemma decode_keeps_messages members :
  forallb (fun kv => negb (api.key_matches "messages" (fst kv))) members = true ->
  forall req spare,
    match api.decode_request_fields members req spare with
    | Ok r => api.Messages r = api.Messages req
    | Failed _ => True
    end.
Proof.
  induction members as [|[k v] members IH]; intros Hall req spare;
    cbn [api.decode_request_fields forallb fst] in *.
  - reflexivity.
  - apply andb_true_iff in Hall as [Hk Hall]. apply negb_true_iff in Hk. rewrite Hk.
    destruct (api.key_matches "model" k).
    { destruct (api.decode_string _ _ (api.Model req) v) as [m|e]; cbn [bind]; [|exact I].
      apply (IH Hall (api.mkRequest m (api.Messages req) (api.Stream req))). }
    destruct (api.key_matches "stream" k).
    { destruct (api.decode_bool _ _ (api.Stream req) v) as [b|e]; cbn [bind]; [|exact I].
      apply (IH Hall (api.mkRequest (api.Model req) (api.Messages req) b)). }
    apply (IH Hall req).
Qed.

Lemma bind_needs_both body :
  spec.omits "model" body = true \/ spec.omits "messages" body = true ->
  exists e, api.ShouldBindJSON body = Failed e.
Proof.
  intros H. unfold api.ShouldBindJSON, api.Unmarshal.
  destruct body as [| | | | |members]; cbn; eauto.
  destruct H as [H|H]; cbn in H.
  - pose proof (decode_keeps_model _ H (api.mkRequest "" None false) []) as Hm.
    destruct (api.decode_request_fields members _ _) as [r|e]; cbn; eauto.
    cbn in Hm. unfold api.validate. rewrite Hm. cbn.
    destruct (api.Messages r); eauto.
  - pose proof (decode_keeps_messages _ H (api.mkRequest "" None false) []) as Hm.
    destruct (api.decode_request_fields members _ _) as [r|e]; cbn; eauto.
    cbn in Hm. unfold api.validate. rewrite Hm.
    destruct (String.eqb (api.Model r) ""); eauto.
Qed.

Section BadRequest.
Context {R : Type} {ops : RealOps R}.

(** C10.  An authenticated POST /v1/chat/completions whose body has no
    [model] member or no [messages] member is answered 400 before
    routing: the handler makes no call (no route, no forward, no metrics)
    and the store is unchanged. *)
Theorem bad_request_before_routing (env : api.Env R) userID body (db : DB R) :
  spec.omits "model" body = true \/ spec.omits "messages" body = true ->
  let out := api.ChatCompletions env (Some userID) body db in
  api.code out = 400 /\ api.store out = db /\ api.trace out = [].
Proof.
  intros H. destruct (bind_needs_both body H) as [e He].
  cbn. unfold api.ChatCompletions. rewrite He. cbn. repeat split.
Qed.

End BadRequest.

Lemma bad_request_before_routing_witness :
  let out := api.ChatCompletions example.answering (Some 1) example.request_without_model
               example.pinned in
  api.code out = 400 /\ api.store out = example.pinned /\ api.trace out = [].
Proof.
  apply (@bad_request_before_routing Qc exact example.answering 1
           example.request_without_model example.pinned).
  left. reflexivity.
Defined.

(** ** The forwarded body *)

Lemma bound_request_valid body req :
  api.ShouldBindJSON body = Ok req ->
  api.Model req <> "" /\ exists ms, api.Messages req = Some ms.
Proof.
  unfold api.ShouldBindJSON. destruct (api.Unmarshal body) as [r|e]; cbn; [|discriminate].
  unfold api.validate. destruct (String.eqb_spec (api.Model r) "");
    destruct (api.Messages r) as [ms|] eqn:E; try discriminate.
  intros H; inversion H; subst. split; [assumption|eauto].
Qed.

Lemma decode_marshalled_messages ms :
  api.decode_messages (map api.marshal_message ms) [] = Ok ms.
Proof.
  induction ms as [|[role content] ms IH]; cbn; [reflexivity|].
  change (api.key_matches "role" "role") with true.
  change (api.key_matches "role" "content") with false.
  change (api.key_matches "content" "content") with true.
  cbn. rewrite IH. reflexivity.
Qed.

Lemma decode_marshalled_slice ms :
  exists spare,
    api.decode_slice None [] (api.JArr (map api.marshal_message ms)) = Ok (Some ms, spare).
Proof.
  destruct ms as [|m ms]; [exists []; reflexivity|].
  change (api.decode_slice None [] (api.JArr (map api.marshal_message (m :: ms))))
    with (do ms0 <- api.decode_messages (map api.marshal_message (m :: ms)) [];
          Ok (Some ms0, skipn (List.length (map api.marshal_message (m :: ms)))
                          (@nil api.ChatCompletionMessage))).
  rewrite (decode_marshalled_messages (m :: ms)). cbn [bind]. eexists. reflexivity.
Qed.

(** What is forwarded reads back, on the backend's side, as the request
    with the model renamed. *)
Lemma marshalled_request_binds backendModelName ms stream :
  backendModelName <> "" ->
  api.ShouldBindJSON (api.Marshal (api.mkRequest backendModelName (Some ms) stream))
  = Ok (api.mkRequest backendModelName (Some ms) stream).
Proof.
  intros Hname. unfold api.ShouldBindJSON, api.Marshal, api.Unmarshal.
  cbn [api.Model api.Messages api.Stream app api.decode_request_fields].
  change (api.key_matches "model" "model") with true.
  change (api.key_matches "model" "messages") with false.
  change (api.key_matches "messages" "messages") with true.
  cbn [api.decode_string bind api.Model api.Messages api.Stream].
  destruct (decode_marshalled_slice ms) as [spare ->]. cbn [bind fst snd].
  assert (api.validate (api.mkRequest backendModelName (Some ms) stream)
          = Ok (api.mkRequest backendModelName (Some ms) stream)) as Hv.
  { unfold api.validate; cbn. destruct (String.eqb_spec backendModelName ""); [contradiction|reflexivity]. }
  destruct stream; cbn [app api.decode_request_fields].
  - change (api.key_matches "model" "stream") with false.
    change (api.key_matches "messages" "stream") with false.
    change (api.key_matches "stream" "stream") with true.
    cbn. exact Hv.
  - cbn. exact Hv.
Qed.

Section Forwarding.
Context {R : Type} {ops : RealOps R}.

(** C1, as the handler has it.  For a body that binds to the request
    [req] and a route to [(channel, backendModelName)], the one request
    handed to the HTTP client carries exactly: [model], rewritten to
    [backendModelName]; [messages], the role and content of each message
    in order; and [stream: true] when the request streams.  Members of
    the incoming body outside these three are not part of it. *)
Theorem forwarded_body (env : api.Env R) userID body (db : DB R) req routed db1 :
  api.ShouldBindJSON body = Ok req ->
  router.Route (api.now env) (api.draw env) userID (api.Model req) db = Ok (routed, db1) ->
  exists ms,
    api.Messages req = Some ms
    /\ let q :=
         api.outbound (router.Channel routed)
           (api.JObj
              ([("model", api.JStr (router.BackendModelName routed));
                ("messages",
                  api.JArr (map (fun m => api.JObj [("role", api.JStr (api.Role m));
                                                    ("content", api.JStr (api.Content m))]) ms))]
               ++ (if api.Stream req then [("stream", api.JBool true)] else []))) in
       spec.sent_requests (api.trace (api.ChatCompletions env (Some userID) body db))
       = if api.url_ok env (api.url q) then [q] else [].
Proof.
  intros Hbind Hroute.
  destruct (bound_request_valid _ Hbind) as [_ [ms Hms]].
  exists ms. split; [exact Hms|].
  cbv zeta. unfold api.ChatCompletions. rewrite Hbind, Hroute.
  destruct (api.Stream req) eqn:Hs.
  - unfold api.forwardStreamRequest, api.Marshal. rewrite Hms.
    cbn [api.Model api.Messages api.Stream api.outbound api.url].
    destruct (api.url_ok env _); [|reflexivity].
    destruct (api.backend env _) as [resp|e]; [|reflexivity].
    destruct (api.status resp =? 200); [|reflexivity].
    destruct (api.read_error resp); [destruct (api.lines resp)|]; reflexivity.
  - unfold api.forwardRequest, api.Marshal. rewrite Hms, Hs.
    cbn [api.Model api.Messages api.Stream api.outbound api.url].
    destruct (api.url_ok env _); [|reflexivity].
    destruct (api.backend env _) as [resp|e]; [|reflexivity].
    destruct (api.status resp =? 200); [|reflexivity].
    destruct (api.decoded resp); reflexivity.
Qed.

End Forwarding.

Lemma forwarded_body_witness :
  spec.sent_requests
    (api.trace (api.ChatCompletions example.answering (Some 1)
                  example.request_with_temperature example.two_models))
  = [api.mkHttpRequest "POST" "https://one/chat/completions" "application/json" "Bearer sk-1"
       (api.JObj [("model", api.JStr "x");
                  ("messages",
                    api.JArr [api.JObj [("role", api.JStr "user");
                                        ("content", api.JStr "Hello!")]])])].
Proof.
  destruct (@forwarded_body Qc exact example.answering 1 example.request_with_temperature
              example.two_models
              (api.mkRequest "gpt-4" (Some [api.mkMessage "user" "Hello!"]) false)
              (router.mkRouteResult (Channel.mk 1 "c1" "https://one" "sk-1" 10 true 1 1) "x" 1 true)
              (example.after (router.Route 300 (Q2Qc 0) 1 "gpt-4" example.two_models)
                 example.two_models))
    as [ms [Hms Hsent]].
  - vm_compute. reflexivity.
  - vm_compute. reflexivity.
  - inversion Hms; subst ms. exact Hsent.
Defined.

(** C1 as stated fails: the request as the caller sent it has a
    [temperature] member; the forwarded object has none. *)
Lemma temperature_not_forwarded :
  ~ spec.forwards_all_fields example.answering 1 example.request_with_temperature
      example.two_models.
Proof.
  intros H.
  specialize (H (api.mkHttpRequest "POST" "https://one/chat/completions" "application/json"
                   "Bearer sk-1"
                   (api.JObj [("model", api.JStr "x");
                              ("messages",
                                api.JArr [api.JObj [("role", api.JStr "user");
                                                    ("content", api.JStr "Hello!")]])]))).
  assert (In ("temperature", api.JNum "0.7")
            [("model", api.JStr "x");
             ("messages",
               api.JArr [api.JObj [("role", api.JStr "user"); ("content", api.JStr "Hello!")]])])
    as Hin.
  { apply H.
    - vm_compute. right. left. reflexivity.
    - right. right. left. reflexivity.
    - reflexivity. }
  destruct Hin as [Hin|[Hin|[]]]; discriminate Hin.
Qed.

(** ** What the handler reports after forwarding *)

Section Reporting.
Context {R : Type} {ops : RealOps R}.

Lemma no_UpdateStatus_call (env : api.Env R) userID body (db : DB R) c :
  spec.health_notified (api.ChatCompletions env userID body db) c = false.
Proof.
  unfold spec.health_notified, api.ChatCompletions.
  destruct userID as [uid|]; [|reflexivity].
  destruct (api.ShouldBindJSON body) as [req|e]; [|reflexivity].
  destruct (router.Route _ _ uid (api.Model req) db) as [[routed db1]|e]; [|reflexivity].
  destruct (api.Stream req).
  - unfold api.forwardStreamRequest.
    destruct (api.url_ok env _); [|reflexivity].
    destruct (api.backend env _) as [resp|e]; [|reflexivity].
    destruct (api.status resp =? 200); [|reflexivity].
    destruct (api.read_error resp); [destruct (api.lines resp)|]; reflexivity.
  - unfold api.forwardRequest.
    destruct (api.url_ok env _); [|reflexivity].
    destruct (api.backend env _) as [resp|e]; [|reflexivity].
    destruct (api.status resp =? 200); [|reflexivity].
    destruct (api.decoded resp); reflexivity.
Qed.

(** X28.  After every forwarded request, streaming or unary, the handler
    writes the channel's metrics once, with the measured duration and
    with [success] false exactly when the forward returned an error, also
    when a stream broke after its first lines had been written under
    status 200; it makes no [UpdateStatus] call, and the health checker's
    entries are what they were.  A request that is not routed writes no
    metrics. *)
Lemma forwarding_reports_metrics (env : api.Env R) userID body (app : server.App R) :
  let out := fst (server.chat_completions env userID body app) in
  let app' := snd (server.chat_completions env userID body app) in
  server.healthChecker app' = server.healthChecker app
  /\ (forall c, spec.health_notified out c = false)
  /\ match userID with
     | None => spec.metrics_writes (api.trace out) = []
     | Some uid =>
         match api.ShouldBindJSON body with
         | Failed _ => spec.metrics_writes (api.trace out) = []
         | Ok req =>
             match router.Route (api.now env) (api.draw env) uid (api.Model req)
                     (server.db app) with
             | Failed _ => spec.metrics_writes (api.trace out) = []
             | Ok (routed, db1) =>
                 let c := Channel.ID (router.Channel routed) in
                 let ok := negb (spec.forward_failed out) in
                 spec.metrics_writes (api.trace out) = [(c, api.seconds env, ok)]
                 /\ api.store out = api.record env c ok db1
             end
         end
     end.
Proof.
  cbv zeta. unfold server.chat_completions. cbn [fst snd server.healthChecker].
  split; [reflexivity|]. split; [intros c; apply no_UpdateStatus_call|].
  unfold api.ChatCompletions.
  destruct userID as [uid|]; [|reflexivity].
  destruct (api.ShouldBindJSON body) as [req|e]; [|reflexivity].
  destruct (router.Route _ _ uid (api.Model req) (server.db app)) as [[routed db1]|e];
    [|reflexivity].
  destruct (api.Stream req).
  - unfold api.forwardStreamRequest.
    destruct (api.url_ok env _); [|split; reflexivity].
    destruct (api.backend env _) as [resp|e]; [|split; reflexivity].
    destruct (api.status resp =? 200); [|split; reflexivity].
    destruct (api.read_error resp); [destruct (api.lines resp)|]; split; reflexivity.
  - unfold api.forwardRequest.
    destruct (api.url_ok env _); [|split; reflexivity].
    destruct (api.backend env _) as [resp|e]; [|split; reflexivity].
    destruct (api.status resp =? 200); [|split; reflexivity].
    destruct (api.decoded resp); split; reflexivity.
Qed.

End Reporting.

(** C3 at a request that is forwarded and fails.  On the store
    [two_models] and the checker [Run] creates, the request for [gpt-4]
    is routed to [c1], sent there, and answered 500; the handler answers
    502 and writes the failure to the metrics of [c1], and that is all:
    among its calls there is no [UpdateStatus], and the checker is what
    it was.  The same holds on a checker on which [c1] is registered:
    its entry stays at no failure, where the call the specification
    names would have counted one. *)
Theorem failed_forward_without_UpdateStatus :
  let run := server.chat_completions example.failing (Some 1) example.plain_request in
  let out := fst (run (server.mkApp example.two_models health.NewChecker)) in
  api.code out = 502
  /\ spec.sent_requests (api.trace out)
     = [api.mkHttpRequest "POST" "https://one/chat/completions" "application/json" "Bearer sk-1"
          (api.JObj [("model", api.JStr "x");
                     ("messages",
                       api.JArr [api.JObj [("role", api.JStr "user");
                                           ("content", api.JStr "Hello!")]])])]
  /\ spec.metrics_writes (api.trace out) = [(1, Q2Qc (1 # 4), false)]
  /\ spec.health_notified out 1 = false
  /\ server.healthChecker (snd (run (server.mkApp example.two_models health.NewChecker)))
     = health.NewChecker
  /\ health.GetStatus
       (server.healthChecker (snd (run (server.mkApp example.two_models example.one_registered))))
       1
     = Some (health.mkChannelHealth 1 health.StatusUnknown 10 "" 0)
  /\ health.GetStatus
       (health.UpdateStatus 301 1 false (Some "backend error: overloaded")
          example.one_registered) 1
     = Some (health.mkChannelHealth 1 health.StatusUnknown 301 "backend error: overloaded" 1)
  /\ ~ spec.notifies_health example.failing 1 example.plain_request example.two_models.
Proof.
  cbv zeta.
  split; [vm_compute; reflexivity|]. split; [vm_compute; reflexivity|].
  split; [vm_compute; reflexivity|]. split; [apply no_UpdateStatus_call|].
  split; [reflexivity|]. split; [vm_compute; reflexivity|]. split; [vm_compute; reflexivity|].
  intros H.
  specialize (H (api.mkRequest "gpt-4" (Some [api.mkMessage "user" "Hello!"]) false)
                (router.mkRouteResult (Channel.mk 1 "c1" "https://one" "sk-1" 10 true 1 1) "x" 1 true)
                (example.after (router.Route 300 (Q2Qc 0) 1 "gpt-4" example.two_models)
                   example.two_models)).
  assert (false = true) as Habs; [|discriminate Habs].
  rewrite <- H.
  - symmetry. apply no_UpdateStatus_call.
  - vm_compute. reflexivity.
  - vm_compute. reflexivity.
Qed.

(** ** Sticky routing *)

Section Sticky.
Context {R : Type} {ops : RealOps R}.

Lemma newer_fold l :
  forall acc s,
    fold_left newer l acc = Some s ->
    (acc = Some s \/ In s l)
    /\ (forall x, In x l -> Session.LastUsedAt x <= Session.LastUsedAt s)
    /\ (forall b, acc = Some b -> Session.LastUsedAt b <= Session.LastUsedAt s).
Proof.
  induction l as [|a l IH]; intros acc s H; cbn in H.
  - subst acc. split; [left; reflexivity|]. split; [intros x []|].
    intros b Hb; inversion Hb; subst; lia.
  - destruct (IH _ _ H) as [Hin [Hmax Hacc]].
    assert (Session.LastUsedAt a <= Session.LastUsedAt s
            /\ (forall b, acc = Some b -> Session.LastUsedAt b <= Session.LastUsedAt s)
            /\ (acc = Some s \/ In s (a :: l))) as [Ha [Hb Hs]].
    { destruct acc as [b|]; cbn in *.
      - destruct (Z.ltb_spec (Session.LastUsedAt b) (Session.LastUsedAt a)).
        + pose proof (Hacc a eq_refl). split; [lia|]. split.
          * intros b0 Hb0; inversion Hb0; subst; lia.
          * destruct Hin as [Hin|Hin]; [inversion Hin; subst; right; left; reflexivity|].
            right; right; exact Hin.
        + pose proof (Hacc b eq_refl). split; [lia|]. split.
          * intros b0 Hb0; inversion Hb0; subst; lia.
          * destruct Hin as [Hin|Hin]; [left; exact Hin|right; right; exact Hin].
      - pose proof (Hacc a eq_refl). split; [lia|]. split; [discriminate|].
        destruct Hin as [Hin|Hin]; [inversion Hin; subst; right; left; reflexivity|].
        right; right; exact Hin. }
    split; [exact Hs|]. split; [|exact Hb].
    intros x [Hx|Hx]; [subst; exact Ha|apply Hmax; exact Hx].
Qed.

(** [GetSessionByUser] returns a session of the user that no other
    session of the user is more recent than. *)
Lemma most_recent_session (db : DB R) userID s :
  GetSessionByUser db userID = Some s ->
  In s (sessions db)
  /\ Session.UserID s = userID
  /\ forall x, In x (sessions db) -> Session.UserID x = userID ->
               Session.LastUsedAt x <= Session.LastUsedAt s.
Proof.
  unfold GetSessionByUser. intros H.
  destruct (newer_fold _ _ H) as [[Hin|Hin] [Hmax _]]; [discriminate|].
  apply filter_In in Hin as [Hin Hu]. apply Z.eqb_eq in Hu.
  split; [exact Hin|]. split; [exact Hu|].
  intros x Hx Hxu. apply Hmax. apply filter_In. split; [exact Hx|].
  apply Z.eqb_eq; exact Hxu.
Qed.

Lemma NoDup_key_inj {A K} (key : A -> K) l x y :
  NoDup (map key l) -> In x l -> In y l -> key x = key y -> x = y.
Proof.
  induction l as [|a l IH]; cbn; intros Hnd Hx Hy Hk; [contradiction|].
  inversion Hnd as [|? ? Hnotin Hnd']; subst.
  destruct Hx as [Hx|Hx], Hy as [Hy|Hy]; subst.
  - reflexivity.
  - exfalso. apply Hnotin. rewrite Hk. apply in_map. exact Hy.
  - exfalso. apply Hnotin. rewrite <- Hk. apply in_map. exact Hx.
  - apply IH; assumption.
Qed.

Lemma find_filter {A} (p q : A -> bool) l :
  find p (filter q l) = find (fun x => q x && p x) l.
Proof.
  induction l as [|a l IH]; cbn; [reflexivity|].
  destruct (q a); cbn; [destruct (p a); [reflexivity|exact IH]|exact IH].
Qed.

(** Under UNIQUE(model_id, channel_id), the mapping the sticky phase
    finds for a channel and a model is the mapping of that pair. *)
Lemma sticky_binding (db : DB R) mc :
  invariant.unique_bindings db ->
  In mc (model_channels db) ->
  find (fun r => ModelChannel.ModelID r =? ModelChannel.ModelID mc)
    (GetModelChannelsByChannel db (ModelChannel.ChannelID mc)) = Some mc.
Proof.
  intros Hu Hin. unfold GetModelChannelsByChannel. rewrite find_filter.
  destruct (find _ (model_channels db)) as [r|] eqn:E.
  - apply find_some in E as [Hr Hk]. apply andb_true_iff in Hk as [Hc Hm].
    apply Z.eqb_eq in Hc, Hm. f_equal.
    apply (NoDup_key_inj (fun x => (ModelChannel.ModelID x, ModelChannel.ChannelID x))
             (model_channels db)); [exact Hu|exact Hr|exact Hin|].
    cbn. rewrite Hc, Hm. reflexivity.
  - exfalso. pose proof (find_none _ _ E mc Hin) as Hf. cbn in Hf.
    rewrite !Z.eqb_refl in Hf. discriminate.
Qed.

Lemma session_by_id (db : DB R) s :
  invariant.unique_session_ids db ->
  In s (sessions db) ->
  GetSession db (Session.ID s) = Some s.
Proof.
  intros Hu Hin. unfold GetSession.
  destruct (find _ (sessions db)) as [r|] eqn:E.
  - apply find_some in E as [Hr Hk]. apply Z.eqb_eq in Hk. f_equal.
    apply (NoDup_key_inj Session.ID (sessions db)); assumption.
  - exfalso. pose proof (find_none _ _ E s Hin) as Hf. cbn in Hf.
    rewrite Z.eqb_refl in Hf. discriminate.
Qed.

Lemma touched_session now (db : DB R) id s :
  GetSession db id = Some s ->
  GetSession (UpdateSessionLastUsed now id db) id
  = Some (Session.mk (Session.ID s) (Session.UserID s) (Session.ChannelID s) now
            (Session.CreatedAt s)).
Proof.
  unfold GetSession, UpdateSessionLastUsed; cbn. intros H.
  rewrite (find_map_update (fun x => Session.ID x =? id)
             (fun x => Session.mk (Session.ID x) (Session.UserID x) (Session.ChannelID x) now
                         (Session.CreatedAt x))); [|reflexivity].
  rewrite H. reflexivity.
Qed.

End Sticky.

Section StickyRoute.
Context {R : Type} {ops : RealOps R}.

(** C4, as the router has it.  When the user's most recently used
    session points to a channel that exists, is enabled and is bound to
    the requested model with backend name [B], [Route] returns that
    channel, [B], the session's id and [IsNew = false], and sets the
    session's [last_used_at] to the store's current second: it increases
    strictly exactly when that second is later than the stored one. *)
Theorem sticky_route now (u : R) userID modelName (db : DB R) s ch m mc :
  invariant.unique_bindings db ->
  invariant.unique_session_ids db ->
  GetSessionByUser db userID = Some s ->
  GetChannel db (Session.ChannelID s) = Some ch ->
  Channel.Enabled ch = true ->
  GetModelByName db modelName = Some m ->
  In mc (model_channels db) ->
  ModelChannel.ModelID mc = Model.ID m ->
  ModelChannel.ChannelID mc = Channel.ID ch ->
  exists db',
    router.Route now u userID modelName db
    = Ok (router.mkRouteResult ch (ModelChannel.BackendModelName mc) (Session.ID s) false, db')
    /\ GetSession db' (Session.ID s)
       = Some (Session.mk (Session.ID s) userID (Session.ChannelID s) now (Session.CreatedAt s))
    /\ (spec.lastUsedAt_increases (Session.ID s) db db' <-> Session.LastUsedAt s < now).
Proof.
  intros Hub Hus Hs Hch Hen Hm Hin Hmid Hcid.
  destruct (@most_recent_session R db userID s Hs) as [Hsin [Huser _]].
  pose proof (@session_by_id R db s Hus Hsin) as Hget.
  exists (UpdateSessionLastUsed now (Session.ID s) db).
  split; [|split].
  - unfold router.Route. rewrite Hs, Hch, Hen, Hm.
    rewrite <- Hmid, <- Hcid. rewrite (@sticky_binding R db mc Hub Hin). reflexivity.
  - rewrite (@touched_session R now db (Session.ID s) s Hget). rewrite Huser. reflexivity.
  - unfold spec.lastUsedAt_increases.
    rewrite Hget, (@touched_session R now db (Session.ID s) s Hget). cbn. reflexivity.
Qed.

End StickyRoute.

Lemma sticky_route_witness :
  exists db',
    router.Route 150 (Q2Qc 0) 1 "gpt-4" example.pinned
    = Ok (router.mkRouteResult (Channel.mk 1 "c1" "https://one" "sk-1" 10 true 1 1) "x" 1 false,
          db')
    /\ GetSession db' 1 = Some (Session.mk 1 1 1 150 100)
    /\ (spec.lastUsedAt_increases 1 example.pinned db' <-> 100 < 150).
Proof.
  apply (@sticky_route Qc exact 150 (Q2Qc 0) 1 "gpt-4" example.pinned
           (Session.mk 1 1 1 100 100)
           (Channel.mk 1 "c1" "https://one" "sk-1" 10 true 1 1)
           (Model.mk 1 "gpt-4" 3 3)
           (ModelChannel.mk 1 1 1 "x" 1 5)).
  - vm_compute. repeat constructor; cbn; intuition discriminate.
  - vm_compute. repeat constructor; cbn; intuition discriminate.
  - vm_compute. reflexivity.
  - vm_compute. reflexivity.
  - reflexivity.
  - vm_compute. reflexivity.
  - vm_compute. left. reflexivity.
  - reflexivity.
  - reflexivity.
Defined.

(** C4 as stated fails: a second request in the second in which the
    session was created takes the sticky route and [last_used_at] stays
    at 100. *)
Lemma same_second_keeps_lastUsedAt :
  exists db',
    router.Route 100 (Q2Qc 0) 1 "gpt-4" example.pinned
    = Ok (router.mkRouteResult (Channel.mk 1 "c1" "https://one" "sk-1" 10 true 1 1) "x" 1 false,
          db')
    /\ ~ spec.lastUsedAt_increases 1 example.pinned db'.
Proof.
  eexists. split.
  - vm_compute. reflexivity.
  - vm_compute. intros H. discriminate H.
Qed.

(** ** The session record of the selection phase *)

Section SessionRecord.
Context {R : Type} {ops : RealOps R}.

(** The INSERT of [CreateSession] is rejected when the user already
    has a session on the channel. *)
Lemma CreateSession_existing now (db : DB R) s userID channelID :
  In s (sessions db) ->
  Session.UserID s = userID ->
  Session.ChannelID s = channelID ->
  CreateSession now (Session.mk 0 userID channelID 0 0) db
  = Failed "failed to create session: UNIQUE constraint failed: sessions.user_id, sessions.channel_id".
Proof.
  intros Hin Hu Hc. unfold CreateSession.
  assert (existsb (fun x => (Session.UserID x =? userID) && (Session.ChannelID x =? channelID))
            (sessions db) = true) as H.
  { apply existsb_exists. exists s. split; [exact Hin|].
    rewrite Hu, Hc, !Z.eqb_refl. reflexivity. }
  cbn. rewrite H. reflexivity.
Qed.

End SessionRecord.

(** C7 at a store the gateway reaches: the user asked for [gpt-4]
    (session on [c1]), then for [claude] (session on [c2], now the most
    recent one), and asks for [gpt-4] again.  [c2] does not serve
    [gpt-4], the selection phase chooses [c1], and the INSERT of the
    session is rejected: [Route] fails. *)
Theorem route_fails_on_older_session :
  GetSessionByUser example.pinned_twice 1 = Some (Session.mk 2 1 2 200 200)
  /\ In (Session.mk 1 1 1 100 100) (sessions example.pinned_twice)
  /\ router.Route 300 (Q2Qc 0) 1 "gpt-4" example.pinned_twice
     = Failed "failed to create session: UNIQUE constraint failed: sessions.user_id, sessions.channel_id".
Proof.
  split; [vm_compute; reflexivity|]. split; [vm_compute; left; reflexivity|].
  vm_compute. reflexivity.
Qed.

(** ** Deletion *)

Section Deletion.
Context {R : Type} {ops : RealOps R}.

(** Without foreign-key enforcement [DeleteChannel] removes the channel
    row and nothing else. *)
Lemma DeleteChannel_without_foreign_keys id (db : DB R) :
  foreign_keys db = false ->
  let db' := channel.Delete id db in
  GetChannel db' id = None
  /\ model_channels db' = model_channels db
  /\ sessions db' = sessions db
  /\ channel_metrics db' = channel_metrics db.
Proof.
  intros Hfk. cbv zeta. unfold channel.Delete, DeleteChannel. rewrite Hfk. cbn.
  repeat split. unfold GetChannel; cbn.
  apply (find_filter_negb (fun c => Channel.ID c =? id)).
Qed.

(** With it, the rows that reference the channel go too, and only
    they. *)
Lemma DeleteChannel_with_foreign_keys id (db : DB R) :
  foreign_keys db = true ->
  let db' := channel.Delete id db in
  GetChannel db' id = None
  /\ model_channels db'
     = filter (fun mc => negb (ModelChannel.ChannelID mc =? id)) (model_channels db)
  /\ sessions db' = filter (fun s => negb (Session.ChannelID s =? id)) (sessions db)
  /\ channel_metrics db'
     = filter (fun m => negb (ChannelMetrics.ChannelID m =? id)) (channel_metrics db)
  /\ models db' = models db /\ users db' = users db.
Proof.
  intros Hfk. cbv zeta. unfold channel.Delete, DeleteChannel. rewrite Hfk. cbn.
  repeat split. unfold GetChannel; cbn.
  apply (find_filter_negb (fun c => Channel.ID c =? id)).
Qed.

(** The model handler removes the model's mappings itself. *)
Lemma DeleteModel_removes_mappings id (db : DB R) :
  let db' := snd (model.DeleteModel id db) in
  model_channels db'
  = filter (fun mc => negb (ModelChannel.ModelID mc =? id)) (model_channels db)
  /\ GetModelChannelsByModel db' id = []
  /\ channels db' = channels db
  /\ sessions db' = sessions db
  /\ channel_metrics db' = channel_metrics db
  /\ users db' = users db.
Proof.
  cbv zeta. unfold model.DeleteModel, DeleteModel, RemoveAllModelChannelsForModel. cbn.
  assert (forall l, filter (fun mc => ModelChannel.ModelID mc =? id)
                      (filter (fun mc => negb (ModelChannel.ModelID mc =? id)) l) = []) as Hnone.
  { induction l as [|a l IH]; cbn; [reflexivity|].
    destruct (ModelChannel.ModelID a =? id) eqn:E; cbn; [exact IH|]. rewrite E. exact IH. }
  assert (forall l, filter (fun mc => negb (ModelChannel.ModelID mc =? id))
                      (filter (fun mc => negb (ModelChannel.ModelID mc =? id)) l)
                    = filter (fun mc => negb (ModelChannel.ModelID mc =? id)) l) as Hidem.
  { induction l as [|a l IH]; cbn; [reflexivity|].
    destruct (ModelChannel.ModelID a =? id) eqn:E; cbn; [exact IH|]. rewrite E. cbn.
    rewrite IH. reflexivity. }
  unfold GetModelChannelsByModel.
  destruct (foreign_keys db); cbn; rewrite ?Hidem, ?Hnone; repeat split.
Qed.

End Deletion.

(** C2 at a store the gateway reaches ([c1] has a mapping, a session and
    a metrics row; the store is the one [New] opens): after
    [Manager.Delete] the channel is gone and its mapping, its session and
    its metrics row are still there. *)
Theorem delete_channel_leaves_dependents :
  foreign_keys example.with_metrics = false
  /\ GetChannel (channel.Delete 1 example.with_metrics) 1 = None
  /\ GetModelChannelsByChannel (channel.Delete 1 example.with_metrics) 1
     = [ModelChannel.mk 1 1 1 "x" 1 5]
  /\ GetSessionByUser (channel.Delete 1 example.with_metrics) 1
     = Some (Session.mk 1 1 1 100 100)
  /\ option_map (@ChannelMetrics.RequestCount Qc)
       (GetChannelMetrics (channel.Delete 1 example.with_metrics) 1) = Some 2.
Proof.
  repeat split; vm_compute; reflexivity.
Qed.

(** ** Scoring and sampling *)

Section Sampling.
Context {R : Type} {ops : RealOps R}.

Lemma find_map_S (f : nat -> bool) l :
  find f (map S l) = option_map S (find (fun i => f (S i)) l).
Proof.
  induction l as [|a l IH]; cbn; [reflexivity|].
  destruct (f (S a)); [reflexivity|exact IH].
Qed.

(** The loop of [selectBestMapping] stops at the first index whose
    running sum, started from [c], reaches [r]. *)
Lemma pick_first_index (scored : list (router.channelMapping * R)) (r : R) :
  forall c,
    router.pick scored r c
    = match find (fun i => rleb r (fold_left radd (firstn (S i) (map snd scored)) c))
              (seq 0 (List.length scored)) with
      | Some i => nth_error (map fst scored) i
      | None => None
      end.
Proof.
  induction scored as [|sc rest IH]; intros c; [reflexivity|].
  cbn [router.pick List.length seq find map firstn fold_left].
  destruct (rleb r (radd c (snd sc))); [reflexivity|].
  rewrite <- seq_shift, find_map_S, IH.
  cbn [firstn fold_left].
  destruct (find _ (seq 0 (List.length rest))) as [i|]; reflexivity.
Qed.

Lemma fold_left_snd (scored : list (router.channelMapping * R)) (c : R) :
  fold_left (fun t sc => radd t (snd sc)) scored c = fold_left radd (map snd scored) c.
Proof.
  revert c. induction scored as [|sc rest IH]; intros c; cbn; [reflexivity|apply IH].
Qed.

Lemma last_is_nth {A} (l : list A) :
  last (map Some l) None = nth_error l (List.length l - 1).
Proof.
  induction l as [|a l IH]; [reflexivity|].
  destruct l as [|b l]; [reflexivity|].
  change (last (map Some (a :: b :: l)) None) with (last (map Some (b :: l)) None).
  rewrite IH. cbn [List.length]. rewrite !Nat.sub_succ, !Nat.sub_0_r. reflexivity.
Qed.

(** [selectBestMapping] is the sampling of step 4 over the scores it
    computes. *)
Lemma selectBestMapping_samples (db : DB R) mappings (u : R) :
  mappings <> [] ->
  let scores := map (router.score_of db) mappings in
  router.selectBestMapping db mappings u
  = spec.sample mappings scores (rmul u (spec.total scores)).
Proof.
  intros Hne scores. unfold spec.sample, spec.running_sum, spec.total.
  destruct mappings as [|m1 [|m2 rest]]; [contradiction| |].
  - cbn. destruct (rleb _ _); reflexivity.
  - set (ms := m1 :: m2 :: rest) in *.
    change (router.selectBestMapping db ms u)
      with (let scored := map (fun m => (m, router.score_of db m)) ms in
            let totalScore := fold_left (fun t sc => radd t (snd sc)) scored (ofZ 0) in
            match router.pick scored (rmul u totalScore) (ofZ 0) with
            | Some m => Some m
            | None => option_map fst (last (map Some scored) None)
            end).
    cbv zeta. rewrite pick_first_index, fold_left_snd, last_is_nth.
    rewrite !map_map. cbn [fst snd]. rewrite map_id, !length_map.
    fold scores.
    destruct (find _ (seq 0 (List.length ms))) as [i|] eqn:E.
    + destruct (nth_error ms i) eqn:En; [reflexivity|].
      apply find_some in E as [Hi _]. apply in_seq in Hi.
      apply nth_error_None in En. lia.
    + rewrite nth_error_map.
      destruct (nth_error ms (List.length ms - 1)); reflexivity.
Qed.

End Sampling.





Lemma sample_in_candidates {R : Type} {ops : RealOps R} mappings (scores : list R) r :
  mappings <> [] ->
  exists m, spec.sample mappings scores r = Some m /\ In m mappings.
Proof.
  intros Hne. unfold spec.sample.
  assert (forall i, (i < List.length mappings)%nat ->
                    exists m, nth_error mappings i = Some m /\ In m mappings) as Hnth.
  { intros i Hi. destruct (nth_error mappings i) as [m|] eqn:En.
    - exists m. split; [reflexivity|]. eapply nth_error_In; exact En.
    - apply nth_error_None in En. lia. }
  destruct (find _ (seq 0 (List.length mappings))) as [i|] eqn:E.
  - apply find_some in E as [Hi _]. apply in_seq in Hi. apply Hnth. lia.
  - apply Hnth. destruct mappings; [contradiction|cbn; lia].
Qed.




(** ** The constraints of the schema are kept, the pragma stays off *)

Section Kept.
Context {R : Type} {ops : RealOps R}.

Lemma New_invariants :
  foreign_keys (@New R) = false
  /\ invariant.weights_positive (@New R)
  /\ invariant.unique_bindings (@New R)
  /\ invariant.unique_session_ids (@New R)
  /\ invariant.session_ids_bounded (@New R).
Proof.
  repeat split; constructor.
Qed.

Lemma AddModelChannel_keeps_unique now mc (db : DB R) out db' :
  invariant.unique_bindings db ->
  AddModelChannel now mc db = Ok (out, db') ->
  invariant.unique_bindings db'.
Proof.
  unfold invariant.unique_bindings, AddModelChannel. intros Hu.
  destruct (existsb _ (model_channels db)) eqn:E; [discriminate|].
  destruct (foreign_keys db && _); [discriminate|].
  intros H; inversion H; subst; clear H. cbn. rewrite map_app. cbn.
  apply NoDup_app; [exact Hu|constructor; [intros []|constructor]|].
  intros key Hin [Hk|[]]. subst key.
  apply in_map_iff in Hin as [r [Hr Hin]]. inversion Hr as [[Hm Hc]].
  assert (existsb (fun r0 => (ModelChannel.ModelID r0 =? ModelChannel.ModelID mc)
                             && (ModelChannel.ChannelID r0 =? ModelChannel.ChannelID mc))
            (model_channels db) = true) as Ht.
  { apply existsb_exists. exists r. split; [exact Hin|].
    rewrite Hm, Hc, !Z.eqb_refl. reflexivity. }
  rewrite E in Ht. discriminate.
Qed.

Lemma CreateSession_keeps_ids now session (db : DB R) out db' :
  invariant.unique_session_ids db ->
  invariant.session_ids_bounded db ->
  CreateSession now session db = Ok (out, db') ->
  invariant.unique_session_ids db' /\ invariant.session_ids_bounded db'.
Proof.
  unfold invariant.unique_session_ids, invariant.session_ids_bounded, CreateSession.
  intros Hu Hb.
  destruct (existsb _ (sessions db)); [discriminate|].
  destruct (foreign_keys db && _); [discriminate|].
  intros H; inversion H; subst; clear H. cbn. split.
  - rewrite map_app. cbn.
    apply NoDup_app; [exact Hu|constructor; [intros []|constructor]|].
    intros id Hin [Hk|[]]. subst id.
    apply in_map_iff in Hin as [s [Hs Hin]].
    pose proof (proj1 (Forall_forall _ _) Hb s Hin) as Hle. cbn in Hle. lia.
  - apply Forall_app. split.
    + eapply Forall_impl; [|exact Hb]. cbn. intros; lia.
    + constructor; [cbn; lia|constructor].
Qed.

Lemma UpdateSessionLastUsed_keeps_ids now id (db : DB R) :
  invariant.unique_session_ids db ->
  invariant.session_ids_bounded db ->
  invariant.unique_session_ids (UpdateSessionLastUsed now id db)
  /\ invariant.session_ids_bounded (UpdateSessionLastUsed now id db).
Proof.
  unfold invariant.unique_session_ids, invariant.session_ids_bounded, UpdateSessionLastUsed.
  cbn. intros Hu Hb. split.
  - rewrite map_map.
    erewrite map_ext; [exact Hu|]. intros s. cbn. destruct (Session.ID s =? id); reflexivity.
  - apply Forall_map. eapply Forall_impl; [|exact Hb]. cbn.
    intros s Hs. destruct (Session.ID s =? id); exact Hs.
Qed.

(** [Route] changes the sessions table only, and keeps its
    constraints. *)
Lemma Route_keeps now (u : R) userID modelName (db : DB R) routed db' :
  router.Route now u userID modelName db = Ok (routed, db') ->
  foreign_keys db' = foreign_keys db
  /\ channels db' = channels db
  /\ models db' = models db
  /\ model_channels db' = model_channels db
  /\ channel_metrics db' = channel_metrics db
  /\ (invariant.unique_session_ids db -> invariant.session_ids_bounded db ->
      invariant.unique_session_ids db' /\ invariant.session_ids_bounded db').
Proof.
  assert (forall r d, router.selection now u userID modelName db = Ok (r, d) ->
            foreign_keys d = foreign_keys db
            /\ channels d = channels db
            /\ models d = models db
            /\ model_channels d = model_channels db
            /\ channel_metrics d = channel_metrics db
            /\ (invariant.unique_session_ids db -> invariant.session_ids_bounded db ->
                invariant.unique_session_ids d /\ invariant.session_ids_bounded d)) as Hsel.
  { intros r d. unfold router.selection.
    destruct (GetModelByName db modelName); [|discriminate].
    destruct (GetModelChannelsByModel db _); [discriminate|].
    destruct (router.candidates db _); [discriminate|].
    destruct (router.selectBestMapping db _ u) as [best|]; [|discriminate].
    destruct (CreateSession now _ db) as [[s d0]|e] eqn:E; cbn; [|discriminate].
    intros H; inversion H; subst; clear H.
    repeat split;
      try (unfold CreateSession in E;
           destruct (existsb _ (sessions db)); [discriminate|];
           destruct (foreign_keys db && _); [discriminate|];
           inversion E; subst; reflexivity).
    - eapply CreateSession_keeps_ids; eassumption.
    - eapply CreateSession_keeps_ids; eassumption. }
  unfold router.Route.
  destruct (GetSessionByUser db userID) as [s|]; [|apply Hsel].
  destruct (GetChannel db _) as [ch|]; [|apply Hsel].
  destruct (Channel.Enabled ch); [|apply Hsel].
  destruct (GetModelByName db modelName) as [m|]; [|apply Hsel].
  destruct (find _ _) as [mc|]; [|apply Hsel].
  intros H; inversion H; subst; clear H.
  repeat split; try reflexivity; intros;
    eapply UpdateSessionLastUsed_keeps_ids; eassumption.
Qed.

(** No operation of the gateway turns the pragma on. *)
Lemma pragma_stays (db : DB R) :
  (forall now req ch db', channel.Create now req db = Ok (ch, db') ->
                          foreign_keys db' = foreign_keys db)
  /\ (forall id, foreign_keys (channel.Delete id db) = foreign_keys db)
  /\ (forall id, foreign_keys (snd (model.DeleteModel id db)) = foreign_keys db)
  /\ (forall now mc out db', AddModelChannel now mc db = Ok (out, db') ->
                             foreign_keys db' = foreign_keys db)
  /\ (forall env c ok, foreign_keys (api.record env c ok db) = foreign_keys db)
  /\ (forall c, foreign_keys (ResetChannelMetrics c db) = foreign_keys db).
Proof.
  repeat split.
  - intros now req ch db'. unfold channel.Create, CreateChannel.
    destruct (existsb _ (channels db)); [discriminate|].
    intros H; inversion H; reflexivity.
  - intros id. unfold channel.Delete, DeleteChannel.
    destruct (foreign_keys db) eqn:E; cbn; [reflexivity|exact E].
  - intros id. unfold model.DeleteModel, DeleteModel, RemoveAllModelChannelsForModel. cbn.
    destruct (foreign_keys db) eqn:E; cbn; rewrite ?E; reflexivity.
  - intros now mc out db'. unfold AddModelChannel.
    destruct (existsb _ (model_channels db)); [discriminate|].
    destruct (foreign_keys db && _); [discriminate|].
    intros H; inversion H; reflexivity.
  - intros env c ok. unfold api.record, UpdateChannelMetrics.
    destruct (GetChannelMetrics db c); [reflexivity|].
    destruct (foreign_keys db && _); reflexivity.
Qed.

End Kept.

(** * Further properties of the code *)

(** ** What a successful route returns *)

Section RouteSound.
Context {R : Type} {ops : RealOps R}.

Lemma GetChannel_some (db : DB R) id ch :
  GetChannel db id = Some ch -> In ch (channels db) /\ Channel.ID ch = id.
Proof.
  unfold GetChannel. intros H. apply find_some in H as [Hin Hid].
  apply Z.eqb_eq in Hid. split; assumption.
Qed.

Lemma candidates_from_mappings (db : DB R) mcs m :
  In m (router.candidates db mcs) ->
  exists mc,
    In mc mcs
    /\ GetChannel db (ModelChannel.ChannelID mc) = Some (router.channel m)
    /\ Channel.Enabled (router.channel m) = true
    /\ router.backendModelName m = ModelChannel.BackendModelName mc
    /\ router.weight m = ModelChannel.Weight mc.
Proof.
  unfold router.candidates. intros H. apply in_flat_map in H as [mc [Hmc Hin]].
  exists mc. split; [exact Hmc|].
  destruct (GetChannel db (ModelChannel.ChannelID mc)) as [ch|]; [|destruct Hin].
  destruct (Channel.Enabled ch) eqn:E; [|destruct Hin].
  destruct Hin as [Hm|[]]. subst m. cbn. repeat split. exact E.
Qed.

Lemma selected_is_candidate (db : DB R) mappings (u : R) m :
  router.selectBestMapping db mappings u = Some m -> In m mappings.
Proof.
  intros H. destruct mappings as [|m0 rest] eqn:E; [discriminate H|].
  rewrite <- E in *.
  assert (mappings <> []) as Hne by (rewrite E; discriminate).
  rewrite (selectBestMapping_samples db u Hne) in H. cbv zeta in H.
  destruct (sample_in_candidates (map (router.score_of db) mappings)
              (rmul u (spec.total (map (router.score_of db) mappings))) Hne)
    as [m' [Hs Hin]].
  rewrite Hs in H. inversion H; subst. exact Hin.
Qed.

Lemma selection_sound now (u : R) userID modelName (db : DB R) routed db' :
  router.selection now u userID modelName db = Ok (routed, db') ->
  exists m mc,
    GetModelByName db modelName = Some m
    /\ In mc (model_channels db)
    /\ ModelChannel.ModelID mc = Model.ID m
    /\ ModelChannel.ChannelID mc = Channel.ID (router.Channel routed)
    /\ router.BackendModelName routed = ModelChannel.BackendModelName mc
    /\ GetChannel db (Channel.ID (router.Channel routed)) = Some (router.Channel routed)
    /\ Channel.Enabled (router.Channel routed) = true
    /\ router.IsNew routed = true.
Proof.
  unfold router.selection.
  destruct (GetModelByName db modelName) as [m|]; [|discriminate].
  destruct (GetModelChannelsByModel db (Model.ID m)) as [|mc0 mcs] eqn:Emcs; [discriminate|].
  rewrite <- Emcs.
  destruct (router.candidates db _) as [|c0 cs] eqn:Ec; [discriminate|].
  rewrite <- Ec.
  destruct (router.selectBestMapping db _ u) as [best|] eqn:Eb; [|discriminate].
  destruct (CreateSession now _ db) as [[s d]|e]; cbn; [|discriminate].
  intros H; inversion H; subst; clear H. cbn.
  apply selected_is_candidate in Eb.
  apply candidates_from_mappings in Eb as [mc [Hmc [Hch [Hen [Hb _]]]]].
  unfold GetModelChannelsByModel in Hmc. apply filter_In in Hmc as [Hin Hmid].
  apply Z.eqb_eq in Hmid.
  destruct (GetChannel_some _ _ Hch) as [_ Hid].
  exists m, mc. repeat split; try assumption.
  - symmetry. exact Hid.
  - rewrite <- Hid in Hch. rewrite Hid in Hch. rewrite Hid. exact Hch.
Qed.

(** X1.  Whatever [Route] returns is routable: the model exists, the
    channel is a stored channel that is enabled, and a stored mapping
    binds the model to that channel with the backend model name
    returned. *)
Theorem route_sound now (u : R) userID modelName (db : DB R) routed db' :
  router.Route now u userID modelName db = Ok (routed, db') ->
  exists m mc,
    GetModelByName db modelName = Some m
    /\ In mc (model_channels db)
    /\ ModelChannel.ModelID mc = Model.ID m
    /\ ModelChannel.ChannelID mc = Channel.ID (router.Channel routed)
    /\ router.BackendModelName routed = ModelChannel.BackendModelName mc
    /\ GetChannel db (Channel.ID (router.Channel routed)) = Some (router.Channel routed)
    /\ Channel.Enabled (router.Channel routed) = true.
Proof.
  assert (forall r d, router.selection now u userID modelName db = Ok (r, d) ->
            exists m mc,
              GetModelByName db modelName = Some m
              /\ In mc (model_channels db)
              /\ ModelChannel.ModelID mc = Model.ID m
              /\ ModelChannel.ChannelID mc = Channel.ID (router.Channel r)
              /\ router.BackendModelName r = ModelChannel.BackendModelName mc
              /\ GetChannel db (Channel.ID (router.Channel r)) = Some (router.Channel r)
              /\ Channel.Enabled (router.Channel r) = true) as Hsel.
  { intros r d H. destruct (selection_sound _ _ _ _ _ H) as [m [mc Hs]].
    exists m, mc. intuition. }
  unfold router.Route.
  destruct (GetSessionByUser db userID) as [s|]; [|apply Hsel].
  destruct (GetChannel db (Session.ChannelID s)) as [ch|] eqn:Ech; [|apply Hsel].
  destruct (Channel.Enabled ch) eqn:Een; [|apply Hsel].
  destruct (GetModelByName db modelName) as [m|] eqn:Em; [|apply Hsel].
  destruct (find _ (GetModelChannelsByChannel db (Channel.ID ch))) as [mc|] eqn:Ef;
    [|apply Hsel].
  intros H; inversion H; subst; clear H. cbn.
  apply find_some in Ef as [Hin Hmid]. apply Z.eqb_eq in Hmid.
  unfold GetModelChannelsByChannel in Hin. apply filter_In in Hin as [Hin Hcid].
  apply Z.eqb_eq in Hcid.
  destruct (GetChannel_some _ _ Ech) as [_ Hid].
  exists m, mc. repeat split; try assumption.
  rewrite Hid. exact Ech.
Qed.

End RouteSound.

Lemma route_sound_witness :
  exists m mc,
    GetModelByName example.pinned "claude" = Some m
    /\ In mc (model_channels example.pinned)
    /\ ModelChannel.ModelID mc = Model.ID m
    /\ ModelChannel.ChannelID mc = 2
    /\ "y" = ModelChannel.BackendModelName mc
    /\ GetChannel example.pinned 2 = Some (Channel.mk 2 "c2" "https://two" "sk-2" 1 true 2 2)
    /\ true = true.
Proof.
  apply (@route_sound Qc exact 200 (Q2Qc 0) 1 "claude" example.pinned
           (router.mkRouteResult (Channel.mk 2 "c2" "https://two" "sk-2" 1 true 2 2) "y" 2 true)
           example.pinned_twice).
  vm_compute. reflexivity.
Defined.

(** ** Requests that cannot be routed *)

Section Unroutable.
Context {R : Type} {ops : RealOps R}.

Lemma no_candidates (db : DB R) mcs :
  (forall mc ch, In mc mcs -> GetChannel db (ModelChannel.ChannelID mc) = Some ch ->
                 Channel.Enabled ch = false) ->
  router.candidates db mcs = [].
Proof.
  unfold router.candidates. induction mcs as [|mc mcs IH]; intros H; [reflexivity|].
  cbn. rewrite IH by (intros; eapply H; [right|]; eassumption).
  destruct (GetChannel db (ModelChannel.ChannelID mc)) as [ch|] eqn:E; [|reflexivity].
  rewrite (H mc ch (or_introl eq_refl) E). reflexivity.
Qed.

(** X2.  A request for a model that does not exist fails with
    [model not found: <name>], whatever sessions the user has, and the
    handler answers 503 with that text without sending or recording
    anything.  A request for a model whose mappings all point to missing
    or disabled channels fails with [no channels configured ...] when
    there is no mapping and [no suitable channel found ...] otherwise. *)
Theorem unroutable_requests :
  (forall now (u : R) userID modelName (db : DB R),
      GetModelByName db modelName = None ->
      router.Route now u userID modelName db = Failed ("model not found: " ++ modelName))
  /\ (forall (env : api.Env R) userID body (db : DB R) req,
      api.ShouldBindJSON body = Ok req ->
      GetModelByName db (api.Model req) = None ->
      let out := api.ChatCompletions env (Some userID) body db in
      api.code out = 503
      /\ api.payload out = api.PError ("model not found: " ++ api.Model req)
      /\ api.store out = db
      /\ spec.sent_requests (api.trace out) = []
      /\ spec.metrics_writes (api.trace out) = [])
  /\ (forall now (u : R) userID modelName (db : DB R) m,
      GetModelByName db modelName = Some m ->
      (forall mc ch, In mc (model_channels db) ->
                     ModelChannel.ModelID mc = Model.ID m ->
                     GetChannel db (ModelChannel.ChannelID mc) = Some ch ->
                     Channel.Enabled ch = false) ->
      router.Route now u userID modelName db
      = Failed (match GetModelChannelsByModel db (Model.ID m) with
                | [] => "no channels configured for model: " ++ modelName
                | _ => "no suitable channel found for model: " ++ modelName
                end)).
Proof.
  assert (forall now (u : R) userID modelName (db : DB R),
             GetModelByName db modelName = None ->
             router.Route now u userID modelName db
             = Failed ("model not found: " ++ modelName)) as Hnone.
  { intros now u userID modelName db Hm.
    unfold router.Route, router.selection. rewrite Hm.
    destruct (GetSessionByUser db userID) as [s|]; [|reflexivity].
    destruct (GetChannel db _) as [ch|]; [|reflexivity].
    destruct (Channel.Enabled ch); reflexivity. }
  split; [exact Hnone|]. split.
  - intros env userID body db req Hbind Hm. cbv zeta.
    unfold api.ChatCompletions. rewrite Hbind, (Hnone _ _ _ _ _ Hm). cbn.
    repeat split.
  - intros now u userID modelName db m Hm Hoff.
    assert (router.selection now u userID modelName db
            = Failed (match GetModelChannelsByModel db (Model.ID m) with
                      | [] => "no channels configured for model: " ++ modelName
                      | _ => "no suitable channel found for model: " ++ modelName
                      end)) as Hsel.
    { unfold router.selection. rewrite Hm.
      destruct (GetModelChannelsByModel db (Model.ID m)) as [|mc0 mcs] eqn:E; [reflexivity|].
      rewrite <- E. rewrite no_candidates; [reflexivity|].
      intros mc ch Hin Hch. unfold GetModelChannelsByModel in Hin.
      apply filter_In in Hin as [Hin Hmid]. apply Z.eqb_eq in Hmid.
      eapply Hoff; eassumption. }
    unfold router.Route.
    destruct (GetSessionByUser db userID) as [s|]; [|exact Hsel].
    destruct (GetChannel db (Session.ChannelID s)) as [ch|] eqn:Ech; [|exact Hsel].
    destruct (Channel.Enabled ch) eqn:Een; [|exact Hsel].
    rewrite Hm.
    destruct (find _ (GetModelChannelsByChannel db (Channel.ID ch))) as [mc|] eqn:Ef;
      [|exact Hsel].
    exfalso. apply find_some in Ef as [Hin Hmid]. apply Z.eqb_eq in Hmid.
    unfold GetModelChannelsByChannel in Hin. apply filter_In in Hin as [Hin Hcid].
    apply Z.eqb_eq in Hcid.
    destruct (GetChannel_some _ _ Ech) as [_ Hid].
    assert (GetChannel db (ModelChannel.ChannelID mc) = Some ch) as Hch.
    { rewrite Hcid, Hid. exact Ech. }
    rewrite (Hoff mc ch Hin Hmid Hch) in Een. discriminate.
Qed.

End Unroutable.

Lemma unroutable_requests_witness :
  router.Route 300 (Q2Qc 0) 1 "nonesuch" example.pinned = Failed "model not found: nonesuch"
  /\ (let out := api.ChatCompletions example.answering (Some 1)
                   example.request_for_unknown_model example.pinned in
      api.code out = 503
      /\ api.payload out = api.PError "model not found: nonesuch"
      /\ api.store out = example.pinned
      /\ spec.sent_requests (api.trace out) = []
      /\ spec.metrics_writes (api.trace out) = [])
  /\ router.Route 300 (Q2Qc 0) 1 "claude" example.c2_disabled
     = Failed "no suitable channel found for model: claude".
Proof.
  split; [|split].
  - apply (proj1 (@unroutable_requests Qc exact) 300 (Q2Qc 0) 1 "nonesuch" example.pinned).
    vm_compute. reflexivity.
  - apply (proj1 (proj2 (@unroutable_requests Qc exact)) example.answering 1
             example.request_for_unknown_model example.pinned
             (api.mkRequest "nonesuch" (Some [api.mkMessage "user" "Hello!"]) false)).
    + vm_compute. reflexivity.
    + vm_compute. reflexivity.
  - apply (proj2 (proj2 (@unroutable_requests Qc exact)) 300 (Q2Qc 0) 1 "claude"
             example.c2_disabled (Model.mk 2 "claude" 4 4)).
    + vm_compute. reflexivity.
    + intros mc ch Hin Hmid Hch. vm_compute in Hin.
      destruct Hin as [Hin|[Hin|[]]]; subst mc.
      * vm_compute in Hmid. discriminate Hmid.
      * vm_compute in Hch. inversion Hch. reflexivity.
Defined.

(** ** Updating and disabling a channel *)

Section ChannelUpdate.
Context {R : Type} {ops : RealOps R}.

Lemma find_map_preserving {A} (p : A -> bool) (f : A -> A) l :
  (forall x, p (f x) = p x) ->
  find p (map f l) = option_map f (find p l).
Proof.
  intros Hp. induction l as [|a l IH]; cbn; [reflexivity|].
  rewrite Hp. destruct (p a); [reflexivity|exact IH].
Qed.

Lemma UpdateChannel_lookup now c (db db1 : DB R) id :
  UpdateChannel now c db = Ok db1 ->
  GetChannel db1 id
  = option_map (fun old => if Channel.ID old =? Channel.ID c
                           then Channel.mk (Channel.ID old) (Channel.Name c) (Channel.BaseURL c)
                                  (Channel.APIKey c) (Channel.Weight c) (Channel.Enabled c)
                                  (Channel.CreatedAt old) now
                           else old)
      (GetChannel db id)
  /\ model_channels db1 = model_channels db
  /\ models db1 = models db
  /\ sessions db1 = sessions db.
Proof.
  unfold UpdateChannel. destruct (_ && _); [discriminate|].
  intros H; inversion H; subst; clear H. cbn. repeat split.
  unfold GetChannel; cbn. apply find_map_preserving.
  intros x. destruct (Channel.ID x =? Channel.ID c); reflexivity.
Qed.

(** The channel of a successful route is stored and enabled. *)
Lemma routed_channel_enabled now (u : R) userID modelName (db : DB R) routed db' :
  router.Route now u userID modelName db = Ok (routed, db') ->
  GetChannel db (Channel.ID (router.Channel routed)) = Some (router.Channel routed)
  /\ Channel.Enabled (router.Channel routed) = true.
Proof.
  unfold router.Route.
  assert (forall r d, router.selection now u userID modelName db = Ok (r, d) ->
            GetChannel db (Channel.ID (router.Channel r)) = Some (router.Channel r)
            /\ Channel.Enabled (router.Channel r) = true) as Hsel.
  { intros r d H. destruct (selection_sound _ _ _ _ _ H) as [m [mc Hs]]. intuition. }
  destruct (GetSessionByUser db userID) as [s|]; [|apply Hsel].
  destruct (GetChannel db (Session.ChannelID s)) as [ch|] eqn:Ech; [|apply Hsel].
  destruct (Channel.Enabled ch) eqn:Een; [|apply Hsel].
  destruct (GetModelByName db modelName) as [m|]; [|apply Hsel].
  destruct (find _ (GetModelChannelsByChannel db (Channel.ID ch))) as [mc|]; [|apply Hsel].
  intros H; inversion H; subst; clear H. cbn.
  destruct (GetChannel_some _ _ Ech) as [_ Hid]. rewrite Hid. split; assumption.
Qed.

(** X3.  Once [Manager.Update] has disabled a channel, no route returns
    it: neither the selection phase nor the sticky phase of a user who is
    pinned to it. *)
Theorem disabled_channel_not_routed t id req (db : DB R) ch db1 now (u : R) userID modelName
  routed db2 :
  channel.Update t id req db = Ok (ch, db1) ->
  channel.UpdateRequest.Enabled req = Some false ->
  router.Route now u userID modelName db1 = Ok (routed, db2) ->
  Channel.ID (router.Channel routed) <> id.
Proof.
  intros Hup Hoff Hroute Hid.
  destruct (routed_channel_enabled _ _ _ _ _ Hroute) as [Hget Hen].
  unfold channel.Update in Hup.
  destruct (GetChannel db id) as [old|] eqn:Eold; [|discriminate].
  destruct (UpdateChannel t _ db) as [d|e] eqn:Eu; cbn in Hup; [|discriminate].
  inversion Hup; subst ch d; clear Hup.
  destruct (UpdateChannel_lookup _ _ _ id Eu) as [Hlook _].
  rewrite Hid in Hget. rewrite Hlook, Eold in Hget. cbn in Hget.
  destruct (GetChannel_some _ _ Eold) as [_ Hoid].
  rewrite Z.eqb_refl in Hget. inversion Hget as [Hr].
  rewrite <- Hr in Hen. cbn in Hen. rewrite Hoff in Hen. discriminate.
Qed.

(** X4.  [Manager.Update] changes the row of its channel only, keeps
    what the request leaves empty (an empty string, a weight <= 0, a nil
    enabled flag), and keeps every stored weight positive. *)
Theorem update_keeps_what_is_omitted t id req (db : DB R) ch db1 :
  invariant.weights_positive db ->
  channel.Update t id req db = Ok (ch, db1) ->
  exists old,
    GetChannel db id = Some old
    /\ GetChannel db1 id
       = Some (Channel.mk id (Channel.Name ch) (Channel.BaseURL ch) (Channel.APIKey ch)
                 (Channel.Weight ch) (Channel.Enabled ch) (Channel.CreatedAt old) t)
    /\ (channel.UpdateRequest.Name req = "" -> Channel.Name ch = Channel.Name old)
    /\ (channel.UpdateRequest.BaseURL req = "" -> Channel.BaseURL ch = Channel.BaseURL old)
    /\ (channel.UpdateRequest.APIKey req = "" -> Channel.APIKey ch = Channel.APIKey old)
    /\ (channel.UpdateRequest.Weight req <= 0 -> Channel.Weight ch = Channel.Weight old)
    /\ (channel.UpdateRequest.Enabled req = None -> Channel.Enabled ch = Channel.Enabled old)
    /\ (forall id', id' <> id -> GetChannel db1 id' = GetChannel db id')
    /\ invariant.weights_positive db1.
Proof.
  intros [Hwc Hwm] Hup. unfold channel.Update in Hup.
  destruct (GetChannel db id) as [old|] eqn:Eold; [|discriminate].
  destruct (UpdateChannel t _ db) as [d|e] eqn:Eu; cbn in Hup; [|discriminate].
  inversion Hup; subst ch d; clear Hup.
  destruct (GetChannel_some _ _ Eold) as [Hoin Hoid].
  pose proof (proj1 (Forall_forall _ _) Hwc old Hoin) as Hwold. cbn in Hwold.
  assert (0 < (if 0 <? channel.UpdateRequest.Weight req
               then channel.UpdateRequest.Weight req else Channel.Weight old)) as Hwnew.
  { destruct (Z.ltb_spec 0 (channel.UpdateRequest.Weight req)); lia. }
  exists old. split; [reflexivity|]. cbn.
  split; [|split; [|split; [|split; [|split; [|split; [|split]]]]]].
  - destruct (UpdateChannel_lookup _ _ _ id Eu) as [Hlook _].
    rewrite Hlook, Eold. cbn. rewrite Hoid, Z.eqb_refl. reflexivity.
  - intros ->. reflexivity.
  - intros ->. reflexivity.
  - intros ->. reflexivity.
  - intros Hle. destruct (Z.ltb_spec 0 (channel.UpdateRequest.Weight req)); [lia|reflexivity].
  - intros ->. reflexivity.
  - intros id' Hne. destruct (UpdateChannel_lookup _ _ _ id' Eu) as [Hlook _].
    rewrite Hlook. destruct (GetChannel db id') as [c|] eqn:Ec; [|reflexivity].
    destruct (GetChannel_some _ _ Ec) as [_ Hcid]. cbn.
    destruct (Z.eqb_spec (Channel.ID c) (Channel.ID old)); [|reflexivity].
    exfalso. apply Hne. rewrite <- Hcid, <- Hoid. assumption.
  - unfold UpdateChannel in Eu. destruct (_ && _); [discriminate|].
    inversion Eu; subst; clear Eu. split; cbn; [|exact Hwm].
    apply Forall_map. eapply Forall_impl; [|exact Hwc]. cbn.
    intros c Hc. destruct (Channel.ID c =? Channel.ID old); [exact Hwnew|exact Hc].
Qed.

End ChannelUpdate.

Lemma disabled_channel_not_routed_witness :
  Channel.ID (Channel.mk 1 "c1" "https://one" "sk-1" 10 true 1 1) <> 2.
Proof.
  apply (@disabled_channel_not_routed Qc exact 250 2
           (channel.UpdateRequest.mk "" "" "" 0 (Some false)) example.shared_model
           (Channel.mk 2 "c2" "https://two" "sk-2" 1 false 2 2) example.shared_c2_disabled
           300 (Q2Qc (1 # 2)) 1 "gpt-4"
           (router.mkRouteResult (Channel.mk 1 "c1" "https://one" "sk-1" 10 true 1 1) "x" 1 true)
           (example.after (router.Route 300 (Q2Qc (1 # 2)) 1 "gpt-4" example.shared_c2_disabled)
              example.shared_c2_disabled)).
  - vm_compute. reflexivity.
  - reflexivity.
  - vm_compute. reflexivity.
Defined.

Lemma update_keeps_what_is_omitted_witness :
  exists old,
    GetChannel example.shared_model 2 = Some old
    /\ GetChannel example.shared_c2_disabled 2
       = Some (Channel.mk 2 "c2" "https://two" "sk-2" 1 false (Channel.CreatedAt old) 250)
    /\ invariant.weights_positive example.shared_c2_disabled.
Proof.
  destruct (@update_keeps_what_is_omitted Qc 250 2
              (channel.UpdateRequest.mk "" "" "" 0 (Some false)) example.shared_model
              (Channel.mk 2 "c2" "https://two" "sk-2" 1 false 2 2) example.shared_c2_disabled)
    as [old [Hold [Hnew [_ [_ [_ [_ [_ [_ Hw]]]]]]]]].
  - split; vm_compute; repeat constructor.
  - vm_compute. reflexivity.
  - exists old. split; [exact Hold|split; [exact Hnew|exact Hw]].
Defined.

(** ** A route pins the user *)

Section Pinning.
Context {R : Type} {ops : RealOps R}.

Lemma newest_wins s1 l :
  forall acc,
    acc = Some s1 \/ In s1 l ->
    (forall x, In x l -> x = s1 \/ Session.LastUsedAt x < Session.LastUsedAt s1) ->
    (forall b, acc = Some b -> b = s1 \/ Session.LastUsedAt b < Session.LastUsedAt s1) ->
    fold_left newer l acc = Some s1.
Proof.
  induction l as [|a l IH]; intros acc Hhas Hl Hacc; cbn.
  - destruct Hhas as [H|[]]. exact H.
  - apply IH.
    + destruct acc as [b|]; cbn.
      * destruct (Z.ltb_spec (Session.LastUsedAt b) (Session.LastUsedAt a)) as [Hlt|Hge].
        -- destruct Hhas as [Hb|[Ha|Hin]]; [|left; f_equal; exact Ha|right; exact Hin].
           inversion Hb; subst b.
           destruct (Hl a (or_introl eq_refl)) as [Ha|Ha]; [left; f_equal; exact Ha|lia].
        -- destruct Hhas as [Hb|[Ha|Hin]]; [left; exact Hb| |right; exact Hin].
           subst a. destruct (Hacc b eq_refl) as [Hb|Hb]; [left; f_equal; exact Hb|lia].
      * destruct Hhas as [Hb|[Ha|Hin]]; [discriminate|left; f_equal; exact Ha|right; exact Hin].
    + intros x Hx. apply Hl. right. exact Hx.
    + intros b Hb. destruct acc as [b0|]; cbn in Hb.
      * destruct (Session.LastUsedAt b0 <? Session.LastUsedAt a); inversion Hb; subst b.
        -- apply Hl. left. reflexivity.
        -- apply Hacc. reflexivity.
      * inversion Hb; subst b. apply Hl. left. reflexivity.
Qed.

Lemma filter_map_preserving {A} (p : A -> bool) (f : A -> A) l :
  (forall x, p (f x) = p x) ->
  filter p (map f l) = map f (filter p l).
Proof.
  intros Hp. induction l as [|a l IH]; cbn; [reflexivity|].
  rewrite Hp. destruct (p a); cbn; rewrite IH; reflexivity.
Qed.

(** After the sticky phase has touched the session [s] at a second later
    than every session of the user, that session is the most recent. *)
Lemma touched_is_most_recent now (db : DB R) userID s :
  invariant.unique_session_ids db ->
  In s (sessions db) ->
  Session.UserID s = userID ->
  (forall x, In x (sessions db) -> Session.UserID x = userID -> Session.LastUsedAt x < now) ->
  GetSessionByUser (UpdateSessionLastUsed now (Session.ID s) db) userID
  = Some (Session.mk (Session.ID s) userID (Session.ChannelID s) now (Session.CreatedAt s)).
Proof.
  intros Hu Hin Huser Hold. unfold GetSessionByUser, UpdateSessionLastUsed. cbn.
  set (touch := fun x => if Session.ID x =? Session.ID s
                         then Session.mk (Session.ID x) (Session.UserID x)
                                (Session.ChannelID x) now (Session.CreatedAt x)
                         else x).
  rewrite (filter_map_preserving (fun x => Session.UserID x =? userID) touch)
    by (intros x; unfold touch; destruct (Session.ID x =? Session.ID s); reflexivity).
  apply newest_wins.
  - right. apply in_map_iff. exists s. split.
    + unfold touch. rewrite Z.eqb_refl, Huser. reflexivity.
    + apply filter_In. split; [exact Hin|]. apply Z.eqb_eq. exact Huser.
  - intros x Hx. apply in_map_iff in Hx as [y [Hy Hyin]].
    apply filter_In in Hyin as [Hyin Hyu]. apply Z.eqb_eq in Hyu.
    subst x. unfold touch.
    destruct (Z.eqb_spec (Session.ID y) (Session.ID s)) as [Heq|Hne].
    + left. rewrite (NoDup_key_inj Session.ID (sessions db) y s Hu Hyin Hin Heq).
      rewrite Huser. reflexivity.
    + right. cbn. apply Hold; assumption.
  - intros b Hb. discriminate Hb.
Qed.

(** After the selection phase has inserted a session at a second later
    than every session of the user, that session is the most recent. *)
Lemma created_is_most_recent now (db db' : DB R) userID channelID out :
  CreateSession now (Session.mk 0 userID channelID 0 0) db = Ok (out, db') ->
  (forall x, In x (sessions db) -> Session.UserID x = userID -> Session.LastUsedAt x < now) ->
  GetSessionByUser db' userID = Some (Session.mk (Session.ID out) userID channelID now now)
  /\ channels db' = channels db
  /\ models db' = models db
  /\ model_channels db' = model_channels db.
Proof.
  unfold CreateSession. cbn.
  destruct (existsb _ (sessions db)); [discriminate|].
  destruct (foreign_keys db && _); [discriminate|].
  intros H Hold; inversion H; subst; clear H. cbn. repeat split.
  unfold GetSessionByUser. cbn. rewrite filter_app. cbn. rewrite Z.eqb_refl.
  apply newest_wins.
  - right. apply in_or_app. right. left. reflexivity.
  - intros x Hx. apply in_app_or in Hx as [Hx|[Hx|[]]]; [|left; symmetry; exact Hx].
    apply filter_In in Hx as [Hx Hxu]. apply Z.eqb_eq in Hxu.
    right. cbn. apply Hold; assumption.
  - intros b Hb. discriminate Hb.
Qed.

(** The mapping behind a successful route. *)
Lemma routed_binding now (u : R) userID modelName (db : DB R) routed db' :
  router.Route now u userID modelName db = Ok (routed, db') ->
  exists m mc,
    GetModelByName db modelName = Some m
    /\ In mc (model_channels db)
    /\ ModelChannel.ModelID mc = Model.ID m
    /\ ModelChannel.ChannelID mc = Channel.ID (router.Channel routed)
    /\ router.BackendModelName routed = ModelChannel.BackendModelName mc.
Proof.
  assert (forall r d, router.selection now u userID modelName db = Ok (r, d) ->
            exists m mc,
              GetModelByName db modelName = Some m
              /\ In mc (model_channels db)
              /\ ModelChannel.ModelID mc = Model.ID m
              /\ ModelChannel.ChannelID mc = Channel.ID (router.Channel r)
              /\ router.BackendModelName r = ModelChannel.BackendModelName mc) as Hsel.
  { intros r d H. destruct (selection_sound _ _ _ _ _ H) as [m [mc Hs]].
    exists m, mc. intuition. }
  unfold router.Route.
  destruct (GetSessionByUser db userID) as [s|]; [|apply Hsel].
  destruct (GetChannel db (Session.ChannelID s)) as [ch|] eqn:Ech; [|apply Hsel].
  destruct (Channel.Enabled ch) eqn:Een; [|apply Hsel].
  destruct (GetModelByName db modelName) as [m|] eqn:Em; [|apply Hsel].
  destruct (find _ (GetModelChannelsByChannel db (Channel.ID ch))) as [mc|] eqn:Ef;
    [|apply Hsel].
  intros H; inversion H; subst; clear H. cbn.
  apply find_some in Ef as [Hin Hmid]. apply Z.eqb_eq in Hmid.
  unfold GetModelChannelsByChannel in Hin. apply filter_In in Hin as [Hin Hcid].
  apply Z.eqb_eq in Hcid.
  exists m, mc. repeat split; assumption.
Qed.

(** After a route at a second later than every session of the user, the
    user's most recent session is the one the route returned, on the
    channel it returned. *)
Lemma route_leaves_pin now (u : R) userID modelName (db : DB R) routed db' :
  invariant.unique_session_ids db ->
  (forall x, In x (sessions db) -> Session.UserID x = userID -> Session.LastUsedAt x < now) ->
  router.Route now u userID modelName db = Ok (routed, db') ->
  exists s1,
    GetSessionByUser db' userID = Some s1
    /\ Session.ID s1 = router.SessionID routed
    /\ Session.ChannelID s1 = Channel.ID (router.Channel routed)
    /\ channels db' = channels db
    /\ models db' = models db
    /\ model_channels db' = model_channels db.
Proof.
  intros Hu Hold.
  assert (forall r d, router.selection now u userID modelName db = Ok (r, d) ->
            exists s1,
              GetSessionByUser d userID = Some s1
              /\ Session.ID s1 = router.SessionID r
              /\ Session.ChannelID s1 = Channel.ID (router.Channel r)
              /\ channels d = channels db
              /\ models d = models db
              /\ model_channels d = model_channels db) as Hsel.
  { intros r d. unfold router.selection.
    destruct (GetModelByName db modelName); [|discriminate].
    destruct (GetModelChannelsByModel db _); [discriminate|].
    destruct (router.candidates db _); [discriminate|].
    destruct (router.selectBestMapping db _ u) as [best|]; [|discriminate].
    destruct (CreateSession now _ db) as [[s d0]|e] eqn:E; cbn; [|discriminate].
    intros H; inversion H; subst; clear H. cbn.
    edestruct created_is_most_recent as [Hget [Hc [Hm Hmc]]]; [exact E|exact Hold|].
    eexists. split; [exact Hget|]. cbn. repeat split; assumption. }
  unfold router.Route.
  destruct (GetSessionByUser db userID) as [s|] eqn:Es; [|apply Hsel].
  destruct (GetChannel db (Session.ChannelID s)) as [ch|] eqn:Ech; [|apply Hsel].
  destruct (Channel.Enabled ch) eqn:Een; [|apply Hsel].
  destruct (GetModelByName db modelName) as [m|] eqn:Em; [|apply Hsel].
  destruct (find _ (GetModelChannelsByChannel db (Channel.ID ch))) as [mc|] eqn:Ef;
    [|apply Hsel].
  intros H; inversion H; subst; clear H. cbn.
  destruct (@most_recent_session R db userID s Es) as [Hsin [Huser _]].
  eexists. split; [apply touched_is_most_recent; assumption|]. cbn.
  destruct (GetChannel_some _ _ Ech) as [_ Hid]. repeat split. symmetry. exact Hid.
Qed.

(** X5.  Stickiness: after a successful route (at a second later than the
    user's earlier sessions), the next route of the same user for the
    same model returns the same channel, backend model name and session,
    with [IsNew = false], whatever the draw. *)
Theorem route_then_route now (u : R) userID modelName (db : DB R) routed db1 now2 (u2 : R) :
  invariant.unique_bindings db ->
  invariant.unique_session_ids db ->
  (forall x, In x (sessions db) -> Session.UserID x = userID -> Session.LastUsedAt x < now) ->
  router.Route now u userID modelName db = Ok (routed, db1) ->
  exists db2,
    router.Route now2 u2 userID modelName db1
    = Ok (router.mkRouteResult (router.Channel routed) (router.BackendModelName routed)
            (router.SessionID routed) false, db2).
Proof.
  intros Hub Hus Hold Hroute.
  edestruct route_leaves_pin as [s1 [Hs1 [Hid [Hcid [Hc [Hm Hmc]]]]]];
    [exact Hus|exact Hold|exact Hroute|].
  edestruct routed_channel_enabled as [Hch Hen]; [exact Hroute|].
  edestruct routed_binding as [m [mc [Hmod [Hin [Hmid [Hmcid Hb]]]]]]; [exact Hroute|].
  pose proof (@sticky_binding R db mc Hub Hin) as Hfind.
  eexists. unfold router.Route. rewrite Hs1.
  unfold GetChannel, GetModelByName, GetModelChannelsByChannel in *.
  rewrite Hc, Hm, Hmc, Hcid, Hch, Hen, Hmod.
  rewrite <- Hmid, <- Hmcid, Hfind. rewrite Hid, Hb. reflexivity.
Qed.

End Pinning.

Lemma route_then_route_witness :
  exists db2,
    router.Route 100 (Q2Qc (7 # 8)) 1 "gpt-4" example.pinned
    = Ok (router.mkRouteResult (Channel.mk 1 "c1" "https://one" "sk-1" 10 true 1 1) "x" 1 false,
          db2).
Proof.
  apply (@route_then_route Qc exact 100 (Q2Qc 0) 1 "gpt-4" example.two_models
           (router.mkRouteResult (Channel.mk 1 "c1" "https://one" "sk-1" 10 true 1 1) "x" 1 true)
           example.pinned 100 (Q2Qc (7 # 8))).
  - vm_compute. repeat constructor; cbn; intuition discriminate.
  - vm_compute. constructor.
  - intros x Hx. vm_compute in Hx. destruct Hx.
  - vm_compute. reflexivity.
Defined.

(** ** The sessions table under routing *)

Section SessionsKept.
Context {R : Type} {ops : RealOps R}.

(** X6.  [Route] changes the sessions table only and keeps its
    constraints: ids stay distinct and below the AUTOINCREMENT counter,
    and no user ever has two sessions on one channel. *)
Theorem route_keeps_sessions_wellformed now (u : R) userID modelName (db : DB R) routed db' :
  invariant.unique_session_ids db ->
  invariant.session_ids_bounded db ->
  invariant.unique_user_channel db ->
  router.Route now u userID modelName db = Ok (routed, db') ->
  invariant.unique_session_ids db'
  /\ invariant.session_ids_bounded db'
  /\ invariant.unique_user_channel db'
  /\ users db' = users db
  /\ channels db' = channels db
  /\ models db' = models db
  /\ model_channels db' = model_channels db
  /\ channel_metrics db' = channel_metrics db.
Proof.
  intros Hu Hb Huc Hroute.
  edestruct Route_keeps as [_ [Hc [Hm [Hmc [Hcm Hids]]]]]; [exact Hroute|].
  destruct (Hids Hu Hb) as [Hu' Hb'].
  split; [exact Hu'|]. split; [exact Hb'|].
  assert (invariant.unique_user_channel db' /\ users db' = users db) as [Huc' Husers].
  { revert Hroute. unfold router.Route.
    assert (forall r d, router.selection now u userID modelName db = Ok (r, d) ->
              invariant.unique_user_channel d /\ users d = users db) as Hsel.
    { intros r d. unfold router.selection.
      destruct (GetModelByName db modelName); [|discriminate].
      destruct (GetModelChannelsByModel db _); [discriminate|].
      destruct (router.candidates db _); [discriminate|].
      destruct (router.selectBestMapping db _ u) as [best|]; [|discriminate].
      unfold CreateSession. cbn.
      destruct (existsb _ (sessions db)) eqn:Ex; [discriminate|].
      destruct (foreign_keys db && _); [discriminate|]. cbn.
      intros H; inversion H; subst; clear H. split; [|reflexivity].
      unfold invariant.unique_user_channel in *. cbn. rewrite map_app. cbn.
      apply NoDup_app; [exact Huc|constructor; [intros []|constructor]|].
      intros key Hin [Hk|[]]. subst key.
      apply in_map_iff in Hin as [s [Hs Hin]]. inversion Hs as [[Hsu Hsc]].
      assert (existsb (fun s0 => (Session.UserID s0 =? userID)
                                 && (Session.ChannelID s0 =? Channel.ID (router.channel best)))
                (sessions db) = true) as Ht.
      { apply existsb_exists. exists s. split; [exact Hin|].
        rewrite Hsu, Hsc, !Z.eqb_refl. reflexivity. }
      rewrite Ex in Ht. discriminate. }
    destruct (GetSessionByUser db userID) as [s|]; [|apply Hsel].
    destruct (GetChannel db _) as [ch|]; [|apply Hsel].
    destruct (Channel.Enabled ch); [|apply Hsel].
    destruct (GetModelByName db modelName) as [m|]; [|apply Hsel].
    destruct (find _ _) as [mc|]; [|apply Hsel].
    intros H; inversion H; subst; clear H. split; [|reflexivity].
    unfold invariant.unique_user_channel in *. unfold UpdateSessionLastUsed. cbn.
    rewrite map_map. erewrite map_ext; [exact Huc|].
    intros x. cbn. destruct (Session.ID x =? Session.ID s); reflexivity. }
  repeat split; assumption.
Qed.

End SessionsKept.

Lemma route_keeps_sessions_wellformed_witness :
  invariant.unique_session_ids example.pinned_twice
  /\ invariant.session_ids_bounded example.pinned_twice
  /\ invariant.unique_user_channel example.pinned_twice
  /\ users example.pinned_twice = users example.pinned
  /\ channels example.pinned_twice = channels example.pinned
  /\ models example.pinned_twice = models example.pinned
  /\ model_channels example.pinned_twice = model_channels example.pinned
  /\ channel_metrics example.pinned_twice = channel_metrics example.pinned.
Proof.
  apply (@route_keeps_sessions_wellformed Qc exact 200 (Q2Qc 0) 1 "claude" example.pinned
           (router.mkRouteResult (Channel.mk 2 "c2" "https://two" "sk-2" 1 true 2 2) "y" 2 true)
           example.pinned_twice).
  - vm_compute. repeat constructor; cbn; intuition discriminate.
  - vm_compute. repeat constructor; discriminate.
  - vm_compute. repeat constructor; cbn; intuition discriminate.
  - vm_compute. reflexivity.
Defined.

(** ** The health checker *)

Lemma GetStatus_store_same c id h : health.GetStatus (health.store c id h) id = Some h.
Proof.
  induction c as [|[k h0] c IH]; cbn.
  - rewrite Z.eqb_refl. reflexivity.
  - destruct (k =? id) eqn:E; cbn; rewrite E; [reflexivity|exact IH].
Qed.

Lemma GetStatus_store_other c id h id' :
  id' <> id -> health.GetStatus (health.store c id h) id' = health.GetStatus c id'.
Proof.
  intros Hne. induction c as [|[k h0] c IH]; cbn.
  - destruct (Z.eqb_spec id id'); [congruence|reflexivity].
  - destruct (Z.eqb_spec k id) as [->|Hk]; cbn.
    + destruct (Z.eqb_spec id id'); [congruence|reflexivity].
    + destruct (k =? id'); [reflexivity|exact IH].
Qed.

Lemma UpdateStatus_failure now id err c st :
  health.GetStatus c id = Some st ->
  health.GetStatus (health.UpdateStatus now id false err c) id
  = Some (health.mkChannelHealth (health.ChannelID st)
            (if 3 <=? health.ConsecutiveFailures st + 1
             then health.StatusUnhealthy else health.status st)
            now
            (match err with Some e => e | None => health.LastError st end)
            (health.ConsecutiveFailures st + 1)).
Proof.
  intros H. unfold health.UpdateStatus. rewrite H. apply GetStatus_store_same.
Qed.

(** X7.  Passive detection on a registered channel: [k] failures in a
    row add [k] to the consecutive failures; the status becomes unhealthy
    as soon as the count reaches 3 and is what it was before that; one
    success then makes the channel healthy, with no consecutive failure
    and no last error. *)
Theorem failures_then_success now id err k c st :
  health.GetStatus c id = Some st ->
  exists st',
    health.GetStatus (health.fail_times k now id err c) id = Some st'
    /\ health.ConsecutiveFailures st' = health.ConsecutiveFailures st + Z.of_nat k
    /\ ((1 <= k)%nat -> 3 <= health.ConsecutiveFailures st + Z.of_nat k ->
        health.status st' = health.StatusUnhealthy)
    /\ (health.ConsecutiveFailures st + Z.of_nat k < 3 -> health.status st' = health.status st)
    /\ forall now', health.GetStatus
                      (health.UpdateStatus now' id true None (health.fail_times k now id err c)) id
                    = Some (health.mkChannelHealth (health.ChannelID st')
                              health.StatusHealthy now' "" 0).
Proof.
  revert c st. induction k as [|k IH]; intros c st Hst.
  - exists st. cbn [health.fail_times]. split; [exact Hst|]. split; [cbn; lia|].
    split; [intros; lia|]. split; [reflexivity|].
    intros now'. unfold health.UpdateStatus. rewrite Hst. apply GetStatus_store_same.
  - pose proof (@UpdateStatus_failure now id err c st Hst) as H1.
    destruct (IH _ _ H1) as [st' [Hget [Hn [Hbad [Hkeep Hok]]]]].
    cbn [health.ConsecutiveFailures health.status] in Hn, Hbad, Hkeep.
    exists st'. cbn [health.fail_times]. split; [exact Hget|].
    split; [rewrite Hn; lia|]. split; [|split].
    + intros _ H3. destruct k as [|k'].
      * cbn in Hkeep. cbn in H3.
        destruct (Z.leb_spec 3 (health.ConsecutiveFailures st + 1)); [|lia].
        cbn [health.fail_times] in Hget. rewrite H1 in Hget. inversion Hget. reflexivity.
      * apply Hbad; lia.
    + intros Hlt. rewrite Hkeep by lia.
      destruct (Z.leb_spec 3 (health.ConsecutiveFailures st + 1)); [lia|reflexivity].
    + exact Hok.
Qed.

Lemma failures_then_success_witness :
  exists st',
    health.GetStatus (health.fail_times 3 20 1 (Some "timeout") example.one_registered) 1
    = Some st'
    /\ health.ConsecutiveFailures st' = 0 + Z.of_nat 3
    /\ ((1 <= 3)%nat -> 3 <= 0 + Z.of_nat 3 -> health.status st' = health.StatusUnhealthy)
    /\ (0 + Z.of_nat 3 < 3 -> health.status st' = health.StatusUnknown)
    /\ forall now', health.GetStatus
                      (health.UpdateStatus now' 1 true None
                         (health.fail_times 3 20 1 (Some "timeout") example.one_registered)) 1
                    = Some (health.mkChannelHealth (health.ChannelID st')
                              health.StatusHealthy now' "" 0).
Proof.
  apply (@failures_then_success 20 1 (Some "timeout") 3 example.one_registered
           (health.mkChannelHealth 1 health.StatusUnknown 10 "" 0)).
  vm_compute. reflexivity.
Defined.

(** X8.  A passive update touches the entry of its channel only, and
    never creates one: for a channel that is not registered the checker
    is left as it is. *)
Theorem UpdateStatus_only_its_entry now id healthy err c :
  (health.GetStatus c id = None -> health.UpdateStatus now id healthy err c = c)
  /\ forall id', id' <> id ->
       health.GetStatus (health.UpdateStatus now id healthy err c) id' = health.GetStatus c id'.
Proof.
  split.
  - intros H. unfold health.UpdateStatus. rewrite H. reflexivity.
  - intros id' Hne. unfold health.UpdateStatus.
    destruct (health.GetStatus c id); [|reflexivity].
    destruct healthy; apply GetStatus_store_other; exact Hne.
Qed.

Lemma UpdateStatus_only_its_entry_witness :
  (health.GetStatus example.one_registered 7 = None ->
   health.UpdateStatus 20 7 false (Some "timeout") example.one_registered
   = example.one_registered)
  /\ forall id', id' <> 7 ->
       health.GetStatus (health.UpdateStatus 20 7 false (Some "timeout") example.one_registered) id'
       = health.GetStatus example.one_registered id'.
Proof.
  apply (UpdateStatus_only_its_entry 20 7 false (Some "timeout") example.one_registered).
Defined.

Lemma GetStatus_key c id st : health.GetStatus c id = Some st -> In id (map fst c).
Proof.
  induction c as [|[k h] c IH]; cbn; [discriminate|].
  destruct (Z.eqb_spec k id); [intros _; left; assumption|intros H; right; apply IH, H].
Qed.

Lemma checkChannel_lookup now k c id :
  health.GetStatus (health.checkChannel now k c) id
  = if k =? id
    then option_map (fun st => health.mkChannelHealth (health.ChannelID st) (health.status st)
                                 now (health.LastError st) (health.ConsecutiveFailures st))
           (health.GetStatus c id)
    else health.GetStatus c id.
Proof.
  unfold health.checkChannel.
  destruct (Z.eqb_spec k id) as [->|Hne].
  - destruct (health.GetStatus c id) eqn:E; [|exact E]. apply GetStatus_store_same.
  - destruct (health.GetStatus c k); [|reflexivity].
    apply GetStatus_store_other. congruence.
Qed.

Lemma check_each_lookup now ids :
  forall c id,
    health.GetStatus (fold_left (fun acc k => health.checkChannel now k acc) ids c) id
    = if existsb (fun k => k =? id) ids
      then option_map (fun st => health.mkChannelHealth (health.ChannelID st) (health.status st)
                                   now (health.LastError st) (health.ConsecutiveFailures st))
             (health.GetStatus c id)
      else health.GetStatus c id.
Proof.
  induction ids as [|k ids IH]; intros c id; cbn; [reflexivity|].
  rewrite IH, checkChannel_lookup.
  destruct (k =? id); cbn; [|reflexivity].
  destruct (existsb _ ids); [|reflexivity].
  destruct (health.GetStatus c id); reflexivity.
Qed.

(** X9.  A round of active checks stamps every registered channel with
    the time of the check and changes nothing else: no status, no failure
    count, no last error, and no channel is added or dropped. *)
Theorem active_check_only_stamps now c id :
  health.GetStatus (health.checkAll now c) id
  = option_map (fun st => health.mkChannelHealth (health.ChannelID st) (health.status st)
                            now (health.LastError st) (health.ConsecutiveFailures st))
      (health.GetStatus c id).
Proof.
  unfold health.checkAll. rewrite check_each_lookup.
  destruct (health.GetStatus c id) as [st|] eqn:E.
  - assert (existsb (fun k => k =? id) (map fst c) = true) as ->; [|reflexivity].
    apply existsb_exists. exists id. split; [|apply Z.eqb_refl].
    eapply GetStatus_key. exact E.
  - destruct (existsb _ _); reflexivity.
Qed.

(** X10.  Registering a channel gives it a fresh entry, [unknown] with no
    failure, also when it was registered before (its history is lost);
    unregistering removes the entry; neither touches another channel. *)
Theorem register_and_unregister now id c :
  health.GetStatus (health.RegisterChannel now id c) id
  = Some (health.mkChannelHealth id health.StatusUnknown now "" 0)
  /\ health.GetStatus (health.UnregisterChannel id c) id = None
  /\ forall id', id' <> id ->
       health.GetStatus (health.RegisterChannel now id c) id' = health.GetStatus c id'
       /\ health.GetStatus (health.UnregisterChannel id c) id' = health.GetStatus c id'.
Proof.
  split; [apply GetStatus_store_same|]. split.
  - unfold health.UnregisterChannel. induction c as [|[k h] c IH]; cbn; [reflexivity|].
    destruct (k =? id) eqn:E; cbn; [exact IH|]. rewrite E. exact IH.
  - intros id' Hne. split; [apply GetStatus_store_other; exact Hne|].
    unfold health.UnregisterChannel. induction c as [|[k h] c IH]; cbn; [reflexivity|].
    destruct (Z.eqb_spec k id) as [->|Hk]; cbn.
    + destruct (Z.eqb_spec id id'); [congruence|exact IH].
    + destruct (k =? id'); [reflexivity|exact IH].
Qed.

Lemma register_and_unregister_witness :
  health.GetStatus (health.RegisterChannel 30 1
                      (health.fail_times 3 20 1 None example.one_registered)) 1
  = Some (health.mkChannelHealth 1 health.StatusUnknown 30 "" 0)
  /\ health.GetStatus (health.UnregisterChannel 1
                         (health.fail_times 3 20 1 None example.one_registered)) 1 = None
  /\ forall id', id' <> 1 ->
       health.GetStatus (health.RegisterChannel 30 1
                           (health.fail_times 3 20 1 None example.one_registered)) id'
       = health.GetStatus (health.fail_times 3 20 1 None example.one_registered) id'
       /\ health.GetStatus (health.UnregisterChannel 1
                              (health.fail_times 3 20 1 None example.one_registered)) id'
          = health.GetStatus (health.fail_times 3 20 1 None example.one_registered) id'.
Proof.
  apply (register_and_unregister 30 1 (health.fail_times 3 20 1 None example.one_registered)).
Defined.

(** ** The session sweeper *)

Section Sweep.
Context {R : Type} {ops : RealOps R}.

Lemma selection_succeeds now (u : R) userID modelName (db : DB R) m :
  foreign_keys db = false ->
  GetModelByName db modelName = Some m ->
  router.candidates db (GetModelChannelsByModel db (Model.ID m)) <> [] ->
  (forall s, In s (sessions db) -> Session.UserID s <> userID) ->
  exists routed db',
    router.selection now u userID modelName db = Ok (routed, db')
    /\ router.IsNew routed = true
    /\ router.SessionID routed = sessions_seq db + 1.
Proof.
  intros Hfk Hm Hc Hnone. unfold router.selection. rewrite Hm.
  destruct (GetModelChannelsByModel db (Model.ID m)) as [|mc0 mcs] eqn:Emcs;
    [exfalso; apply Hc; reflexivity|].
  rewrite <- Emcs in *.
  destruct (router.candidates db _) as [|c0 cs] eqn:Ec; [contradiction|].
  rewrite <- Ec in *.
  destruct (router.selectBestMapping db _ u) as [best|] eqn:Eb.
  - unfold CreateSession. cbn.
    assert (existsb (fun s => (Session.UserID s =? userID)
                              && (Session.ChannelID s =? Channel.ID (router.channel best)))
              (sessions db) = false) as ->.
    { destruct (existsb _ (sessions db)) eqn:Ex; [|reflexivity].
      apply existsb_exists in Ex as [s [Hin Hk]]. apply andb_true_iff in Hk as [Hu _].
      apply Z.eqb_eq in Hu. exfalso. exact (Hnone s Hin Hu). }
    rewrite Hfk. cbn. eexists. eexists. repeat split.
  - exfalso. rewrite (selectBestMapping_samples db u Hc) in Eb. cbv zeta in Eb.
    destruct (sample_in_candidates (map (router.score_of db) (router.candidates db
                (GetModelChannelsByModel db (Model.ID m))))
                (rmul u (spec.total (map (router.score_of db) (router.candidates db
                   (GetModelChannelsByModel db (Model.ID m)))))) Hc) as [m' [Hs _]].
    rewrite Hs in Eb. discriminate.
Qed.

(** X11.  The sweep at second [now] with a timeout of [N >= 0] minutes
    removes exactly the sessions last used before [now - 60 N] and keeps
    the others in their order; no other table changes.  A user all of
    whose sessions were removed is routed afresh by the next route, with a
    new session, whenever the model has an enabled channel. *)
Theorem sweep_removes_idle_sessions now N (db : DB R) :
  0 <= N ->
  let db' := DeleteExpiredSessions now N db in
  (forall s, In s (sessions db')
             <-> In s (sessions db) /\ now - 60 * N <= Session.LastUsedAt s)
  /\ sessions db' = filter (fun s => now - 60 * N <=? Session.LastUsedAt s) (sessions db)
  /\ channels db' = channels db
  /\ models db' = models db
  /\ model_channels db' = model_channels db
  /\ channel_metrics db' = channel_metrics db
  /\ users db' = users db
  /\ forall userID modelName m now2 (u : R),
       foreign_keys db = false ->
       (forall s, In s (sessions db) -> Session.UserID s = userID ->
                  Session.LastUsedAt s < now - 60 * N) ->
       GetModelByName db modelName = Some m ->
       router.candidates db (GetModelChannelsByModel db (Model.ID m)) <> [] ->
       GetSessionByUser db' userID = None
       /\ exists routed db2,
            router.Route now2 u userID modelName db' = Ok (routed, db2)
            /\ router.IsNew routed = true.
Proof.
  intros HN. cbv zeta.
  assert (DeleteExpiredSessions now N db
          = set_sessions db
              (filter (fun s => now - 60 * N <=? Session.LastUsedAt s) (sessions db))
              (sessions_seq db)) as ->.
  { unfold DeleteExpiredSessions. destruct (Z.ltb_spec N 0); [lia|]. f_equal.
    apply filter_ext. intros s.
    destruct (Z.ltb_spec (Session.LastUsedAt s) (now - 60 * N)),
             (Z.leb_spec (now - 60 * N) (Session.LastUsedAt s)); try reflexivity; lia. }
  set (db' := set_sessions db _ _).
  assert (sessions db'
          = filter (fun s => now - 60 * N <=? Session.LastUsedAt s) (sessions db)) as Hs
      by reflexivity.
  split.
  { intros s. rewrite Hs, filter_In, Z.leb_le. reflexivity. }
  split; [exact Hs|]. do 5 (split; [reflexivity|]).
  intros userID modelName m now2 u Hfk Hidle Hm Hc.
  assert (forall s, In s (sessions db') -> Session.UserID s <> userID) as Hnot.
  { intros s Hin Hu. rewrite Hs in Hin.
    apply filter_In in Hin as [Hin Hl]. apply Z.leb_le in Hl.
    pose proof (Hidle s Hin Hu). lia. }
  assert (GetSessionByUser db' userID = None) as Hnone.
  { unfold GetSessionByUser.
    destruct (filter _ (sessions db')) as [|s l] eqn:E; [reflexivity|].
    exfalso. assert (In s (filter (fun s0 => Session.UserID s0 =? userID) (sessions db')))
      as Hin by (rewrite E; left; reflexivity).
    apply filter_In in Hin as [Hin Hu]. apply Z.eqb_eq in Hu. exact (Hnot s Hin Hu). }
  split; [exact Hnone|].
  edestruct (@selection_succeeds now2 u userID modelName db' m)
    as [routed [db2 [Hsel [Hnew _]]]]; try eassumption.
  exists routed, db2. split; [|exact Hnew].
  unfold router.Route. rewrite Hnone. exact Hsel.
Qed.

End Sweep.

Lemma sweep_removes_idle_sessions_witness :
  sessions (DeleteExpiredSessions 2000 30 example.pinned_twice) = [Session.mk 2 1 2 200 200].
Proof.
  destruct (@sweep_removes_idle_sessions Qc exact 2000 30 example.pinned_twice ltac:(lia))
    as [_ [Hs _]].
  rewrite Hs. vm_compute. reflexivity.
Defined.

(** ** The running mean over any sequence of requests *)



Lemma exact_ofZ_pos n : 0 < n -> (0 < Q2Qc (inject_Z n))%Qc.
Proof.
  intros H. unfold Qclt, Q2Qc; cbn [this]. rewrite !Qred_correct.
  change 0%Q with (inject_Z 0). rewrite <- Zlt_Qlt. exact H.
Qed.







(** ** Metrics writes are local to their channel *)

Section MetricsLocal.
Context {R : Type} {ops : RealOps R}.

Lemma find_map_fixing {A} (p : A -> bool) (g : A -> A) l :
  (forall x, p (g x) = p x) ->
  (forall x, p x = true -> g x = x) ->
  find p (map g l) = find p l.
Proof.
  intros Hp Hg. induction l as [|a l IH]; cbn; [reflexivity|].
  rewrite Hp. destruct (p a) eqn:E; [rewrite (Hg a E); reflexivity|exact IH].
Qed.

Lemma find_app_other {A} (p : A -> bool) l x :
  p x = false -> find p (l ++ [x]) = find p l.
Proof.
  intros Hx. induction l as [|a l IH]; cbn; [rewrite Hx; reflexivity|].
  destruct (p a); [reflexivity|exact IH].
Qed.

Lemma find_filter_keeping {A} (p q : A -> bool) l :
  (forall x, p x = true -> q x = true) ->
  find p (filter q l) = find p l.
Proof.
  intros Hq. induction l as [|a l IH]; cbn; [reflexivity|].
  destruct (q a) eqn:Eq; cbn.
  - destruct (p a); [reflexivity|exact IH].
  - destruct (p a) eqn:Ep; [rewrite (Hq a Ep) in Eq; discriminate|exact IH].
Qed.

Lemma UpdateChannelMetrics_other now c (L : R) success (db db' : DB R) c' :
  c' <> c ->
  UpdateChannelMetrics now c L success db = Ok db' ->
  GetChannelMetrics db' c' = GetChannelMetrics db c'.
Proof.
  intros Hne. unfold UpdateChannelMetrics.
  destruct (GetChannelMetrics db c) as [row|].
  - intros H; inversion H; subst; clear H. unfold GetChannelMetrics; cbn.
    apply find_map_fixing.
    + intros x. destruct (ChannelMetrics.ChannelID x =? c); reflexivity.
    + intros x Hx. apply Z.eqb_eq in Hx.
      destruct (Z.eqb_spec (ChannelMetrics.ChannelID x) c); [congruence|reflexivity].
  - destruct (foreign_keys db && _); [discriminate|].
    intros H; inversion H; subst; clear H. unfold GetChannelMetrics; cbn.
    apply find_app_other. cbn. apply Z.eqb_neq. congruence.
Qed.

Lemma ResetChannelMetrics_other c (db : DB R) c' :
  c' <> c ->
  GetChannelMetrics (ResetChannelMetrics c db) c' = GetChannelMetrics db c'.
Proof.
  intros Hne. unfold GetChannelMetrics, ResetChannelMetrics; cbn.
  apply find_filter_keeping. intros x Hx. apply Z.eqb_eq in Hx.
  apply negb_true_iff. apply Z.eqb_neq. congruence.
Qed.

(** X13.  A metrics write for one channel leaves every other channel's
    row, and so its score, as it was, and leaves every other table alone;
    so does a reset, after which the channel itself scores its bare
    weight again. *)
Theorem metrics_writes_are_local now c (L : R) success (db db' : DB R) :
  UpdateChannelMetrics now c L success db = Ok db' ->
  (forall ch, Channel.ID ch <> c ->
     GetChannelMetrics db' (Channel.ID ch) = GetChannelMetrics db (Channel.ID ch)
     /\ router.calculateScore db' ch = router.calculateScore db ch
     /\ router.calculateScore (ResetChannelMetrics c db) ch = router.calculateScore db ch)
  /\ (forall ch, Channel.ID ch = c ->
        router.calculateScore (ResetChannelMetrics c db') ch = ofZ (Channel.Weight ch))
  /\ channels db' = channels db
  /\ users db' = users db
  /\ models db' = models db
  /\ model_channels db' = model_channels db
  /\ sessions db' = sessions db.
Proof.
  intros Hup. split; [|split].
  - intros ch Hne.
    pose proof (@UpdateChannelMetrics_other now c L success db db' _ Hne Hup) as H1.
    pose proof (@ResetChannelMetrics_other c db _ Hne) as H2.
    split; [exact H1|]. unfold router.calculateScore. rewrite H1, H2. split; reflexivity.
  - intros ch Hid. unfold router.calculateScore. rewrite Hid, reset_clears. reflexivity.
  - unfold UpdateChannelMetrics in Hup.
    destruct (GetChannelMetrics db c) as [row|].
    + inversion Hup; subst. repeat split.
    + destruct (foreign_keys db && _); [discriminate|]. inversion Hup; subst. repeat split.
Qed.

End MetricsLocal.

Lemma metrics_writes_are_local_witness :
  router.calculateScore
    (example.after (do d <- UpdateChannelMetrics 103 1 (Q2Qc 2) false example.with_metrics;
                    Ok (tt, d)) example.with_metrics)
    (Channel.mk 2 "c2" "https://two" "sk-2" 1 true 2 2)
  = router.calculateScore example.with_metrics (Channel.mk 2 "c2" "https://two" "sk-2" 1 true 2 2).
Proof.
  destruct (@metrics_writes_are_local Qc exact 103 1 (Q2Qc 2) false example.with_metrics
              (example.after (do d <- UpdateChannelMetrics 103 1 (Q2Qc 2) false
                                        example.with_metrics;
                              Ok (tt, d)) example.with_metrics))
    as [Hother _].
  - vm_compute. reflexivity.
  - destruct (Hother (Channel.mk 2 "c2" "https://two" "sk-2" 1 true 2 2)) as [_ [Hs _]].
    + cbn. discriminate.
    + exact Hs.
Defined.

(** ** Members the request struct does not name *)

Lemma decode_request_skips l1 k v l2 :
  api.key_matches "model" k = false ->
  api.key_matches "messages" k = false ->
  api.key_matches "stream" k = false ->
  forall req spare,
    api.decode_request_fields (l1 ++ (k, v) :: l2) req spare
    = api.decode_request_fields (l1 ++ l2) req spare.
Proof.
  intros Hm Hs Ht. induction l1 as [|[k0 v0] l1 IH]; intros req spare.
  - cbn [app api.decode_request_fields]. rewrite Hm, Hs, Ht. reflexivity.
  - cbn [app api.decode_request_fields].
    destruct (api.key_matches "model" k0).
    { destruct (api.decode_string _ _ (api.Model req) v0); cbn [bind]; [apply IH|reflexivity]. }
    destruct (api.key_matches "messages" k0).
    { destruct (api.decode_slice (api.Messages req) spare v0); cbn [bind];
        [apply IH|reflexivity]. }
    destruct (api.key_matches "stream" k0).
    { destruct (api.decode_bool _ _ (api.Stream req) v0); cbn [bind]; [apply IH|reflexivity]. }
    apply IH.
Qed.

Lemma decode_message_skips l1 k v l2 :
  api.key_matches "role" k = false ->
  api.key_matches "content" k = false ->
  forall m,
    api.decode_message_fields (l1 ++ (k, v) :: l2) m
    = api.decode_message_fields (l1 ++ l2) m.
Proof.
  intros Hr Hc. induction l1 as [|[k0 v0] l1 IH]; intros m.
  - cbn [app api.decode_message_fields]. rewrite Hr, Hc. reflexivity.
  - cbn [app api.decode_message_fields].
    destruct (api.key_matches "role" k0).
    { destruct (api.decode_string _ _ (api.Role m) v0); cbn [bind]; [apply IH|reflexivity]. }
    destruct (api.key_matches "content" k0).
    { destruct (api.decode_string _ _ (api.Content m) v0); cbn [bind]; [apply IH|reflexivity]. }
    apply IH.
Qed.

Section UnknownMembers.
Context {R : Type} {ops : RealOps R}.

(** X14.  A member whose key matches none of [model], [messages] and
    [stream] has no effect at all: with and without it, wherever it stands
    in the object and whatever its value, the request binds to the same
    struct and the handler gives the same reply, store and calls.  The
    same holds for a member of a message other than [role] and
    [content]. *)
Theorem unknown_members_have_no_effect l1 k v l2 :
  api.key_matches "model" k = false ->
  api.key_matches "messages" k = false ->
  api.key_matches "stream" k = false ->
  api.ShouldBindJSON (api.JObj (l1 ++ (k, v) :: l2)) = api.ShouldBindJSON (api.JObj (l1 ++ l2))
  /\ (forall (env : api.Env R) userID (db : DB R),
        api.ChatCompletions env userID (api.JObj (l1 ++ (k, v) :: l2)) db
        = api.ChatCompletions env userID (api.JObj (l1 ++ l2)) db)
  /\ (api.key_matches "role" k = false -> api.key_matches "content" k = false ->
      forall base,
        api.decode_message base (api.JObj (l1 ++ (k, v) :: l2))
        = api.decode_message base (api.JObj (l1 ++ l2))).
Proof.
  intros Hm Hs Ht.
  assert (api.ShouldBindJSON (api.JObj (l1 ++ (k, v) :: l2))
          = api.ShouldBindJSON (api.JObj (l1 ++ l2))) as Hbind.
  { unfold api.ShouldBindJSON, api.Unmarshal. rewrite decode_request_skips by assumption.
    reflexivity. }
  split; [exact Hbind|]. split.
  - intros env userID db. unfold api.ChatCompletions. rewrite Hbind. reflexivity.
  - intros Hr Hc base. unfold api.decode_message. apply decode_message_skips; assumption.
Qed.

End UnknownMembers.

Lemma unknown_members_have_no_effect_witness :
  api.ChatCompletions example.answering (Some 1) example.request_with_temperature
    example.two_models
  = api.ChatCompletions example.answering (Some 1) example.plain_request example.two_models.
Proof.
  apply (proj1 (proj2 (@unknown_members_have_no_effect Qc exact
                         [("model", api.JStr "gpt-4"); ("messages", api.JArr example.hello)]
                         "temperature" (api.JNum "0.7") []
                         ltac:(vm_compute; reflexivity) ltac:(vm_compute; reflexivity)
                         ltac:(vm_compute; reflexivity)))
           example.answering (Some 1) example.two_models).
Defined.

(** ** What is forwarded is a request again *)

Section ForwardedBinds.
Context {R : Type} {ops : RealOps R}.

(** X15.  Every request the handler hands to the HTTP client is a POST
    to [<base URL>/chat/completions] of the routed channel with that
    channel's key as bearer token, and, when the backend model name is
    not empty, its body binds again to the caller's request with the
    model renamed: a backend that is itself such a gateway accepts it. *)
Theorem forwarded_request_binds (env : api.Env R) userID body (db : DB R) req routed db1 q :
  api.ShouldBindJSON body = Ok req ->
  router.Route (api.now env) (api.draw env) userID (api.Model req) db = Ok (routed, db1) ->
  In q (spec.sent_requests (api.trace (api.ChatCompletions env (Some userID) body db))) ->
  api.method q = "POST"
  /\ api.url q = (Channel.BaseURL (router.Channel routed) ++ "/chat/completions")%string
  /\ api.authorization q = ("Bearer " ++ Channel.APIKey (router.Channel routed))%string
  /\ api.content_type q = "application/json"
  /\ (router.BackendModelName routed <> "" ->
      api.ShouldBindJSON (api.body q)
      = Ok (api.mkRequest (router.BackendModelName routed) (api.Messages req) (api.Stream req))).
Proof.
  intros Hbind Hroute Hin.
  destruct (bound_request_valid _ Hbind) as [_ [ms Hms]].
  assert (q = api.outbound (router.Channel routed)
                (api.Marshal (api.mkRequest (router.BackendModelName routed) (Some ms)
                                (api.Stream req)))) as ->.
  { revert Hin. unfold api.ChatCompletions. rewrite Hbind, Hroute.
    destruct (api.Stream req) eqn:Hs.
    - unfold api.forwardStreamRequest. rewrite Hms.
      destruct (api.url_ok env _); [|intros []].
      destruct (api.backend env _) as [resp|e].
      + destruct (api.status resp =? 200).
        * destruct (api.read_error resp); [destruct (api.lines resp)|]; cbn;
            intros [H|[]]; symmetry; exact H.
        * cbn; intros [H|[]]; symmetry; exact H.
      + cbn; intros [H|[]]; symmetry; exact H.
    - unfold api.forwardRequest. rewrite Hms, Hs.
      destruct (api.url_ok env _); [|intros []].
      destruct (api.backend env _) as [resp|e].
      + destruct (api.status resp =? 200).
        * destruct (api.decoded resp); cbn; intros [H|[]]; symmetry; exact H.
        * cbn; intros [H|[]]; symmetry; exact H.
      + cbn; intros [H|[]]; symmetry; exact H. }
  cbn [api.outbound api.method api.url api.authorization api.content_type api.body].
  repeat split. intros Hname. rewrite Hms. apply marshalled_request_binds. exact Hname.
Qed.

End ForwardedBinds.

Lemma forwarded_request_binds_witness :
  api.ShouldBindJSON
    (api.JObj [("model", api.JStr "x");
               ("messages", api.JArr [api.JObj [("role", api.JStr "user");
                                                ("content", api.JStr "Hello!")]])])
  = Ok (api.mkRequest "x" (Some [api.mkMessage "user" "Hello!"]) false).
Proof.
  destruct (@forwarded_request_binds Qc exact example.answering 1 example.request_with_temperature
              example.two_models
              (api.mkRequest "gpt-4" (Some [api.mkMessage "user" "Hello!"]) false)
              (router.mkRouteResult (Channel.mk 1 "c1" "https://one" "sk-1" 10 true 1 1) "x" 1 true)
              (example.after (router.Route 300 (Q2Qc 0) 1 "gpt-4" example.two_models)
                 example.two_models)
              (api.mkHttpRequest "POST" "https://one/chat/completions" "application/json"
                 "Bearer sk-1"
                 (api.JObj [("model", api.JStr "x");
                            ("messages",
                              api.JArr [api.JObj [("role", api.JStr "user");
                                                  ("content", api.JStr "Hello!")]])])))
    as [_ [_ [_ [_ Hb]]]].
  - vm_compute. reflexivity.
  - vm_compute. reflexivity.
  - vm_compute. left. reflexivity.
  - apply Hb. cbn. discriminate.
Defined.

(** ** The API key of a request *)

Lemma SplitN2_before_space scheme rest :
  (forall c, In c (list_ascii_of_string scheme) -> c <> " "%char) ->
  auth.SplitN2 (scheme ++ String " " rest)%string = (scheme, Some rest).
Proof.
  induction scheme as [|a scheme IH]; intros Hns; [reflexivity|].
  cbn [String.append auth.SplitN2].
  destruct (Ascii.eqb_spec a " "%char) as [Ha|Ha].
  - exfalso. apply (Hns a); [left; reflexivity|exact Ha].
  - rewrite IH; [reflexivity|]. intros c Hc. apply Hns. right. exact Hc.
Qed.

Lemma SplitN2_without_space h :
  (forall c, In c (list_ascii_of_string h) -> c <> " "%char) ->
  auth.SplitN2 h = (h, None).
Proof.
  induction h as [|a h IH]; intros Hns; [reflexivity|].
  cbn [auth.SplitN2].
  destruct (Ascii.eqb_spec a " "%char) as [Ha|Ha].
  - exfalso. apply (Hns a); [left; reflexivity|exact Ha].
  - rewrite IH; [reflexivity|]. intros c Hc. apply Hns. right. exact Hc.
Qed.

Lemma SplitN2_parts h :
  forall scheme rest,
    auth.SplitN2 h = (scheme, Some rest) -> h = (scheme ++ String " " rest)%string.
Proof.
  induction h as [|a h IH]; intros scheme rest; cbn [auth.SplitN2]; [discriminate|].
  destruct (Ascii.eqb_spec a " "%char) as [Ha|Ha].
  - intros H; inversion H; subst. reflexivity.
  - destruct (auth.SplitN2 h) as [s0 [r0|]] eqn:E; cbn [fst snd]; intros H; inversion H; subst.
    cbn [String.append]. f_equal. apply IH. reflexivity.
Qed.

Lemma ToLower_letters s c :
  In c (list_ascii_of_string s) ->
  In (api.lower c) (list_ascii_of_string (auth.ToLower s)).
Proof.
  induction s as [|a s IH]; cbn; [intros []|].
  intros [->|H]; [left; reflexivity|right; apply IH, H].
Qed.

Lemma bearer_has_no_space scheme :
  auth.ToLower scheme = "bearer" ->
  forall c, In c (list_ascii_of_string scheme) -> c <> " "%char.
Proof.
  intros Hb c Hc ->. apply ToLower_letters in Hc. rewrite Hb in Hc.
  cbn in Hc. repeat (destruct Hc as [Hc|Hc]; [discriminate Hc|]). exact Hc.
Qed.

Lemma find_unique_key {A} (key : A -> string) l x :
  NoDup (map key l) -> In x l ->
  find (fun y => String.eqb (key y) (key x)) l = Some x.
Proof.
  intros Hnd Hin. induction l as [|a l IH]; [destruct Hin|].
  cbn [find]. destruct (String.eqb_spec (key a) (key x)) as [Heq|Hne].
  - f_equal. apply (NoDup_key_inj key (a :: l)); [exact Hnd|left; reflexivity|exact Hin|exact Heq].
  - destruct Hin as [->|Hin]; [contradiction|].
    apply IH; [|exact Hin]. inversion Hnd; assumption.
Qed.

Section Keys.
Context {R : Type} {ops : RealOps R}.

(** X16.  [RequireAuth] lets a request through exactly for a stored key
    sent under the bearer scheme.  Whoever is authenticated is a stored
    user, and the header reads [<scheme> <rest>] with a scheme that is
    [bearer] in some mix of cases and a rest that trims to that user's
    non-empty key; with unique keys, every such header authenticates that
    user; a header without a space is answered 401. *)
Theorem RequireAuth_accepts_stored_bearer_keys (db : DB R) :
  (forall h user,
      auth.RequireAuth db h = auth.Authenticated user ->
      In user (users db)
      /\ User.APIKey user <> ""
      /\ exists scheme rest,
           h = (scheme ++ " " ++ rest)%string
           /\ auth.ToLower scheme = "bearer"
           /\ auth.TrimSpace rest = User.APIKey user)
  /\ (forall scheme rest user,
        invariant.unique_api_keys db ->
        In user (users db) ->
        auth.ToLower scheme = "bearer" ->
        auth.TrimSpace rest = User.APIKey user ->
        User.APIKey user <> "" ->
        auth.RequireAuth db (scheme ++ " " ++ rest) = auth.Authenticated user)
  /\ (forall h,
        (forall c, In c (list_ascii_of_string h) -> c <> " "%char) ->
        auth.RequireAuth db h = auth.Rejected 401 "missing API key").
Proof.
  split; [|split].
  - intros h user. unfold auth.RequireAuth. cbv zeta.
    destruct (String.eqb_spec (auth.extractAPIKey h) "") as [He|He]; [discriminate|].
    destruct (GetUserByAPIKey db (auth.extractAPIKey h)) as [x|] eqn:Ex; [|discriminate].
    intros H; inversion H; subst x; clear H.
    unfold GetUserByAPIKey in Ex. apply find_some in Ex as [Hin Hkey].
    apply String.eqb_eq in Hkey.
    split; [exact Hin|]. split; [rewrite Hkey; exact He|].
    unfold auth.extractAPIKey in *.
    destruct (String.eqb h ""); [contradiction He; reflexivity|].
    destruct (auth.SplitN2 h) as [scheme [rest|]] eqn:Es; [|contradiction He; reflexivity].
    destruct (String.eqb_spec (auth.ToLower scheme) "bearer") as [Hb|Hb];
      [|contradiction He; reflexivity].
    exists scheme, rest. split; [exact (@SplitN2_parts h scheme rest Es)|]. split; [exact Hb|].
    symmetry. exact Hkey.
  - intros scheme rest user Hu Hin Hb Ht Hne.
    unfold auth.RequireAuth, auth.extractAPIKey. cbv zeta.
    change (scheme ++ " " ++ rest)%string with (scheme ++ String " " rest)%string.
    rewrite (@SplitN2_before_space scheme rest (@bearer_has_no_space scheme Hb)).
    assert (String.eqb (scheme ++ String " " rest) "" = false) as ->.
    { destruct scheme; reflexivity. }
    rewrite Hb. cbn [String.eqb Ascii.eqb Bool.eqb]. cbn match. rewrite Ht.
    destruct (String.eqb_spec (User.APIKey user) ""); [contradiction|].
    unfold GetUserByAPIKey.
    rewrite (@find_unique_key _ User.APIKey (users db) user Hu Hin). reflexivity.
  - intros h Hns. unfold auth.RequireAuth, auth.extractAPIKey. cbv zeta.
    rewrite (@SplitN2_without_space h Hns).
    destruct (String.eqb h ""); reflexivity.
Qed.

End Keys.

Lemma RequireAuth_accepts_stored_bearer_keys_witness :
  auth.RequireAuth example.two_models "BEARER  k" = auth.Authenticated (User.mk 1 "k" "U").
Proof.
  apply (proj1 (proj2 (@RequireAuth_accepts_stored_bearer_keys Qc example.two_models))
           "BEARER" " k" (User.mk 1 "k" "U")).
  - vm_compute. repeat constructor. intros [].
  - vm_compute. left. reflexivity.
  - reflexivity.
  - reflexivity.
  - cbn. discriminate.
Defined.

(** ** A request acts for its user only *)

Section OwnSessions.
Context {R : Type} {ops : RealOps R}.

Lemma route_leaves_other_users now (u : R) userID modelName (db : DB R) routed db' :
  invariant.unique_session_ids db ->
  router.Route now u userID modelName db = Ok (routed, db') ->
  filter (fun s => negb (Session.UserID s =? userID)) (sessions db')
  = filter (fun s => negb (Session.UserID s =? userID)) (sessions db).
Proof.
  intros Hu. unfold router.Route.
  assert (forall r d, router.selection now u userID modelName db = Ok (r, d) ->
            filter (fun s => negb (Session.UserID s =? userID)) (sessions d)
            = filter (fun s => negb (Session.UserID s =? userID)) (sessions db)) as Hsel.
  { intros r d. unfold router.selection.
    destruct (GetModelByName db modelName); [|discriminate].
    destruct (GetModelChannelsByModel db _); [discriminate|].
    destruct (router.candidates db _); [discriminate|].
    destruct (router.selectBestMapping db _ u) as [best|]; [|discriminate].
    unfold CreateSession. cbn.
    destruct (existsb _ (sessions db)); [discriminate|].
    destruct (foreign_keys db && _); [discriminate|]. cbn.
    intros H; inversion H; subst; clear H. cbn.
    rewrite filter_app. cbn. rewrite Z.eqb_refl. cbn. apply app_nil_r. }
  destruct (GetSessionByUser db userID) as [s|] eqn:Es; [|apply Hsel].
  destruct (GetChannel db _) as [ch|]; [|apply Hsel].
  destruct (Channel.Enabled ch); [|apply Hsel].
  destruct (GetModelByName db modelName) as [m|]; [|apply Hsel].
  destruct (find _ _) as [mc|]; [|apply Hsel].
  intros H; inversion H; subst; clear H.
  destruct (@most_recent_session R db userID s Es) as [Hsin [Huser _]].
  unfold UpdateSessionLastUsed. cbn.
  rewrite filter_map_preserving
    by (intros x; destruct (Session.ID x =? Session.ID s); reflexivity).
  rewrite <- (map_id (filter _ (sessions db))) at 2.
  apply map_ext_in. intros x Hx. apply filter_In in Hx as [Hx Hnot].
  destruct (Z.eqb_spec (Session.ID x) (Session.ID s)) as [Heq|]; [|reflexivity].
  exfalso. rewrite (NoDup_key_inj Session.ID (sessions db) x s Hu Hx Hsin Heq) in Hnot.
  rewrite Huser, Z.eqb_refl in Hnot. discriminate.
Qed.

Lemma record_keeps_tables (env : api.Env R) c ok (db : DB R) :
  sessions (api.record env c ok db) = sessions db
  /\ users (api.record env c ok db) = users db
  /\ channels (api.record env c ok db) = channels db
  /\ models (api.record env c ok db) = models db
  /\ model_channels (api.record env c ok db) = model_channels db.
Proof.
  unfold api.record, UpdateChannelMetrics.
  destruct (GetChannelMetrics db c); [repeat split|].
  destruct (foreign_keys db && _); repeat split.
Qed.

(** What the handler leaves in the store: the store it found, or the
    routed store with one metrics write. *)
Lemma ChatCompletions_store (env : api.Env R) userID body (db : DB R) :
  api.store (api.ChatCompletions env (Some userID) body db) = db
  \/ exists req routed db1 ok,
       api.ShouldBindJSON body = Ok req
       /\ router.Route (api.now env) (api.draw env) userID (api.Model req) db = Ok (routed, db1)
       /\ api.store (api.ChatCompletions env (Some userID) body db)
          = api.record env (Channel.ID (router.Channel routed)) ok db1.
Proof.
  unfold api.ChatCompletions.
  destruct (api.ShouldBindJSON body) as [req|e]; [|left; reflexivity].
  destruct (router.Route _ _ userID (api.Model req) db) as [[routed db1]|e] eqn:Er;
    [|left; reflexivity].
  right. exists req, routed, db1.
  destruct (api.Stream req).
  - destruct (api.forwardStreamRequest env _ _ req) as [[q written] [[]|e]].
    + exists true. split; [reflexivity|]. split; [exact Er|reflexivity].
    + exists false. split; [reflexivity|]. split; [exact Er|].
      destruct written; reflexivity.
  - destruct (api.forwardRequest env _ _ req) as [q [resp|e]].
    + exists true. split; [reflexivity|]. split; [exact Er|reflexivity].
    + exists false. split; [reflexivity|]. split; [exact Er|reflexivity].
Qed.

(** X17.  A request acts for the user of its key and for nobody else.
    Without a stored key it is answered 401 before anything happens: the
    store is as it was and no call is made.  With one, the handler runs
    for that user: the sessions of every other user, and the users,
    channels, models and mappings, are left as they were. *)
Theorem requests_act_for_their_user (env : api.Env R) h body (app : server.App R) :
  let out := fst (server.post_chat_completions env h body app) in
  ((forall user, auth.RequireAuth (server.db app) h <> auth.Authenticated user) ->
     api.code out = 401 /\ api.store out = server.db app /\ api.trace out = [])
  /\ (forall user,
        auth.RequireAuth (server.db app) h = auth.Authenticated user ->
        invariant.unique_session_ids (server.db app) ->
        out = api.ChatCompletions env (Some (User.ID user)) body (server.db app)
        /\ filter (fun s => negb (Session.UserID s =? User.ID user)) (sessions (api.store out))
           = filter (fun s => negb (Session.UserID s =? User.ID user)) (sessions (server.db app))
        /\ users (api.store out) = users (server.db app)
        /\ channels (api.store out) = channels (server.db app)
        /\ models (api.store out) = models (server.db app)
        /\ model_channels (api.store out) = model_channels (server.db app)).
Proof.
  cbv zeta. unfold server.post_chat_completions. split.
  - intros Hno. destruct (auth.RequireAuth (server.db app) h) as [code error|x] eqn:E.
    + unfold auth.RequireAuth in E. cbv zeta in E.
      destruct (String.eqb _ ""); [inversion E; subst; repeat split|].
      destruct (GetUserByAPIKey _ _); inversion E; subst. repeat split.
    + exfalso. apply (Hno x). reflexivity.
  - intros user Hauth Hu. rewrite Hauth. unfold server.chat_completions. cbn [fst].
    split; [reflexivity|].
    destruct (ChatCompletions_store env (User.ID user) body (server.db app))
      as [->|[req [routed [db1 [ok [_ [Hroute ->]]]]]]]; [repeat split|].
    destruct (record_keeps_tables env (Channel.ID (router.Channel routed)) ok db1)
      as [-> [-> [-> [-> ->]]]].
    edestruct Route_keeps as [_ [Hc [Hm [Hmc _]]]]; [exact Hroute|].
    split; [eapply route_leaves_other_users; eassumption|].
    split; [|split; [exact Hc|split; [exact Hm|exact Hmc]]].
    revert Hroute. clear. unfold router.Route, router.selection, CreateSession.
    repeat match goal with
           | |- context [match ?x with _ => _ end] => destruct x; try discriminate
           end; cbn; intros H; inversion H; subst; reflexivity.
Qed.

End OwnSessions.

Lemma requests_act_for_their_user_witness :
  fst (server.post_chat_completions example.answering "Bearer k" example.plain_request
         (server.mkApp example.two_models health.NewChecker))
  = api.ChatCompletions example.answering (Some (User.ID (User.mk 1 "k" "U")))
      example.plain_request (server.db (server.mkApp example.two_models health.NewChecker)).
Proof.
  destruct (@requests_act_for_their_user Qc exact example.answering "Bearer k"
              example.plain_request (server.mkApp example.two_models health.NewChecker))
    as [_ Hkey].
  destruct (Hkey (User.mk 1 "k" "U")) as [Hout _].
  - vm_compute. reflexivity.
  - vm_compute. constructor.
  - exact Hout.
Defined.

(** ** Users and their keys *)

Section Users.
Context {R : Type} {ops : RealOps R}.

Lemma bearer_prefix key : auth.extractAPIKey ("Bearer " ++ key) = auth.TrimSpace key.
Proof. reflexivity. Qed.

Lemma find_filter_keeping_in {A} (p q : A -> bool) l :
  (forall x, In x l -> p x = true -> q x = true) ->
  find p (filter q l) = find p l.
Proof.
  induction l as [|a l IH]; intros Hq; cbn; [reflexivity|].
  assert (find p (filter q l) = find p l) as IH'
    by (apply IH; intros x Hx; apply Hq; right; exact Hx).
  destruct (q a) eqn:Eq; cbn.
  - destruct (p a); [reflexivity|exact IH'].
  - destruct (p a) eqn:Ep; [|exact IH'].
    rewrite (Hq a (or_introl eq_refl) Ep) in Eq. discriminate.
Qed.

(** X18.  [CreateUser] keeps the keys unique: it fails exactly when the
    key is already stored, and otherwise the new user, with the next id,
    is the one the key authenticates from then on, while every other key
    authenticates whom it did before. *)
Theorem created_user_authenticates user (db : DB R) :
  invariant.unique_api_keys db ->
  match CreateUser user db with
  | Failed _ => exists other, GetUserByAPIKey db (User.APIKey user) = Some other
  | Ok (row, db') =>
      GetUserByAPIKey db (User.APIKey user) = None
      /\ row = User.mk (users_seq db + 1) (User.APIKey user) (User.Name user)
      /\ GetUserByAPIKey db' (User.APIKey user) = Some row
      /\ (forall key, key <> User.APIKey user ->
                      GetUserByAPIKey db' key = GetUserByAPIKey db key)
      /\ invariant.unique_api_keys db'
      /\ (auth.TrimSpace (User.APIKey user) = User.APIKey user ->
          User.APIKey user <> "" ->
          auth.RequireAuth db' ("Bearer " ++ User.APIKey user) = auth.Authenticated row)
  end.
Proof.
  intros Hu. unfold CreateUser.
  destruct (existsb _ (users db)) eqn:Ex.
  - apply existsb_exists in Ex as [x [Hin Hk]]. unfold GetUserByAPIKey.
    destruct (find _ (users db)) as [other|] eqn:Ef; [exists other; reflexivity|].
    exfalso. pose proof (find_none _ _ Ef x Hin) as Hx. cbn in Hx.
    rewrite Hk in Hx. discriminate.
  - assert (GetUserByAPIKey db (User.APIKey user) = None) as Hnone.
    { unfold GetUserByAPIKey. destruct (find _ (users db)) as [x|] eqn:Ef; [|reflexivity].
      apply find_some in Ef as [Hin Hk].
      assert (existsb (fun y => String.eqb (User.APIKey y) (User.APIKey user)) (users db) = true)
        as Ht by (apply existsb_exists; exists x; split; assumption).
      rewrite Ex in Ht. discriminate. }
    set (row := User.mk (users_seq db + 1) (User.APIKey user) (User.Name user)).
    set (db' := {| foreign_keys := foreign_keys db;
                   channels := channels db; channels_seq := channels_seq db;
                   users := users db ++ [row]; users_seq := users_seq db + 1;
                   models := models db; models_seq := models_seq db;
                   model_channels := model_channels db;
                   model_channels_seq := model_channels_seq db;
                   sessions := sessions db; sessions_seq := sessions_seq db;
                   channel_metrics := channel_metrics db |}).
    assert (GetUserByAPIKey db' (User.APIKey user) = Some row) as Hget.
    { unfold GetUserByAPIKey in *. cbn [users db'].
      rewrite (find_app_none _ _ row Hnone). cbn. rewrite String.eqb_refl. reflexivity. }
    split; [exact Hnone|]. split; [reflexivity|]. split; [exact Hget|]. split; [|split].
    + intros key Hne. unfold GetUserByAPIKey. cbn [users db'].
      apply find_app_other. cbn. apply String.eqb_neq. congruence.
    + unfold invariant.unique_api_keys in *. cbn [users db']. rewrite map_app. cbn.
      apply NoDup_app; [exact Hu|constructor; [intros []|constructor]|].
      intros key Hin [Hk|[]]. subst key.
      apply in_map_iff in Hin as [x [Hk Hin]].
      assert (existsb (fun y => String.eqb (User.APIKey y) (User.APIKey user)) (users db) = true)
        as Ht by (apply existsb_exists; exists x; split; [exact Hin|apply String.eqb_eq, Hk]).
      rewrite Ex in Ht. discriminate.
    + intros Htrim Hne. unfold auth.RequireAuth. cbv zeta.
      rewrite bearer_prefix, Htrim.
      destruct (String.eqb_spec (User.APIKey user) ""); [contradiction|].
      rewrite Hget. reflexivity.
Qed.

(** X19.  [DeleteUser] locks the user out and nobody else: the key of
    the deleted user authenticates no one, whatever the header; every
    other user's key still authenticates that user.  With foreign keys
    off, as [New] leaves them, the sessions of the deleted user stay in
    the store. *)
Theorem deleted_user_is_locked_out id (db : DB R) user :
  invariant.unique_api_keys db ->
  In user (users db) ->
  User.ID user = id ->
  GetUserByAPIKey (DeleteUser id db) (User.APIKey user) = None
  /\ (forall h x, auth.RequireAuth (DeleteUser id db) h = auth.Authenticated x ->
                  User.ID x <> id /\ User.APIKey x <> User.APIKey user)
  /\ (forall key other, GetUserByAPIKey db key = Some other -> User.ID other <> id ->
                        GetUserByAPIKey (DeleteUser id db) key = Some other)
  /\ invariant.unique_api_keys (DeleteUser id db)
  /\ (foreign_keys db = false -> sessions (DeleteUser id db) = sessions db).
Proof.
  intros Hu Hin Hid.
  assert (forall x, In x (users (DeleteUser id db)) ->
                    In x (users db) /\ User.ID x <> id /\ User.APIKey x <> User.APIKey user)
    as Hleft.
  { intros x Hx. cbn in Hx. apply filter_In in Hx as [Hx Hne].
    apply negb_true_iff, Z.eqb_neq in Hne. split; [exact Hx|]. split; [exact Hne|].
    intros Hk. apply Hne.
    rewrite (NoDup_key_inj User.APIKey (users db) x user Hu Hx Hin Hk). exact Hid. }
  split; [|split; [|split; [|split]]].
  - unfold GetUserByAPIKey. destruct (find _ _) as [x|] eqn:Ef; [|reflexivity].
    apply find_some in Ef as [Hx Hk]. apply String.eqb_eq in Hk.
    destruct (Hleft x Hx) as [_ [_ Hne]]. contradiction.
  - intros h x. unfold auth.RequireAuth. cbv zeta.
    destruct (String.eqb _ ""); [discriminate|].
    destruct (GetUserByAPIKey _ _) as [y|] eqn:Ey; [|discriminate].
    intros H; inversion H; subst y; clear H.
    unfold GetUserByAPIKey in Ey. apply find_some in Ey as [Hx _].
    destruct (Hleft x Hx) as [_ Hne]. exact Hne.
  - intros key other Hget Hne. unfold GetUserByAPIKey in *. cbn [users DeleteUser].
    rewrite find_filter_keeping_in; [exact Hget|].
    intros x Hx Hk. apply String.eqb_eq in Hk.
    apply find_some in Hget as [Ho Hko]. apply String.eqb_eq in Hko.
    assert (x = other) as ->
      by (apply (NoDup_key_inj User.APIKey (users db)); [exact Hu|exact Hx|exact Ho|congruence]).
    apply negb_true_iff, Z.eqb_neq. exact Hne.
  - unfold invariant.unique_api_keys in *. cbn [users DeleteUser].
    clear Hin Hleft. induction (users db) as [|a l IH]; cbn; [constructor|].
    inversion Hu as [|? ? Hnotin Hnd]; subst.
    destruct (negb (User.ID a =? User.ID user)); cbn; [|apply IH; exact Hnd].
    constructor; [|apply IH; exact Hnd].
    intros Hin. apply Hnotin. apply in_map_iff in Hin as [x [Hk Hx]].
    apply filter_In in Hx as [Hx _]. apply in_map_iff. exists x. split; assumption.
  - intros Hfk. cbn. rewrite Hfk. reflexivity.
Qed.

End Users.

Lemma created_user_authenticates_witness :
  GetUserByAPIKey
    (example.after (CreateUser (User.mk 0 "k2" "V") example.two_models) example.two_models) "k2"
  = Some (User.mk 2 "k2" "V").
Proof.
  pose proof (@created_user_authenticates Qc (User.mk 0 "k2" "V") example.two_models) as H.
  assert (invariant.unique_api_keys example.two_models) as Hu
    by (vm_compute; repeat constructor; intros []).
  specialize (H Hu). vm_compute in H. destruct H as [_ [_ [Hget _]]]. exact Hget.
Defined.

Lemma deleted_user_is_locked_out_witness :
  GetUserByAPIKey (DeleteUser 1 example.pinned) "k" = None
  /\ sessions (DeleteUser 1 example.pinned) = sessions example.pinned.
Proof.
  destruct (@deleted_user_is_locked_out Qc 1 example.pinned (User.mk 1 "k" "U"))
    as [Hnone [_ [_ [_ Hs]]]].
  - vm_compute. repeat constructor. intros [].
  - vm_compute. left. reflexivity.
  - reflexivity.
  - split; [exact Hnone|]. apply Hs. reflexivity.
Defined.

(** ** Routing after the admin has removed something *)

Section Removed.
Context {R : Type} {ops : RealOps R}.

Lemma route_unknown_model now (u : R) userID modelName (db : DB R) :
  GetModelByName db modelName = None ->
  router.Route now u userID modelName db = Failed ("model not found: " ++ modelName).
Proof.
  intros Hm. unfold router.Route, router.selection. rewrite Hm.
  destruct (GetSessionByUser db userID) as [s|]; [|reflexivity].
  destruct (GetChannel db _) as [ch|]; [|reflexivity].
  destruct (Channel.Enabled ch); reflexivity.
Qed.

Lemma route_without_session now (u : R) userID modelName (db : DB R) routed db' :
  GetSessionByUser db userID = None ->
  router.Route now u userID modelName db = Ok (routed, db') ->
  router.IsNew routed = true.
Proof.
  intros Hnone. unfold router.Route. rewrite Hnone. intros H.
  destruct (selection_sound _ _ _ _ _ H) as [m [mc Hs]]. apply Hs.
Qed.

(** X20.  [RemoveModelChannel] removes exactly the mappings of that
    model to that channel, and from then on no route for the model
    returns the channel, not even for a user whose session is pinned to
    it. *)
Theorem removed_mapping_not_routed modelID channelID (db : DB R) now (u : R) userID modelName m
  routed db' :
  GetModelByName db modelName = Some m ->
  Model.ID m = modelID ->
  router.Route now u userID modelName (RemoveModelChannel modelID channelID db)
  = Ok (routed, db') ->
  Channel.ID (router.Channel routed) <> channelID
  /\ (forall mc, In mc (model_channels (RemoveModelChannel modelID channelID db))
                 <-> In mc (model_channels db)
                     /\ ~ (ModelChannel.ModelID mc = modelID
                           /\ ModelChannel.ChannelID mc = channelID)).
Proof.
  intros Hm Hid Hroute.
  assert (forall mc, In mc (model_channels (RemoveModelChannel modelID channelID db))
                     <-> In mc (model_channels db)
                         /\ ~ (ModelChannel.ModelID mc = modelID
                               /\ ModelChannel.ChannelID mc = channelID)) as Hrows.
  { intros mc. unfold RemoveModelChannel. cbn [model_channels set_model_channels].
    rewrite filter_In, negb_true_iff, andb_false_iff, !Z.eqb_neq.
    split; intros [Hin Hnot]; (split; [exact Hin|]).
    - intros [Ha Hb]. destruct Hnot; contradiction.
    - destruct (Z.eq_dec (ModelChannel.ModelID mc) modelID) as [Ha|Ha]; [|left; exact Ha].
      right. intros Hb. apply Hnot. split; assumption. }
  split; [|exact Hrows].
  edestruct routed_binding as [m' [mc [Hm' [Hin [Hmid [Hcid _]]]]]]; [exact Hroute|].
  assert (m' = m) as -> by (unfold GetModelByName in *; cbn in Hm'; congruence).
  apply Hrows in Hin as [_ Hnot]. intros Heq. apply Hnot. split; congruence.
Qed.

(** X21.  After [Manager.Delete] the channel is gone and no route
    returns it, whether or not its mappings and sessions were left
    behind: a user pinned to it is routed by selection among the
    remaining channels. *)
Theorem deleted_channel_not_routed id (db : DB R) now (u : R) userID modelName routed db' :
  router.Route now u userID modelName (channel.Delete id db) = Ok (routed, db') ->
  GetChannel (channel.Delete id db) id = None
  /\ Channel.ID (router.Channel routed) <> id
  /\ In (router.Channel routed) (channels db)
  /\ ((exists s, GetSessionByUser (channel.Delete id db) userID = Some s
                 /\ Session.ChannelID s = id) ->
      router.IsNew routed = true).
Proof.
  intros Hroute.
  assert (GetChannel (channel.Delete id db) id = None) as Hgone.
  { unfold channel.Delete, DeleteChannel, GetChannel.
    destruct (foreign_keys db); cbn; apply (find_filter_negb (fun c => Channel.ID c =? id)). }
  edestruct routed_channel_enabled as [Hget _]; [exact Hroute|].
  split; [exact Hgone|]. split; [|split].
  - intros Heq. rewrite Heq, Hgone in Hget. discriminate.
  - apply GetChannel_some in Hget as [Hin _].
    unfold channel.Delete, DeleteChannel in Hin.
    destruct (foreign_keys db); cbn in Hin; apply filter_In in Hin as [Hin _]; exact Hin.
  - intros [s [Hs Hsid]]. revert Hroute. unfold router.Route. rewrite Hs, Hsid, Hgone.
    intros H. destruct (selection_sound _ _ _ _ _ H) as [m [mc Hsel]]. apply Hsel.
Qed.

(** X22.  [DeleteSession] removes the session with that id and no
    other; a user who had no other session has none afterwards, so the
    next successful route of that user is a fresh selection. *)
Theorem deleted_session_unpins id (db : DB R) userID :
  (forall s, In s (sessions db) -> Session.UserID s = userID -> Session.ID s = id) ->
  GetSession (DeleteSession id db) id = None
  /\ (forall id', id' <> id -> GetSession (DeleteSession id db) id' = GetSession db id')
  /\ GetSessionByUser (DeleteSession id db) userID = None
  /\ (forall now (u : R) modelName routed db',
        router.Route now u userID modelName (DeleteSession id db) = Ok (routed, db') ->
        router.IsNew routed = true)
  /\ (forall other, other <> userID ->
        (forall s, In s (sessions db) -> Session.UserID s = other -> Session.ID s <> id) ->
        GetSessionByUser (DeleteSession id db) other = GetSessionByUser db other).
Proof.
  intros Honly.
  assert (GetSessionByUser (DeleteSession id db) userID = None) as Hnone.
  { unfold GetSessionByUser, DeleteSession. cbn [sessions set_sessions].
    assert (filter (fun s => Session.UserID s =? userID)
              (filter (fun s => negb (Session.ID s =? id)) (sessions db)) = []) as ->;
      [|reflexivity].
    induction (sessions db) as [|a l IH]; [reflexivity|]. cbn [filter].
    assert (filter (fun s => Session.UserID s =? userID)
              (filter (fun s => negb (Session.ID s =? id)) l) = []) as IH'
      by (apply IH; intros s Hs; apply Honly; right; exact Hs).
    destruct (Z.eqb_spec (Session.ID a) id) as [Ha|Ha]; cbn [negb filter]; [exact IH'|].
    destruct (Z.eqb_spec (Session.UserID a) userID) as [Hu|Hu]; [|exact IH'].
    exfalso. apply Ha. apply Honly; [left; reflexivity|exact Hu]. }
  split; [|split; [|split; [exact Hnone|split]]].
  - unfold GetSession, DeleteSession. cbn [sessions set_sessions].
    apply (find_filter_negb (fun s => Session.ID s =? id)).
  - intros id' Hne. unfold GetSession, DeleteSession. cbn [sessions set_sessions].
    apply find_filter_keeping. intros x Hx. apply Z.eqb_eq in Hx.
    apply negb_true_iff, Z.eqb_neq. congruence.
  - intros now u modelName routed db' Hroute.
    eapply route_without_session; [exact Hnone|exact Hroute].
  - intros other Hne Hother. unfold GetSessionByUser, DeleteSession.
    cbn [sessions set_sessions]. f_equal.
    induction (sessions db) as [|a l IH]; [reflexivity|]. cbn [filter].
    assert (filter (fun s => Session.UserID s =? other)
              (filter (fun s => negb (Session.ID s =? id)) l)
            = filter (fun s => Session.UserID s =? other) l) as IH'
      by (apply IH; [intros s Hs; apply Honly; right; exact Hs
                    |intros s Hs; apply Hother; right; exact Hs]).
    destruct (Z.eqb_spec (Session.ID a) id) as [Ha|Ha]; cbn [negb filter].
    + destruct (Z.eqb_spec (Session.UserID a) other) as [Hu|Hu]; [|exact IH'].
      exfalso. exact (Hother a (or_introl eq_refl) Hu Ha).
    + rewrite IH'. reflexivity.
Qed.

(** X23.  After the model handler's [DeleteModel] the model's name is not
    found and its mappings are gone, so every route for that name fails
    with [model not found]; the sessions of its users stay. *)
Theorem deleted_model_not_found id (db : DB R) m :
  invariant.unique_model_names db ->
  In m (models db) ->
  Model.ID m = id ->
  let db' := snd (model.DeleteModel id db) in
  fst (model.DeleteModel id db) = 204
  /\ GetModelByName db' (Model.Name m) = None
  /\ GetModelChannelsByModel db' id = []
  /\ sessions db' = sessions db
  /\ (forall now (u : R) userID,
        router.Route now u userID (Model.Name m) db'
        = Failed ("model not found: " ++ Model.Name m))
  /\ (forall name other, GetModelByName db name = Some other -> Model.ID other <> id ->
                         GetModelByName db' name = Some other).
Proof.
  intros Hu Hin Hid. cbv zeta.
  destruct (DeleteModel_removes_mappings id db) as [_ [Hmc [_ [Hs _]]]]. cbv zeta in Hmc, Hs.
  assert (models (snd (model.DeleteModel id db))
          = filter (fun x => negb (Model.ID x =? id)) (models db)) as Hmodels.
  { unfold model.DeleteModel, DeleteModel, RemoveAllModelChannelsForModel. cbn.
    destruct (foreign_keys db); reflexivity. }
  assert (GetModelByName (snd (model.DeleteModel id db)) (Model.Name m) = None) as Hnone.
  { unfold GetModelByName. rewrite Hmodels.
    destruct (find _ _) as [x|] eqn:Ef; [|reflexivity].
    apply find_some in Ef as [Hx Hk]. apply String.eqb_eq in Hk.
    apply filter_In in Hx as [Hx Hne]. apply negb_true_iff, Z.eqb_neq in Hne.
    exfalso. apply Hne.
    rewrite (NoDup_key_inj Model.Name (models db) x m Hu Hx Hin Hk). exact Hid. }
  split; [reflexivity|]. split; [exact Hnone|]. split; [exact Hmc|]. split; [exact Hs|].
  split.
  - intros now u userID. apply route_unknown_model. exact Hnone.
  - intros name other Hget Hne. unfold GetModelByName in *. rewrite Hmodels.
    rewrite find_filter_keeping_in; [exact Hget|].
    intros x Hx Hk. apply String.eqb_eq in Hk.
    apply find_some in Hget as [Ho Hko]. apply String.eqb_eq in Hko.
    assert (x = other) as ->
      by (apply (NoDup_key_inj Model.Name (models db)); [exact Hu|exact Hx|exact Ho|congruence]).
    apply negb_true_iff, Z.eqb_neq. exact Hne.
Qed.

End Removed.

Lemma removed_mapping_not_routed_witness :
  Channel.ID (router.Channel
                (router.mkRouteResult (Channel.mk 1 "c1" "https://one" "sk-1" 10 true 1 1)
                   "x" 1 true)) <> 2.
Proof.
  destruct (@removed_mapping_not_routed Qc exact 1 2 example.shared_model 300 (Q2Qc (1 # 2)) 1
              "gpt-4" (Model.mk 1 "gpt-4" 3 3)
              (router.mkRouteResult (Channel.mk 1 "c1" "https://one" "sk-1" 10 true 1 1) "x" 1 true)
              (example.after (router.Route 300 (Q2Qc (1 # 2)) 1 "gpt-4"
                                (RemoveModelChannel 1 2 example.shared_model))
                 example.shared_model))
    as [Hne _].
  - vm_compute. reflexivity.
  - reflexivity.
  - vm_compute. reflexivity.
  - exact Hne.
Defined.

Lemma deleted_channel_not_routed_witness :
  GetChannel (channel.Delete 2 example.shared_model) 2 = None
  /\ Channel.ID (router.Channel
                   (router.mkRouteResult (Channel.mk 1 "c1" "https://one" "sk-1" 10 true 1 1)
                      "x" 1 true)) <> 2.
Proof.
  destruct (@deleted_channel_not_routed Qc exact 2 example.shared_model 300 (Q2Qc (1 # 2)) 1
              "gpt-4"
              (router.mkRouteResult (Channel.mk 1 "c1" "https://one" "sk-1" 10 true 1 1) "x" 1 true)
              (example.after (router.Route 300 (Q2Qc (1 # 2)) 1 "gpt-4"
                                (channel.Delete 2 example.shared_model))
                 example.shared_model))
    as [Hgone [Hne _]].
  - vm_compute. reflexivity.
  - split; [exact Hgone|exact Hne].
Defined.

Lemma deleted_session_unpins_witness :
  GetSessionByUser (DeleteSession 1 example.pinned) 1 = None.
Proof.
  destruct (@deleted_session_unpins Qc exact 1 example.pinned 1) as [_ [_ [Hnone _]]].
  - intros s Hs _. vm_compute in Hs. destruct Hs as [<-|[]]. reflexivity.
  - exact Hnone.
Defined.

Lemma deleted_model_not_found_witness :
  router.Route 300 (Q2Qc 0) 1 "gpt-4" (snd (model.DeleteModel 1 example.pinned))
  = Failed "model not found: gpt-4".
Proof.
  destruct (@deleted_model_not_found Qc exact 1 example.pinned (Model.mk 1 "gpt-4" 3 3))
    as [_ [_ [_ [_ [Hroute _]]]]].
  - vm_compute. repeat constructor; cbn; intuition discriminate.
  - vm_compute. left. reflexivity.
  - reflexivity.
  - apply (Hroute 300 (Q2Qc 0) 1).
Defined.

(** ** The range of a score, in exact arithmetic *)

Lemma this_plus (x y : Qc) : (this (x + y) == this x + this y)%Q.
Proof. unfold Qcplus, Q2Qc. cbn [this]. apply Qred_correct. Qed.

Lemma this_minus (x y : Qc) : (this (x - y) == this x - this y)%Q.
Proof.
  unfold Qcminus, Qcplus, Qcopp, Q2Qc. cbn [this]. rewrite !Qred_correct. reflexivity.
Qed.

Lemma this_mult (x y : Qc) : (this (x * y) == this x * this y)%Q.
Proof. unfold Qcmult, Q2Qc. cbn [this]. apply Qred_correct. Qed.

Lemma Qc_product_bounds (a b w : Qc) :
  (0 < a -> a <= w -> 0 < b -> b <= 1 -> 0 < a * b /\ a * b <= w)%Qc.
Proof.
  unfold Qclt, Qcle. rewrite this_mult.
  change (this 0%Qc) with 0%Q. change (this 1%Qc) with 1%Q.
  intros Ha Haw Hb Hb1. split; nra.
Qed.

Lemma Qc_inverse_bounds (x : Qc) :
  (0 <= x -> 0 < 1 / (1 + x) /\ 1 / (1 + x) <= 1)%Qc.
Proof.
  unfold Qclt, Qcle. change (this 0%Qc) with 0%Q. change (this 1%Qc) with 1%Q. intros Hx.
  assert (0 < this (1 + x)%Qc)%Q as Hpos.
  { rewrite this_plus. change (this 1%Qc) with 1%Q. lra. }
  assert ((1 + x)%Qc <> 0%Qc) as Hnz.
  { intros H. rewrite H in Hpos. change (this 0%Qc) with 0%Q in Hpos. lra. }
  assert ((1 / (1 + x) * (1 + x))%Qc = 1%Qc) as Hinv by (field; exact Hnz).
  assert (this (1 / (1 + x))%Qc * this (1 + x)%Qc == 1)%Q as Hq.
  { rewrite <- this_mult, Hinv. reflexivity. }
  set (f := this (1 / (1 + x))%Qc) in *. set (d := this (1 + x)%Qc) in *.
  assert (1 <= d)%Q as Hd by (unfold d; rewrite this_plus; change (this 1%Qc) with 1%Q; lra).
  split; nra.
Qed.

Lemma Qc_ltb_false (x y : Qc) : Qc_ltb x y = false -> (y <= x)%Qc.
Proof.
  unfold Qc_ltb. destruct (x ?= y)%Qc eqn:E; [|discriminate|]; intros _.
  - apply Qceq_alt in E. rewrite E. apply Qcle_refl.
  - apply Qclt_le_weak. apply Qcgt_alt. exact E.
Qed.

(** X24.  In exact arithmetic, the score of a channel with a positive
    weight is its weight when it has no metrics row, and otherwise lies
    above 0 and at most at the weight as long as the recorded mean
    latency and error rate are not negative: metrics only lower a score,
    and the floor of 0.1 on the error factor keeps it positive even at an
    error rate of 1. *)
Theorem score_within_weight (db : DB Qc) ch :
  0 < Channel.Weight ch ->
  (forall row, GetChannelMetrics db (Channel.ID ch) = Some row ->
     (0 <= ChannelMetrics.LatencyAvg row)%Qc /\ (0 <= ChannelMetrics.ErrorRate row)%Qc) ->
  (0 < router.calculateScore db ch)%Qc
  /\ (router.calculateScore db ch <= ofZ (Channel.Weight ch))%Qc
  /\ (GetChannelMetrics db (Channel.ID ch) = None ->
      router.calculateScore db ch = ofZ (Channel.Weight ch)).
Proof.
  intros Hw Hrow. pose proof (exact_ofZ_pos Hw) as Hwpos.
  unfold router.calculateScore.
  destruct (GetChannelMetrics db (Channel.ID ch)) as [row|] eqn:E.
  - destruct (Hrow row eq_refl) as [Hl He].
    cbn [ofZ radd rsub rmul rdiv rltb tenth exact].
    change (Q2Qc (inject_Z 0)) with 0%Qc. change (Q2Qc (inject_Z 1)) with 1%Qc.
    set (w := Q2Qc (inject_Z (Channel.Weight ch))) in *.
    assert ((0 < (if Qc_ltb 0 (ChannelMetrics.LatencyAvg row)
                  then w * (1 / (1 + ChannelMetrics.LatencyAvg row)) else w)
             /\ (if Qc_ltb 0 (ChannelMetrics.LatencyAvg row)
                 then w * (1 / (1 + ChannelMetrics.LatencyAvg row)) else w) <= w)%Qc)
      as [Hs0 Hs1].
    { destruct (Qc_ltb 0 (ChannelMetrics.LatencyAvg row)).
      - destruct (Qc_inverse_bounds Hl) as [Hf0 Hf1].
        apply Qc_product_bounds; [exact Hwpos|apply Qcle_refl|exact Hf0|exact Hf1].
      - split; [exact Hwpos|apply Qcle_refl]. }
    assert ((0 < (if Qc_ltb (1 - ChannelMetrics.ErrorRate row) (Q2Qc (1 # 10))
                  then Q2Qc (1 # 10) else 1 - ChannelMetrics.ErrorRate row)
             /\ (if Qc_ltb (1 - ChannelMetrics.ErrorRate row) (Q2Qc (1 # 10))
                 then Q2Qc (1 # 10) else 1 - ChannelMetrics.ErrorRate row) <= 1)%Qc)
      as [He0 He1].
    { destruct (Qc_ltb (1 - ChannelMetrics.ErrorRate row) (Q2Qc (1 # 10))) eqn:Elt.
      - split; [reflexivity|discriminate].
      - apply Qc_ltb_false in Elt. revert He Elt. unfold Qclt, Qcle.
        rewrite this_minus. change (this 0%Qc) with 0%Q. change (this 1%Qc) with 1%Q.
        change (this (Q2Qc (1 # 10))) with (1 # 10)%Q. intros He Elt. split; lra. }
    split; [|split; [|discriminate]].
    + apply (Qc_product_bounds Hs0 Hs1 He0 He1).
    + apply (Qc_product_bounds Hs0 Hs1 He0 He1).
  - split; [exact Hwpos|]. split; [apply Qcle_refl|reflexivity].
Qed.

Lemma score_within_weight_witness :
  (0 < router.calculateScore example.with_metrics
         (Channel.mk 1 "c1" "https://one" "sk-1" 10 true 1 1))%Qc
  /\ (router.calculateScore example.with_metrics
        (Channel.mk 1 "c1" "https://one" "sk-1" 10 true 1 1) <= Q2Qc (inject_Z 10))%Qc.
Proof.
  destruct (@score_within_weight example.with_metrics
              (Channel.mk 1 "c1" "https://one" "sk-1" 10 true 1 1)) as [H0 [H1 _]].
  - cbn. lia.
  - intros row Hrow. vm_compute in Hrow. inversion Hrow; subst row. split; discriminate.
  - split; [exact H0|exact H1].
Defined.

(** ** The two auth filters *)

Section Filters.
Context {R : Type} {ops : RealOps R}.

(** X25.  [OptionalAuth] sets a user exactly when [RequireAuth] lets the
    request through, and it is the same user; what [RequireAuth] rejects
    it rejects with status 401, for a missing key when the header yields
    none and for an invalid key otherwise. *)
Theorem filters_agree (db : DB R) h :
  match auth.RequireAuth db h with
  | auth.Authenticated user =>
      auth.OptionalAuth db h = Some user /\ auth.extractAPIKey h = User.APIKey user
  | auth.Rejected code error =>
      auth.OptionalAuth db h = None
      /\ code = 401
      /\ error = (if String.eqb (auth.extractAPIKey h) "" then "missing API key"
                  else "invalid API key")
  end.
Proof.
  unfold auth.RequireAuth, auth.OptionalAuth. cbv zeta.
  destruct (String.eqb (auth.extractAPIKey h) ""); [repeat split|].
  destruct (GetUserByAPIKey db (auth.extractAPIKey h)) as [user|] eqn:E; [|repeat split].
  split; [reflexivity|]. unfold GetUserByAPIKey in E. apply find_some in E as [_ Hk].
  apply String.eqb_eq in Hk. symmetry. exact Hk.
Qed.

End Filters.

(** ** Creating a session *)

Section Sessions.
Context {R : Type} {ops : RealOps R}.

(** X26.  With foreign keys off, [CreateSession] fails exactly when the
    user already has a session on the channel, whatever its age; when it
    succeeds the new row has the next id and both timestamps at the
    current second, [GetSessionByUserAndChannel] and [GetSession] find
    it, the other pairs and ids read as before, and no user has two
    sessions on one channel. *)
Theorem created_session_is_found now userID channelID (db : DB R) :
  foreign_keys db = false ->
  invariant.unique_user_channel db ->
  invariant.session_ids_bounded db ->
  match CreateSession now (Session.mk 0 userID channelID 0 0) db with
  | Failed _ => exists s, GetSessionByUserAndChannel db userID channelID = Some s
  | Ok (out, db') =>
      let row := Session.mk (sessions_seq db + 1) userID channelID now now in
      GetSessionByUserAndChannel db userID channelID = None
      /\ Session.ID out = sessions_seq db + 1
      /\ sessions db' = sessions db ++ [row]
      /\ GetSessionByUserAndChannel db' userID channelID = Some row
      /\ GetSession db' (sessions_seq db + 1) = Some row
      /\ (forall u c, (u, c) <> (userID, channelID) ->
            GetSessionByUserAndChannel db' u c = GetSessionByUserAndChannel db u c)
      /\ (forall id, id <> sessions_seq db + 1 -> GetSession db' id = GetSession db id)
      /\ invariant.unique_user_channel db'
      /\ invariant.session_ids_bounded db'
  end.
Proof.
  intros Hfk Hu Hb. unfold CreateSession. cbn [Session.UserID Session.ChannelID].
  destruct (existsb _ (sessions db)) eqn:Ex.
  - apply existsb_exists in Ex as [x [Hin Hk]]. unfold GetSessionByUserAndChannel.
    destruct (find _ (sessions db)) as [s|] eqn:Ef; [exists s; reflexivity|].
    exfalso. pose proof (find_none _ _ Ef x Hin) as Hx. cbn in Hx.
    rewrite Hk in Hx. discriminate.
  - rewrite Hfk. cbn [andb]. cbv zeta.
    set (row := Session.mk (sessions_seq db + 1) userID channelID now now).
    assert (GetSessionByUserAndChannel db userID channelID = None) as Hnone.
    { unfold GetSessionByUserAndChannel.
      destruct (find _ (sessions db)) as [x|] eqn:Ef; [|reflexivity].
      apply find_some in Ef as [Hin Hk].
      assert (existsb (fun s => (Session.UserID s =? userID)
                                && (Session.ChannelID s =? channelID)) (sessions db) = true)
        as Ht by (apply existsb_exists; exists x; split; assumption).
      rewrite Ex in Ht. discriminate. }
    assert (GetSession db (sessions_seq db + 1) = None) as Hfresh.
    { unfold GetSession. destruct (find _ (sessions db)) as [x|] eqn:Ef; [|reflexivity].
      apply find_some in Ef as [Hin Hk]. apply Z.eqb_eq in Hk.
      pose proof (proj1 (Forall_forall _ _) Hb x Hin) as Hle. cbn in Hle. lia. }
    split; [exact Hnone|]. split; [reflexivity|]. split; [reflexivity|].
    unfold GetSessionByUserAndChannel, GetSession in *. cbn [sessions set_sessions].
    split; [|split; [|split; [|split; [|split]]]].
    + rewrite (find_app_none _ _ row Hnone). cbn. rewrite !Z.eqb_refl. reflexivity.
    + rewrite (find_app_none _ _ row Hfresh). cbn. rewrite Z.eqb_refl. reflexivity.
    + intros u c Hne. apply find_app_other. cbn.
      apply andb_false_iff.
      destruct (Z.eqb_spec userID u) as [->|]; [|left; reflexivity].
      right. apply Z.eqb_neq. intros ->. apply Hne. reflexivity.
    + intros id Hne. apply find_app_other. cbn. apply Z.eqb_neq. congruence.
    + unfold invariant.unique_user_channel in *. cbn [sessions set_sessions].
      rewrite map_app. cbn.
      apply NoDup_app; [exact Hu|constructor; [intros []|constructor]|].
      intros key Hin [Hk|[]]. subst key.
      apply in_map_iff in Hin as [s [Hs Hin]]. inversion Hs as [[Hsu Hsc]].
      assert (existsb (fun s0 => (Session.UserID s0 =? userID)
                                 && (Session.ChannelID s0 =? channelID)) (sessions db) = true)
        as Ht.
      { apply existsb_exists. exists s. split; [exact Hin|].
        rewrite Hsu, Hsc, !Z.eqb_refl. reflexivity. }
      rewrite Ex in Ht. discriminate.
    + unfold invariant.session_ids_bounded in *. cbn [sessions sessions_seq set_sessions].
      apply Forall_app. split.
      * eapply Forall_impl; [|exact Hb]. cbn. intros; lia.
      * constructor; [cbn; lia|constructor].
Qed.

End Sessions.

Lemma created_session_is_found_witness :
  exists s, GetSessionByUserAndChannel example.pinned 1 1 = Some s.
Proof.
  pose proof (@created_session_is_found Qc 500 1 1 example.pinned) as H.
  assert (foreign_keys example.pinned = false) as Hfk by reflexivity.
  assert (invariant.unique_user_channel example.pinned) as Hu
    by (vm_compute; repeat constructor; intros []).
  assert (invariant.session_ids_bounded example.pinned) as Hb
    by (vm_compute; repeat constructor; discriminate).
  specialize (H Hfk Hu Hb). vm_compute in H. exact H.
Defined.

(** ** From creating a channel to routing to it *)

Section Lifecycle.
Context {R : Type} {ops : RealOps R}.

Lemma Create_lookup now req (db : DB R) ch db1 :
  invariant.channel_ids_bounded db ->
  channel.Create now req db = Ok (ch, db1) ->
  let row := Channel.mk (channels_seq db + 1) (channel.Name req) (channel.BaseURL req)
               (channel.APIKey req)
               (if channel.Weight req <=? 0 then 10 else channel.Weight req)
               (channel.Enabled req) now now in
  Channel.ID ch = channels_seq db + 1
  /\ GetChannel db1 (channels_seq db + 1) = Some row
  /\ (forall id, id <> channels_seq db + 1 -> GetChannel db1 id = GetChannel db id)
  /\ foreign_keys db1 = foreign_keys db
  /\ models db1 = models db
  /\ model_channels db1 = model_channels db
  /\ sessions db1 = sessions db
  /\ sessions_seq db1 = sessions_seq db
  /\ invariant.channel_ids_bounded db1.
Proof.
  intros Hb. unfold channel.Create, CreateChannel. cbn [Channel.Name].
  destruct (existsb _ (channels db)); [discriminate|].
  intros H; inversion H; subst; clear H. cbv zeta.
  assert (GetChannel db (channels_seq db + 1) = None) as Hfresh.
  { unfold GetChannel. destruct (find _ (channels db)) as [x|] eqn:Ef; [|reflexivity].
    apply find_some in Ef as [Hin Hk]. apply Z.eqb_eq in Hk.
    pose proof (proj1 (Forall_forall _ _) Hb x Hin) as Hle. cbn in Hle. lia. }
  split; [reflexivity|]. unfold GetChannel in *. cbn.
  split; [|split; [|repeat split]].
  - rewrite (find_app_none _ _ _ Hfresh). cbn. rewrite Z.eqb_refl. reflexivity.
  - intros id Hne. apply find_app_other. cbn. apply Z.eqb_neq. congruence.
  - unfold invariant.channel_ids_bounded in *. cbn. apply Forall_app. split.
    + eapply Forall_impl; [|exact Hb]. cbn. intros; lia.
    + constructor; [cbn; lia|constructor].
Qed.

Lemma no_session_of_user (db : DB R) userID :
  (forall s, In s (sessions db) -> Session.UserID s <> userID) ->
  GetSessionByUser db userID = None.
Proof.
  intros Hnone. unfold GetSessionByUser.
  destruct (filter _ (sessions db)) as [|s l] eqn:E; [reflexivity|].
  exfalso. assert (In s (filter (fun s0 => Session.UserID s0 =? userID) (sessions db)))
    as Hin by (rewrite E; left; reflexivity).
  apply filter_In in Hin as [Hin Hu]. apply Z.eqb_eq in Hu. exact (Hnone s Hin Hu).
Qed.

(** X27.  From the admin calls to a route.  A channel created with
    [enabled] false, which is what a request without that member binds
    to, is stored disabled and never routed.  A channel created enabled
    and then mapped to a model makes the model routable: a user without a
    session is routed with a new session, and to that channel, under the
    backend model name of the mapping, when the model had no mapping
    before. *)
Theorem created_channel_routing now req (db : DB R) ch db1 :
  invariant.channel_ids_bounded db ->
  channel.Create now req db = Ok (ch, db1) ->
  (channel.Enabled req = false ->
   forall t (u : R) userID modelName routed db',
     router.Route t u userID modelName db1 = Ok (routed, db') ->
     Channel.ID (router.Channel routed) <> Channel.ID ch)
  /\ (channel.Enabled req = true ->
      forall t1 modelName m backend weight mc db2 t2 (u : R) userID,
        foreign_keys db = false ->
        GetModelByName db modelName = Some m ->
        model.AddModelChannel t1 (Model.ID m) (Channel.ID ch) backend weight db1 = Ok (mc, db2) ->
        (forall s, In s (sessions db) -> Session.UserID s <> userID) ->
        exists routed db3,
          router.Route t2 u userID modelName db2 = Ok (routed, db3)
          /\ router.IsNew routed = true
          /\ (GetModelChannelsByModel db (Model.ID m) = [] ->
              Channel.ID (router.Channel routed) = Channel.ID ch
              /\ Channel.Name (router.Channel routed) = channel.Name req
              /\ Channel.BaseURL (router.Channel routed) = channel.BaseURL req
              /\ Channel.APIKey (router.Channel routed) = channel.APIKey req
              /\ router.BackendModelName routed = backend)).
Proof.
  intros Hb Hcreate.
  destruct (Create_lookup _ _ Hb Hcreate)
    as [Hid [Hrow [Hother [Hfk [Hmodels [Hmcs [Hsess [Hseq _]]]]]]]].
  cbv zeta in Hrow. split.
  - intros Hoff t u userID modelName routed db' Hroute Heq.
    edestruct routed_channel_enabled as [Hget Hen]; [exact Hroute|].
    rewrite Heq, Hid, Hrow in Hget. inversion Hget as [Hr]. rewrite <- Hr in Hen.
    cbn in Hen. rewrite Hoff in Hen. discriminate.
  - intros Hon t1 modelName m backend weight mc db2 t2 u userID Hfk0 Hm Hadd Hnone.
    unfold model.AddModelChannel, AddModelChannel in Hadd.
    cbn [ModelChannel.ModelID ModelChannel.ChannelID ModelChannel.Weight
         ModelChannel.BackendModelName ModelChannel.CreatedAt] in Hadd.
    destruct (existsb _ (model_channels db1)) eqn:Ex; [discriminate|].
    rewrite Hfk, Hfk0 in Hadd. cbn [andb] in Hadd.
    inversion Hadd; subst mc db2; clear Hadd.
    set (w := if weight <=? 0 then 10 else weight) in *.
    set (mcrow := ModelChannel.mk (model_channels_seq db1 + 1) (Model.ID m) (Channel.ID ch)
                    backend w t1).
    set (db2 := set_model_channels db1 (model_channels db1 ++ [mcrow])
                  (model_channels_seq db1 + 1)).
    set (row := Channel.mk (channels_seq db + 1) (channel.Name req) (channel.BaseURL req)
                  (channel.APIKey req)
                  (if channel.Weight req <=? 0 then 10 else channel.Weight req)
                  (channel.Enabled req) now now) in *.
    assert (GetChannel db2 (Channel.ID ch) = Some row) as Hch by (rewrite Hid; exact Hrow).
    assert (GetModelByName db2 modelName = Some m) as Hm2.
    { unfold GetModelByName in *. cbn [models db2 set_model_channels]. rewrite Hmodels. exact Hm. }
    assert (GetModelChannelsByModel db2 (Model.ID m)
            = GetModelChannelsByModel db (Model.ID m) ++ [mcrow]) as Hmcs2.
    { unfold GetModelChannelsByModel. cbn [model_channels db2 set_model_channels].
      rewrite filter_app, Hmcs. cbn. rewrite Z.eqb_refl. reflexivity. }
    assert (router.candidates db2 (GetModelChannelsByModel db2 (Model.ID m))
            = router.candidates db2 (GetModelChannelsByModel db (Model.ID m))
              ++ [router.mkMapping row backend w]) as Hcands.
    { rewrite Hmcs2. unfold router.candidates. rewrite flat_map_app. cbn [flat_map].
      cbn [ModelChannel.ChannelID mcrow ModelChannel.BackendModelName ModelChannel.Weight].
      rewrite Hch. cbn [Channel.Enabled row]. rewrite Hon. rewrite app_nil_r. reflexivity. }
    assert (forall s, In s (sessions db2) -> Session.UserID s <> userID) as Hnone2.
    { cbn [sessions db2 set_model_channels]. rewrite Hsess. exact Hnone. }
    edestruct (@selection_succeeds R ops t2 u userID modelName db2 m)
      as [routed [db3 [Hsel [Hnew _]]]].
    + cbn [foreign_keys db2 set_model_channels]. rewrite Hfk. exact Hfk0.
    + exact Hm2.
    + rewrite Hcands. intros Hnil. apply app_eq_nil in Hnil as [_ Hnil]. discriminate.
    + exact Hnone2.
    + exists routed, db3. unfold router.Route. rewrite (no_session_of_user _ Hnone2).
      split; [exact Hsel|]. split; [exact Hnew|].
      intros Hfirst. revert Hsel. unfold router.selection.
      rewrite Hm2. rewrite Hcands, Hmcs2, Hfirst. cbn [app router.candidates flat_map].
      cbn [router.selectBestMapping].
      destruct (CreateSession t2 _ db2) as [[s d]|e]; cbn [bind]; [|discriminate].
      intros H; inversion H; subst; clear H. cbn. rewrite Hid. repeat split.
Qed.

End Lifecycle.

Lemma created_channel_routing_witness :
  Channel.ID (router.Channel
                (router.mkRouteResult (Channel.mk 1 "c1" "https://one" "sk-1" 10 true 1 1)
                   "x" 1 true))
  <> Channel.ID (Channel.mk 3 "c3" "https://three" "sk-3" 10 false 0 0).
Proof.
  destruct (@created_channel_routing Qc exact 9
              (channel.mkCreateRequest "c3" "https://three" "sk-3" 0 false) example.two_models
              (Channel.mk 3 "c3" "https://three" "sk-3" 10 false 0 0)
              (example.after
                 (channel.Create 9 (channel.mkCreateRequest "c3" "https://three" "sk-3" 0 false)
                    example.two_models) example.two_models))
    as [Hoff _].
  - vm_compute. repeat constructor; discriminate.
  - vm_compute. reflexivity.
  - apply (Hoff eq_refl 300 (Q2Qc 0) 1 "gpt-4"
             (router.mkRouteResult (Channel.mk 1 "c1" "https://one" "sk-1" 10 true 1 1) "x" 1 true)
             (example.after
                (router.Route 300 (Q2Qc 0) 1 "gpt-4"
                   (example.after
                      (channel.Create 9
                         (channel.mkCreateRequest "c3" "https://three" "sk-3" 0 false)
                         example.two_models) example.two_models))
                example.two_models)).
    vm_compute. reflexivity.
Defined.
